(** * Pootle: the unit query/filter/sort pipeline and its neighbours

    A shallow embedding of
      - pootle/apps/pootle_store/views.py   (search, step query, get_units,
        context rows, timeline, comment and suggestion-review endpoints),
      - pootle/core/helpers.py              (filter names, export view),
      - pootle/core/browser.py              (table headings and rows),
      - pootle/apps/accounts/adapter.py     (ajax_response),
      - pootle/apps/virtualfolder/management/commands/add_vfolders.py.

    The relational store is represented by the rows it holds: a unit row
    carries the rows related to it (suggestions, submissions, quality checks,
    virtual folders), and a lazy query set is the table it reads together
    with the condition, the ordering and the extra columns accumulated by
    the calls made on it.  What differs from one database backend to
    another (letter case in the [contains] and [icontains] lookups, the
    place of NULL in an ordering) is a parameter of the model. *)

From Stdlib Require Import List ZArith Bool Lia String Ascii.
From Stdlib Require Import Permutation Sorted.
Import ListNotations.

Open Scope string_scope.
Open Scope Z_scope.

(** ** Exceptions *)

Inductive Raised :=
| Http400                  (* pootle.core.exceptions.Http400 *)
| Http404                  (* django.http.Http404 *)
| TypeError
| ValueError
| KeyError
| AttributeError
| AssertionError
| UnboundLocalError
| MultipleObjectsReturned
| CommandError.

Inductive Result (A : Type) :=
| Ok (a : A)
| Raise (e : Raised).
Arguments Ok {A} a.
Arguments Raise {A} e.

Definition bind {A B : Type} (r : Result A) (k : A -> Result B) : Result B :=
  match r with
  | Ok a => k a
  | Raise e => Raise e
  end.

Notation "x <- r ;; k" := (bind r (fun x => k))
  (at level 61, r at next level, right associativity).

(** ** Python texts

    The texts of the program are [unicode] objects: sequences of code
    points.  A text of the model is a [string] whose characters stand for
    the code points U+0000 to U+00FF, one character for one code point (not
    a byte of an encoding): [ascii_of_nat 201] is the capital E with acute
    accent, [ascii_of_nat 160] the no-break space.  On these code points
    [is_space], [is_upper_char] and [lower_char] are [unicode.isspace],
    [unicode.isupper] and [unicode.lower] of Python 2.7.  Texts with code
    points beyond U+00FF are outside the model. *)

Module PyStr.

Definition chars (s : string) : list ascii := list_ascii_of_string s.

Definition between (lo hi n : nat) : bool := Nat.leb lo n && Nat.leb n hi.

(** Blanks: U+0009 to U+000D, U+001C to U+0020, U+0085 and U+00A0. *)
Definition is_space (c : ascii) : bool :=
  let n := nat_of_ascii c in
  between 9 13 n || between 28 32 n || Nat.eqb n 133 || Nat.eqb n 160.

(** Upper-case letters: A to Z, and U+00C0 to U+00DE without the
    multiplication sign U+00D7. *)
Definition is_upper_char (c : ascii) : bool :=
  let n := nat_of_ascii c in
  between 65 90 n || between 192 214 n || between 216 222 n.

(** The lower-case letter of an upper-case letter lies 32 code points
    higher; other characters are their own. *)
Definition lower_char (c : ascii) : ascii :=
  if is_upper_char c then ascii_of_nat (nat_of_ascii c + 32) else c.

Fixpoint map_chars (f : ascii -> ascii) (s : string) : string :=
  match s with
  | EmptyString => EmptyString
  | String c rest => String (f c) (map_chars f rest)
  end.

(** [s.lower()] *)
Definition lower (s : string) : string := map_chars lower_char s.

Fixpoint has_upper (s : string) : bool :=
  match s with
  | EmptyString => false
  | String c rest => is_upper_char c || has_upper rest
  end.

(** [needle in hay]: [needle] occurs in [hay] as a block. *)
Fixpoint contains (needle hay : string) : bool :=
  String.prefix needle hay
  || match hay with
     | EmptyString => false
     | String _ rest => contains needle rest
     end.

(** [s.split()] with no argument: the maximal runs of characters that are
    no blanks.  [cur] is the word being read. *)
Fixpoint split_ws_aux (cur : string) (s : string) : list string :=
  let flush := match cur with
               | EmptyString => []
               | _ => [cur]
               end in
  match s with
  | EmptyString => flush
  | String c rest =>
      if is_space c then (flush ++ split_ws_aux "" rest)%list
      else split_ws_aux (cur ++ String c "") rest
  end.

Definition split_ws (s : string) : list string := split_ws_aux "" s.

(** [s.split(sep)] for a one-character separator: never the empty list. *)
Fixpoint split_on_aux (sep : ascii) (cur : list ascii) (s : string)
  : list string :=
  match s with
  | EmptyString => [string_of_list_ascii (rev cur)]
  | String c rest =>
      if Ascii.eqb c sep
      then string_of_list_ascii (rev cur) :: split_on_aux sep [] rest
      else split_on_aux sep (c :: cur) rest
  end.

Definition split_on (sep : ascii) (s : string) : list string :=
  split_on_aux sep [] s.

(** [sep.join(parts)] *)
Fixpoint join (sep : string) (parts : list string) : string :=
  match parts with
  | [] => ""
  | [p] => p
  | p :: rest => p ++ sep ++ join sep rest
  end.

Fixpoint has_char (c : ascii) (s : string) : bool :=
  match s with
  | EmptyString => false
  | String d rest => Ascii.eqb c d || has_char c rest
  end.

(** Truth value of a text: only the empty text is falsy. *)
Definition truthy (s : string) : bool := negb (String.eqb s "").

Definition mem (s : string) (l : list string) : bool :=
  existsb (String.eqb s) l.

End PyStr.

(** ** Request parameters: Django's [QueryDict]

    A key maps to the list of the values given for it; reading a key yields
    the last of them. *)

Definition QueryDict := list (string * list string).

Module QD.

Fixpoint getlist (key : string) (d : QueryDict) : option (list string) :=
  match d with
  | [] => None
  | (k, vs) :: rest => if String.eqb k key then Some vs else getlist key rest
  end.

(** [key in d] *)
Definition contains (key : string) (d : QueryDict) : bool :=
  match getlist key d with Some _ => true | None => false end.

(** [d.get(key, None)] *)
Definition get (key : string) (d : QueryDict) : option string :=
  match getlist key d with
  | Some vs => match rev vs with v :: _ => Some v | [] => None end
  | None => None
  end.

(** [d.setlist(key, vs)] *)
Fixpoint setlist (key : string) (vs : list string) (d : QueryDict)
  : QueryDict :=
  match d with
  | [] => [(key, vs)]
  | (k, old) :: rest =>
      if String.eqb k key then (k, vs) :: rest
      else (k, old) :: setlist key vs rest
  end.

End QD.

(** ** The rows of the store *)

Definition UserId := Z.
Definition DateTime := Z.

Module SuggestionStates.
Inductive t := PENDING | ACCEPTED | REJECTED.
Definition eqb (a b : t) : bool :=
  match a, b with
  | PENDING, PENDING | ACCEPTED, ACCEPTED | REJECTED, REJECTED => true
  | _, _ => false
  end.
End SuggestionStates.

Record Suggestion := mkSuggestion {
  suggestion_id : Z;
  suggestion_state : SuggestionStates.t;
  suggestion_user : UserId;
  suggestion_creation_time : DateTime
}.

Record Submission := mkSubmission {
  submission_submitter : UserId;
  submission_type : Z;
  submission_creation_time : DateTime
}.

Record QualityCheck := mkQualityCheck {
  qualitycheck_name : string;
  qualitycheck_false_positive : bool
}.

(** A translation unit.  [vfolders] holds the priorities of the virtual
    folders the unit is associated with; priorities are only compared and
    maximised, which integers stand in for. *)
Record Unit := mkUnit {
  id : Z;
  state : Z;
  source_f : string;
  target_f : string;
  translator_comment : string;
  developer_comment : string;
  locations : string;
  submitted_on : option DateTime;
  submitted_by : option UserId;
  commented_by : option UserId;
  commented_on : option DateTime;
  store_pootle_path : string;
  suggestion_set : list Suggestion;
  submission_set : list Submission;
  qualitycheck_set : list QualityCheck;
  vfolders : list Z
}.

(** ** The database backend

    Three things the program leaves to the database.  [db_fold] is the
    letter folding of the [icontains] lookup: two characters the lookup
    takes for the same have the same fold (upper and lower case of a letter;
    on SQLite only for the letters A to Z).  [db_contains_folds] tells
    whether the [contains] lookup folds letters too, as it does on SQLite,
    whose LIKE has no case-sensitive form; on PostgreSQL and MySQL it
    compares characters as they are.  [db_nulls_smallest] tells whether NULL
    sorts below every value (SQLite, MySQL) or above (PostgreSQL). *)

Record Database := mkDatabase {
  db_fold : ascii -> ascii;
  db_contains_folds : bool;
  db_nulls_smallest : bool
}.

Module DB.

(** [column__icontains=needle] *)
Definition icontains (db : Database) (needle column : string) : bool :=
  PyStr.contains (PyStr.map_chars (db_fold db) needle)
                 (PyStr.map_chars (db_fold db) column).

(** [column__contains=needle] *)
Definition contains (db : Database) (needle column : string) : bool :=
  if db_contains_folds db then icontains db needle column
  else PyStr.contains needle column.

(** Comparison of nullable integer keys in an ascending ORDER BY. *)
Definition key_leb (db : Database) (a b : option Z) : bool :=
  match a, b with
  | None, None => true
  | None, Some _ => db_nulls_smallest db
  | Some _, None => negb (db_nulls_smallest db)
  | Some x, Some y => x <=? y
  end.

End DB.

(** ** Lazy query sets *)

Record QuerySet := mkQuerySet {
  table : list Unit;            (* the rows of the table, in table order *)
  where_ : Unit -> bool;        (* the accumulated WHERE clause *)
  is_empty : bool;              (* set by [none()] *)
  ordering : option (Unit -> Unit -> bool);
                                (* the ORDER BY in force, as a comparison *)
  order_by : list string;       (* [query.order_by] *)
  extra_select : list string;   (* the columns of [extra(select=...)] *)
  distinct_ : bool              (* [query.distinct] *)
}.

Module QS.

(** Insertion of a row into rows sorted by [leb]; equal rows keep their
    order. *)
Fixpoint insert_by (leb : Unit -> Unit -> bool) (u : Unit) (l : list Unit)
  : list Unit :=
  match l with
  | [] => [u]
  | v :: rest => if leb u v then u :: v :: rest
                 else v :: insert_by leb u rest
  end.

Fixpoint sort_by (leb : Unit -> Unit -> bool) (l : list Unit) : list Unit :=
  match l with
  | [] => []
  | u :: rest => insert_by leb u (sort_by leb rest)
  end.

(** The rows in the order the query gives them: the ORDER BY in force
    sorts the table.  Among rows that compare equal the database is free;
    here they stay in table order, and no theorem below depends on it. *)
Definition rows (qs : QuerySet) : list Unit :=
  match ordering qs with
  | Some leb => sort_by leb (table qs)
  | None => table qs
  end.

(** Running the query. *)
Definition evaluate (qs : QuerySet) : list Unit :=
  if is_empty qs then [] else List.filter (where_ qs) (rows qs).

Definition all_of (l : list Unit) : QuerySet :=
  mkQuerySet l (fun _ => true) false None [] [] false.

Definition none (qs : QuerySet) : QuerySet :=
  mkQuerySet (table qs) (where_ qs) true (ordering qs) (order_by qs)
             (extra_select qs) (distinct_ qs).

Definition filter (p : Unit -> bool) (qs : QuerySet) : QuerySet :=
  mkQuerySet (table qs) (fun u => where_ qs u && p u) (is_empty qs)
             (ordering qs) (order_by qs) (extra_select qs) (distinct_ qs).

Definition exclude (p : Unit -> bool) (qs : QuerySet) : QuerySet :=
  filter (fun u => negb (p u)) qs.

(** [distinct()].  Conditions on related rows are existential over the rows
    carried by the unit, so no unit row is ever repeated and there is
    nothing to remove; the query remembers that it is distinct. *)
Definition distinct (qs : QuerySet) : QuerySet :=
  mkQuerySet (table qs) (where_ qs) (is_empty qs) (ordering qs)
             (order_by qs) (extra_select qs) true.

(** [extra(select={name: ...})] *)
Definition extra (name : string) (qs : QuerySet) : QuerySet :=
  mkQuerySet (table qs) (where_ qs) (is_empty qs) (ordering qs)
             (order_by qs) (extra_select qs ++ [name])%list (distinct_ qs).

(** [extra(order_by=[...])]: the ordering is replaced, [query.order_by]
    is not touched. *)
Definition extra_order_by (leb : Unit -> Unit -> bool) (qs : QuerySet)
  : QuerySet :=
  mkQuerySet (table qs) (where_ qs) (is_empty qs) (Some leb) (order_by qs)
             (extra_select qs) (distinct_ qs).

(** [order_by(name)] for a column with the nullable integer [key]: the
    ordering is replaced. *)
Definition order_rows (db : Database) (key : Unit -> option Z)
           (descending : bool) (names : list string) (qs : QuerySet)
  : QuerySet :=
  let leb := if descending then fun u v => DB.key_leb db (key v) (key u)
             else fun u v => DB.key_leb db (key u) (key v) in
  mkQuerySet (table qs) (where_ qs) (is_empty qs) (Some leb) names
             (extra_select qs) (distinct_ qs).

(** [a | b].  An empty operand yields the other one.  Otherwise the
    queries are combined: a distinct query does not combine with one that
    is not ([AssertionError]), two queries that both have [extra(select)]
    columns do not combine under or ([ValueError]); the WHERE clauses are
    or-ed, and the ordering is that of [b] unless it has none. *)
Definition or (a b : QuerySet) : Result QuerySet :=
  if is_empty a then Ok b
  else if is_empty b then Ok a
  else if negb (Bool.eqb (distinct_ a) (distinct_ b)) then
    Raise AssertionError
  else
    match extra_select a, extra_select b with
    | _ :: _, _ :: _ => Raise ValueError
    | _, _ =>
        Ok (mkQuerySet (table a) (fun u => where_ a u || where_ b u) false
              (match ordering b with
               | Some leb => Some leb
               | None => ordering a
               end)
              (match order_by b with
               | [] => order_by a
               | names => names
               end)
              (extra_select a ++ extra_select b)%list (distinct_ a))
    end.

Definition count (qs : QuerySet) : Z := Z.of_nat (List.length (evaluate qs)).

(** [qs[:n]] for a non-negative [n]. *)
Definition slice_to (n : Z) (qs : QuerySet) : list Unit :=
  firstn (Z.to_nat n) (evaluate qs).

End QS.

(** [Restricts qs p r]: the query [r] gives the rows of [qs] that satisfy
    the extra condition [p], in the order of [qs]. *)
Definition Restricts (qs : QuerySet) (p : Unit -> bool) (r : QuerySet)
  : Prop :=
  QS.rows r = QS.rows qs
  /\ (is_empty qs = true -> is_empty r = true)
  /\ (is_empty r = false -> forall u, where_ r u = where_ qs u && p u)
  /\ (is_empty r = true -> is_empty qs = true \/ forall u, p u = false).

(** [SameQuery qs r]: [r] was made from [qs] by conditions only; it has the
    table, the ordering, the extra columns and the distinct flag of [qs]. *)
Definition SameQuery (qs r : QuerySet) : Prop :=
  table r = table qs
  /\ ordering r = ordering qs
  /\ order_by r = order_by qs
  /\ extra_select r = extra_select qs
  /\ distinct_ r = distinct_ qs.

(** An operand of [|]: [qs] with one more condition. *)
Definition Operand (qs : QuerySet) (p : Unit -> bool) (r : QuerySet) : Prop :=
  Restricts qs p r /\ SameQuery qs r /\ is_empty r = is_empty qs.

(** Whether the query has [extra(select)] columns. *)
Definition has_extra (qs : QuerySet) : bool :=
  match extra_select qs with [] => false | _ :: _ => true end.

(** ** The search form *)

Record SearchForm := mkSearchForm {
  search : string;
  sfields : list string;
  soptions : list string
}.

Section Search.

Variable db : Database.

(** Chained [filter(field__icontains=word)] calls, one per word. *)
Definition filter_words (field : Unit -> string) (words : list string)
           (qs : QuerySet) : QuerySet :=
  fold_left (fun sub word =>
               QS.filter (fun u => DB.icontains db word (field u)) sub)
            words qs.

Definition get_search_query (form : SearchForm) (units_queryset : QuerySet)
  : Result QuerySet :=
  let words := PyStr.split_ws (search form) in
  let result := QS.none units_queryset in
  result <-
    (if PyStr.mem "source" (sfields form)
     then QS.or result (filter_words source_f words units_queryset)
     else Ok result) ;;
  result <-
    (if PyStr.mem "target" (sfields form)
     then QS.or result (filter_words target_f words units_queryset)
     else Ok result) ;;
  result <-
    (if PyStr.mem "notes" (sfields form)
     then
       result <-
         QS.or result
               (filter_words translator_comment words units_queryset) ;;
       QS.or result (filter_words developer_comment words units_queryset)
     else Ok result) ;;
  result <-
    (if PyStr.mem "locations" (sfields form)
     then QS.or result (filter_words locations words units_queryset)
     else Ok result) ;;
  Ok result.

Definition get_search_exact_query (form : SearchForm)
           (units_queryset : QuerySet) : Result QuerySet :=
  let phrase := search form in
  let has field := QS.filter (fun u => DB.contains db phrase (field u))
                             units_queryset in
  let result := QS.none units_queryset in
  result <-
    (if PyStr.mem "source" (sfields form)
     then QS.or result (has source_f) else Ok result) ;;
  result <-
    (if PyStr.mem "target" (sfields form)
     then QS.or result (has target_f) else Ok result) ;;
  result <-
    (if PyStr.mem "notes" (sfields form)
     then
       result <- QS.or result (has translator_comment) ;;
       QS.or result (has developer_comment)
     else Ok result) ;;
  result <-
    (if PyStr.mem "locations" (sfields form)
     then QS.or result (has locations) else Ok result) ;;
  Ok result.

(** Narrows down units query to units matching search string. *)
Definition get_search_step_query (form : SearchForm)
           (units_queryset : QuerySet) : Result QuerySet :=
  if PyStr.mem "exact" (soptions form)
  then get_search_exact_query form units_queryset
  else get_search_query form units_queryset.

End Search.

(** ** What the search is meant to select

    These notions are stated on the texts themselves; they use none of the
    functions the program is modelled by. *)

(** [needle] occurs in [hay] as a contiguous block. *)
Definition Substring (needle hay : string) : Prop :=
  exists pre post, hay = pre ++ needle ++ post.

(** Two texts that are the same, character by character, up to the
    folding [f]. *)
Definition SameUpTo (f : ascii -> ascii) (a b : string) : Prop :=
  Forall2 (fun c d => f c = f d) (PyStr.chars a) (PyStr.chars b).

(** [needle] occurs in [hay] as a contiguous block, up to the folding. *)
Definition Occurs (f : ascii -> ascii) (needle hay : string) : Prop :=
  exists pre mid post, hay = pre ++ mid ++ post /\ SameUpTo f needle mid.

(** The blank characters up to U+00FF: tab to carriage return, the four
    separators U+001C to U+001F, the space, the next-line character and
    the no-break space. *)
Definition Whitespace (c : ascii) : Prop :=
  In (nat_of_ascii c)
     [9; 10; 11; 12; 13; 28; 29; 30; 31; 32; 133; 160]%nat.

(** A text without a blank. *)
Definition NoBlank (s : string) : Prop :=
  forall c, In c (PyStr.chars s) -> ~ Whitespace c.

(** A text that is empty or ends with a blank. *)
Definition EndsBlank (s : string) : Prop :=
  s = "" \/ exists p c, s = p ++ String c "" /\ Whitespace c.

(** A text that is empty or starts with a blank. *)
Definition StartsBlank (s : string) : Prop :=
  s = "" \/ exists c p, s = String c p /\ Whitespace c.

(** [w] is a whitespace-separated word of [s]: a non-empty block without
    blanks, with a blank or the end of the text on either side. *)
Definition Word (w s : string) : Prop :=
  w <> "" /\ NoBlank w
  /\ exists pre post, s = pre ++ w ++ post
                      /\ EndsBlank pre /\ StartsBlank post.

(** A text made of blanks only. *)
Definition Blank (s : string) : Prop :=
  forall c, In c (PyStr.chars s) -> Whitespace c.

(** The text columns of a unit that can be searched. *)
Inductive Column :=
| Source | Target | TranslatorComment | DeveloperComment | Locations.

Definition column_text (c : Column) : Unit -> string :=
  match c with
  | Source => source_f
  | Target => target_f
  | TranslatorComment => translator_comment
  | DeveloperComment => developer_comment
  | Locations => locations
  end.

(** The search field that stands for a column: [notes] stands for both
    comments. *)
Definition field_name (c : Column) : string :=
  match c with
  | Source => "source"
  | Target => "target"
  | TranslatorComment | DeveloperComment => "notes"
  | Locations => "locations"
  end.

Definition Selected (form : SearchForm) (c : Column) : Prop :=
  In (field_name c) (sfields form).

(** Some selected column holds every word of the search text, up to the
    letter folding of the database. *)
Definition matches_words (db : Database) (form : SearchForm) (u : Unit)
  : Prop :=
  exists c, Selected form c /\
    forall word, Word word (search form) ->
                 Occurs (db_fold db) word (column_text c u).

(** Some selected column holds the whole phrase: as it is written, or up
    to the letter folding on a database whose [contains] lookup folds. *)
Definition matches_phrase (db : Database) (form : SearchForm) (u : Unit)
  : Prop :=
  exists c, Selected form c /\
    if db_contains_folds db
    then Occurs (db_fold db) (search form) (column_text c u)
    else Substring (search form) (column_text c u).

(** The form selects two columns, so that two queries are or-ed. *)
Definition selects_two (form : SearchForm) : Prop :=
  exists c d, c <> d /\ Selected form c /\ Selected form d.

(** ** The search, as one condition per unit *)

(** The columns in the order the search visits them. *)
Definition all_columns : list Column :=
  [Source; Target; TranslatorComment; DeveloperComment; Locations].

Definition selected_columns (form : SearchForm) : list Column :=
  List.filter (fun c => PyStr.mem (field_name c) (sfields form)) all_columns.

Definition all_words (db : Database) (field : Unit -> string)
           (words : list string) (u : Unit) : bool :=
  forallb (fun word => DB.icontains db word (field u)) words.

(** The units the word search keeps. *)
Definition words_matchb (db : Database) (form : SearchForm) (u : Unit)
  : bool :=
  existsb (fun c => all_words db (column_text c)
                              (PyStr.split_ws (search form)) u)
          (selected_columns form).

(** The units the exact search keeps. *)
Definition phrase_matchb (db : Database) (form : SearchForm) (u : Unit)
  : bool :=
  existsb (fun c => DB.contains db (search form) (column_text c u))
          (selected_columns form).

Definition search_matchb (db : Database) (form : SearchForm) (u : Unit)
  : bool :=
  if PyStr.mem "exact" (soptions form) then phrase_matchb db form u
  else words_matchb db form u.

(** Or-ing a list of queries onto a result, from left to right. *)
Fixpoint or_all (result : QuerySet) (queries : list QuerySet)
  : Result QuerySet :=
  match queries with
  | [] => Ok result
  | q :: rest => r <- QS.or result q ;; or_all r rest
  end.

(** Whether the search of a form on a query set ends in the refusal to
    or-combine: two queries are or-ed, and the query set is not empty and
    has an [extra(select)] column. *)
Definition search_refused (form : SearchForm) (qs : QuerySet) : bool :=
  negb (is_empty qs)
  && match extra_select qs with [] => false | _ => true end
  && (2 <=? List.length (selected_columns form))%nat.

(** ** Requests and the collaborators the views call *)

Record Request := mkRequest {
  GET : QueryDict;
  POST : QueryDict;
  profile : UserId
}.

(** [MAX] over a related column: NULL when there is no related row. *)
Definition sql_max (l : list Z) : option Z :=
  fold_right (fun x acc => match acc with
                           | None => Some x
                           | Some y => Some (Z.max x y)
                           end) None l.

(** [COALESCE(MAX(virtualfolder.priority), 1)] over the virtual folders the
    unit belongs to. *)
Definition unit_priority (u : Unit) : Z :=
  match sql_max (vfolders u) with
  | Some p => p
  | None => 1
  end.

(** Mapping of allowed sorting criteria. *)
Definition ALLOWED_SORTS (sort_on : string) : list (string * string) :=
  if String.eqb sort_on "units" then
    [("priority", "priority"); ("oldest", "submitted_on");
     ("newest", "-submitted_on")]
  else if String.eqb sort_on "suggestions" then
    [("oldest", "suggestion__creation_time");
     ("newest", "-suggestion__creation_time")]
  else if String.eqb sort_on "submissions" then
    [("oldest", "submission__creation_time");
     ("newest", "-submission__creation_time")]
  else [].

Definition SIMPLY_SORTED : list string := ["units"].

Fixpoint dict_get {V : Type} (key : string) (d : list (string * V))
  : option V :=
  match d with
  | [] => None
  | (k, v) :: rest => if String.eqb k key then Some v else dict_get key rest
  end.

(** The filter values [get_step_query] knows. *)
Definition recognised_filters : list string :=
  ["all"; "translated"; "untranslated"; "fuzzy"; "incomplete"; "suggestions";
   "my-suggestions"; "user-suggestions"; "user-suggestions-accepted";
   "user-suggestions-rejected"; "my-submissions"; "user-submissions";
   "my-submissions-overwritten"; "user-submissions-overwritten"; "checks"].

(** The filters that sort by related rows instead of unit columns. *)
Definition related_sort_filters : list string :=
  ["my-suggestions"; "user-suggestions"; "my-submissions"; "user-submissions"].

(** A request that narrows by nothing but its [filter] value. *)
Definition only_filter (request : Request) : Prop :=
  QD.get "modified-since" (GET request) = None
  /\ QD.get "month" (GET request) = None
  /\ QD.contains "search" (GET request)
     && QD.contains "sfields" (GET request) = false.

Section Pipeline.

Variable db : Database.
(** Unit states, from [pootle_store.util]. *)
Variables UNTRANSLATED FUZZY TRANSLATED : Z.
(** [SubmissionTypes.EDIT_TYPES] *)
Variable EDIT_TYPES : list Z.
(** [User.objects.get(username=...)]; [None] stands for [DoesNotExist]. *)
Variable get_user : string -> option UserId.
(** [pootle.core.dateparse.parse_datetime] *)
Variable parse_datetime : string -> option DateTime.
(** [pootle_misc.util.get_date_interval] *)
Variable get_date_interval : string -> DateTime * DateTime.
(** [make_search_form(GET)] followed by [is_valid()]: the cleaned data of
    a valid form, [None] for an invalid one. *)
Variable make_search_form : QueryDict -> option SearchForm.

Definition pending_of (user : UserId) (st : SuggestionStates.t)
           (s : Suggestion) : bool :=
  SuggestionStates.eqb (suggestion_state s) st
  && (suggestion_user s =? user).

Definition edit_by (user : UserId) (s : Submission) : bool :=
  (submission_submitter s =? user)
  && existsb (Z.eqb (submission_type s)) EDIT_TYPES.

Definition opt_eqb (a : option Z) (b : Z) : bool :=
  match a with Some x => x =? b | None => false end.

(** The [if unit_filter == ...] chain: the matching units and the sort
    family ([sort_on]) the filter selects. *)
Definition filter_branch (request : Request) (user : UserId)
           (unit_filter : string) (units_queryset : QuerySet)
  : QuerySet * string :=
  let is_ := String.eqb unit_filter in
  if is_ "all" then (units_queryset, "units")
  else if is_ "translated" then
    (QS.filter (fun u => state u =? TRANSLATED) units_queryset, "units")
  else if is_ "untranslated" then
    (QS.filter (fun u => state u =? UNTRANSLATED) units_queryset, "units")
  else if is_ "fuzzy" then
    (QS.filter (fun u => state u =? FUZZY) units_queryset, "units")
  else if is_ "incomplete" then
    (QS.filter (fun u => (state u =? UNTRANSLATED) || (state u =? FUZZY))
               units_queryset, "units")
  else if is_ "suggestions" then
    (QS.distinct
       (QS.filter (fun u => existsb
                     (fun s => SuggestionStates.eqb (suggestion_state s)
                                 SuggestionStates.PENDING)
                     (suggestion_set u)) units_queryset), "units")
  else if is_ "my-suggestions" || is_ "user-suggestions" then
    (QS.distinct
       (QS.filter (fun u => existsb
                     (pending_of user SuggestionStates.PENDING)
                     (suggestion_set u)) units_queryset), "suggestions")
  else if is_ "user-suggestions-accepted" then
    (QS.distinct
       (QS.filter (fun u => existsb
                     (pending_of user SuggestionStates.ACCEPTED)
                     (suggestion_set u)) units_queryset), "units")
  else if is_ "user-suggestions-rejected" then
    (QS.distinct
       (QS.filter (fun u => existsb
                     (pending_of user SuggestionStates.REJECTED)
                     (suggestion_set u)) units_queryset), "units")
  else if is_ "my-submissions" || is_ "user-submissions" then
    (QS.distinct
       (QS.filter (fun u => existsb (edit_by user) (submission_set u))
                  units_queryset), "submissions")
  else if is_ "my-submissions-overwritten"
          || is_ "user-submissions-overwritten" then
    (QS.distinct
       (QS.exclude (fun u => opt_eqb (submitted_by u) user)
          (QS.filter (fun u => existsb (edit_by user) (submission_set u))
                     units_queryset)), "units")
  else if is_ "checks" && QD.contains "checks" (GET request) then
    let checks := match QD.get "checks" (GET request) with
                  | Some c => PyStr.split_on "," c
                  | None => []
                  end in
    match checks with
    | [] => (QS.none units_queryset, "units")
    | _ =>
        (QS.distinct
           (QS.filter (fun u => existsb
                         (fun q => negb (qualitycheck_false_positive q)
                                   && PyStr.mem (qualitycheck_name q) checks)
                         (qualitycheck_set u)) units_queryset), "units")
    end
  else (QS.none units_queryset, "units").

(** The related creation times [Max(max_field)] aggregates over: those of
    the rows joined by the filter that selected the sort family. *)
Definition annotate_max (user : UserId) (max_field : string) (u : Unit)
  : option Z :=
  if String.eqb max_field "suggestion__creation_time" then
    sql_max (map suggestion_creation_time
                 (List.filter (pending_of user SuggestionStates.PENDING)
                              (suggestion_set u)))
  else if String.eqb max_field "submission__creation_time" then
    sql_max (map submission_creation_time
                 (List.filter (edit_by user) (submission_set u)))
  else None.

(** [order_by(field)] on a column of the unit table. *)
Definition order_by_field (field : string) (qs : QuerySet) : QuerySet :=
  match field with
  | String "-" name => QS.order_rows db submitted_on true [field] qs
  | _ => QS.order_rows db submitted_on false [field] qs
  end.

Definition sort_stage (user : UserId) (sort_on : string)
           (sort_by_param : option string) (match_queryset : QuerySet)
  : QuerySet :=
  let sort_by := match sort_by_param with
                 | Some p => dict_get p (ALLOWED_SORTS sort_on)
                 | None => None
                 end in
  match sort_by with
  | None => match_queryset
  | Some sort_by =>
      if PyStr.mem sort_on SIMPLY_SORTED then
        if String.eqb sort_by "priority" then
          (* extra(select={'sort_by_field': ...})
               .extra(order_by=['-sort_by_field']) *)
          QS.extra_order_by
            (fun u v => unit_priority v <=? unit_priority u)
            (QS.extra "sort_by_field" match_queryset)
        else order_by_field sort_by match_queryset
      else
        let '(max_field, sort_order, descending) :=
          match sort_by with
          | String "-" rest => (rest, "-sort_by_field", true)
          | _ => (sort_by, "sort_by_field", false)
          end in
        QS.order_rows db (annotate_max user max_field) descending
                      [sort_order] match_queryset
  end.

Definition opt_ltb (bound : Z) (a : option Z) : bool :=
  match a with Some x => bound <? x | None => false end.

Definition opt_between (lo hi : Z) (a : option Z) : bool :=
  match a with Some x => (lo <=? x) && (x <=? hi) | None => false end.

(** [if modified_since is not None: ...] *)
Definition modified_since_stage (modified_since : option string)
           (match_queryset : QuerySet) : QuerySet :=
  match modified_since with
  | Some since =>
      match parse_datetime since with
      | Some datetime_obj =>
          QS.distinct (QS.filter
            (fun u => opt_ltb datetime_obj (submitted_on u))
            match_queryset)
      | None => match_queryset
      end
  | None => match_queryset
  end.

(** [if month is not None: ...] *)
Definition month_stage (month : option string) (match_queryset : QuerySet)
  : QuerySet :=
  match month with
  | Some m =>
      let '(start, end_) := get_date_interval m in
      QS.distinct (QS.filter
        (fun u => opt_between start end_ (submitted_on u))
        match_queryset)
  | None => match_queryset
  end.

(** The copy of [GET] handed to the search form: a comma-separated
    [sfields] is split into its fields. *)
Definition search_form_data (request : Request) : QueryDict :=
  match QD.get "sfields" (GET request) with
  | Some sfields =>
      if PyStr.has_char "," sfields
      then QD.setlist "sfields" (PyStr.split_on "," sfields) (GET request)
      else GET request
  | None => GET request
  end.

(** [if 'search' in request.GET and 'sfields' in request.GET: ...] *)
Definition search_stage (request : Request) (units_queryset : QuerySet)
  : Result QuerySet :=
  if QD.contains "search" (GET request)
     && QD.contains "sfields" (GET request) then
    (* use the search form for validation only *)
    match make_search_form (search_form_data request) with
    | Some search_form =>
        get_search_step_query db search_form units_queryset
    | None => Ok units_queryset
    end
  else Ok units_queryset.

(** [user = request.profile], replaced by the user named in [user] when
    there is one. *)
Definition filter_user (request : Request) : UserId :=
  match QD.get "user" (GET request) with
  | Some username => match get_user username with
                     | Some u => u
                     | None => profile request
                     end
  | None => profile request
  end.

(** [if 'filter' in request.GET: ...], up to
    [units_queryset = match_queryset]. *)
Definition filter_block (request : Request) (units_queryset : QuerySet)
  : QuerySet :=
  match QD.get "filter" (GET request) with
  | Some unit_filter =>
      let modified_since := QD.get "modified-since" (GET request) in
      let month := QD.get "month" (GET request) in
      let sort_by_param := QD.get "sort" (GET request) in
      let user := filter_user request in
      if PyStr.truthy unit_filter then
        let '(match_queryset, sort_on) :=
          filter_branch request user unit_filter units_queryset in
        let match_queryset :=
          modified_since_stage modified_since match_queryset in
        let match_queryset := month_stage month match_queryset in
        sort_stage user sort_on sort_by_param match_queryset
      else units_queryset
  | None => units_queryset
  end.

(** Narrows down unit query to units matching conditions in GET. *)
Definition get_step_query (request : Request) (units_queryset : QuerySet)
  : Result QuerySet :=
  let units_queryset := filter_block request units_queryset in
  search_stage request units_queryset.

(** The condition the search stage adds for a request. *)
Definition search_keep (request : Request) : Unit -> bool :=
  if QD.contains "search" (GET request)
     && QD.contains "sfields" (GET request) then
    match make_search_form (search_form_data request) with
    | Some form => search_matchb db form
    | None => fun _ => true
    end
  else fun _ => true.

(** The valid search form of a request that asks for a search. *)
Definition search_form_of (request : Request) : option SearchForm :=
  if QD.contains "search" (GET request)
     && QD.contains "sfields" (GET request) then
    make_search_form (search_form_data request)
  else None.

(** The units matching the filter and the date conditions, before any
    sorting. *)
Definition matched (request : Request) (unit_filter : string)
           (units_queryset : QuerySet) : QuerySet :=
  month_stage (QD.get "month" (GET request))
    (modified_since_stage
       (QD.get "modified-since" (GET request))
       (fst (filter_branch request (filter_user request) unit_filter
                         units_queryset))).

(** The unit states each state filter stands for. *)
Definition state_filter_states (name : string) : option (list Z) :=
  if String.eqb name "translated" then Some [TRANSLATED]
  else if String.eqb name "untranslated" then Some [UNTRANSLATED]
  else if String.eqb name "fuzzy" then Some [FUZZY]
  else if String.eqb name "incomplete" then Some [UNTRANSLATED; FUZZY]
  else None.

Definition in_states (states : list Z) (u : Unit) : bool :=
  existsb (Z.eqb (state u)) states.

End Pipeline.

(** ** Python values and lists *)

(** The values a request parameter or a default can be bound to. *)
Inductive PyVal :=
| PyInt (z : Z)
| PyUnicode (s : string).

(** [a - b], [a + b] on an integer [a]: a text operand is a [TypeError]. *)
Definition py_int_sub (a : Z) (b : PyVal) : Result Z :=
  match b with PyInt z => Ok (a - z) | PyUnicode _ => Raise TypeError end.

Definition py_int_add (a : Z) (b : PyVal) : Result Z :=
  match b with PyInt z => Ok (a + z) | PyUnicode _ => Raise TypeError end.

(** [n * b] for an integer [n]: text is repeated. *)
Fixpoint repeat_string (n : nat) (s : string) : string :=
  match n with
  | O => ""
  | S k => s ++ repeat_string k s
  end.

Definition py_int_mul (n : Z) (b : PyVal) : PyVal :=
  match b with
  | PyInt z => PyInt (n * z)
  | PyUnicode s => PyUnicode (repeat_string (Z.to_nat n) s)
  end.

(** Slice bounds: a negative bound counts from the end, and bounds are
    clamped to the list. *)
Definition py_bound (len i : Z) : Z :=
  if i <? 0 then Z.max (len + i) 0 else Z.min i len.

(** [l[b:e]] *)
Definition py_slice {A : Type} (b e : Z) (l : list A) : list A :=
  let len := Z.of_nat (List.length l) in
  let b' := py_bound len b in
  let e' := py_bound len e in
  firstn (Z.to_nat (e' - b')) (skipn (Z.to_nat b') l).

(** [l[:e]]; slicing by a text value is a [TypeError]. *)
Definition py_slice_to {A : Type} (e : PyVal) (l : list A)
  : Result (list A) :=
  match e with
  | PyInt z => Ok (py_slice 0 z l)
  | PyUnicode _ => Raise TypeError
  end.

(** [l.index(x)]: [None] stands for [ValueError]. *)
Fixpoint list_index (x : Z) (l : list Z) : option Z :=
  match l with
  | [] => None
  | y :: rest => if y =? x then Some 0
                 else option_map Z.succ (list_index x rest)
  end.

(** The elements of [l] at positions [b], [b+1], ..., [e-1]. *)
Definition slice {A : Type} (b e : Z) (l : list A) : list A :=
  firstn (Z.to_nat (e - b)) (skipn (Z.to_nat b) l).

Definition window_begin (chunk_size index : Z) : Z :=
  Z.max (index - chunk_size) 0.

Definition window_end (chunk_size index : Z) (uid_list : list Z) : Z :=
  Z.min (index + chunk_size + 1) (Z.of_nat (List.length uid_list)).

(** [itertools.groupby]: the runs of consecutive items with the same key. *)
Fixpoint groupby {A : Type} (key : A -> string) (l : list A)
  : list (string * list A) :=
  match l with
  | [] => []
  | x :: rest =>
      match groupby key rest with
      | (k, run) :: groups =>
          if String.eqb (key x) k then (k, x :: run) :: groups
          else (key x, [x]) :: (k, run) :: groups
      | [] => [(key x, [x])]
      end
  end.

(** ** get_units *)

Record UnitsResponse := mkUnitsResponse {
  unitGroups : list (string * list Unit);
  uIds : option (list Z)
}.

Section GetUnits.

Variable db : Database.
Variables UNTRANSLATED FUZZY TRANSLATED : Z.
Variable EDIT_TYPES : list Z.
Variable get_user : string -> option UserId.
Variable parse_datetime : string -> option DateTime.
Variable get_date_interval : string -> DateTime * DateTime.
Variable make_search_form : QueryDict -> option SearchForm.
(** [pootle_misc.util.to_int] *)
Variable to_int : string -> option Z.
(** [request.profile.get_unit_rows()] *)
Variable get_unit_rows : UserId -> Z.
(** [Unit.objects.get_for_path(pootle_path, profile)] *)
Variable get_for_path : string -> UserId -> QuerySet.

(** [filter(None, map(to_int, filter(None, uids.split(','))))]: empty
    pieces, pieces that are no integer, and zero are dropped. *)
Definition parse_uids (request : Request) : list Z :=
  let raw := match QD.get "uids" (GET request) with
             | Some s => s
             | None => ""
             end in
  let uids_param := List.filter PyStr.truthy (PyStr.split_on "," raw) in
  flat_map (fun piece => match to_int piece with
                         | Some z => if z =? 0 then [] else [z]
                         | None => []
                         end) uids_param.

(** [request.GET.get('count', limit)] *)
Definition get_chunk_size (request : Request) : PyVal :=
  match QD.get "count" (GET request) with
  | Some count => PyUnicode count
  | None => PyInt (get_unit_rows (profile request))
  end.

(** [request.GET.get('initial', False)], as a truth value. *)
Definition is_initial_request (request : Request) : bool :=
  match QD.get "initial" (GET request) with
  | Some v => PyStr.truthy v
  | None => false
  end.

(** The sort family whose criteria hold [sort_by_field]. *)
Definition sort_family (sort_by_field : option string) : option string :=
  match sort_by_field with
  | None => None
  | Some f =>
      find (fun key => existsb (fun kv => String.eqb (snd kv) f)
                               (ALLOWED_SORTS key))
           ["units"; "suggestions"; "submissions"]
  end.

(** The ordered ids of the result set.  Both ways of reading them,
    [values_list('id', flat=True)] and [values('id', 'sort_by_field')],
    give the ids of the rows in the query's order. *)
Definition get_uid_list (step_queryset : QuerySet) : list Z :=
  let sort_by_field := match order_by step_queryset with
                       | [f] => Some f
                       | _ => None
                       end in
  let sort_on := sort_family sort_by_field in
  match sort_by_field, sort_on with
  | None, _ => map id (QS.evaluate step_queryset)
  | _, Some "units" => map id (QS.evaluate step_queryset)
  | _, _ => map (fun u => id u) (QS.evaluate step_queryset)
  end.

(** The ids to load on an initial request: the window around the one uid
    asked for, or the head of the list. *)
Definition initial_uids (chunk_size : PyVal) (uids uid_list : list Z)
  : Result (list Z) :=
  match uids with
  | [uid] =>
      match list_index uid uid_list with
      | None => Raise Http404          (* uid not found in uid_list *)
      | Some index =>
          lo <- py_int_sub index chunk_size ;;
          let begin_ := Z.max lo 0 in
          hi <- py_int_add index chunk_size ;;
          let end_ := Z.min (hi + 1) (Z.of_nat (List.length uid_list)) in
          Ok (py_slice begin_ end_ uid_list)
      end
  | _ =>
      let count := py_int_mul 2 chunk_size in
      py_slice_to count uid_list
  end.

(** Gets source and target texts and its metadata. *)
Definition get_units (request : Request) : Result UnitsResponse :=
  match QD.get "path" (GET request) with
  | None => Raise Http400              (* Arguments missing. *)
  | Some pootle_path =>
      let units_qs := get_for_path pootle_path (profile request) in
      step_queryset <-
        get_step_query db UNTRANSLATED FUZZY TRANSLATED EDIT_TYPES get_user
                       parse_datetime get_date_interval make_search_form
                       request units_qs ;;
      let chunk_size := get_chunk_size request in
      let uids := parse_uids request in
      loaded <-
        (if is_initial_request request then
           let uid_list := get_uid_list step_queryset in
           uids <- initial_uids chunk_size uids uid_list ;;
           Ok (uids, uid_list)
         else Ok (uids, [])) ;;
      let '(uids, uid_list) := loaded in
      let units :=
        match uids with
        | [] => []
        | _ => QS.evaluate
                 (QS.filter (fun u => existsb (Z.eqb (id u)) uids)
                            step_queryset)
        end in
      let unit_groups := groupby store_pootle_path units in
      Ok (mkUnitsResponse unit_groups
            (match uid_list with [] => None | _ => Some uid_list end))
  end.

(** The request is answered with the units of [step_queryset] whose id
    is in [window], grouped by store path, and with the whole id list. *)
Definition serves_window (request : Request) (step_queryset : QuerySet)
           (window : list Z) : Prop :=
  exists resp,
    get_units request = Ok resp
    /\ List.concat (map snd (unitGroups resp))
       = List.filter (fun u => existsb (Z.eqb (id u)) window)
                     (QS.evaluate step_queryset)
    /\ uIds resp = match map id (QS.evaluate step_queryset) with
                   | [] => None
                   | ids => Some ids
                   end.

End GetUnits.

(** ** The export view context (pootle/core/helpers.py) *)

Definition EXPORT_VIEW_QUERY_LIMIT : Z := 10000.

Inductive CtxVal :=
| CtxInt (z : Z)
| CtxGroups (groups : list (string * list Unit))
| CtxName (name : option string)
| CtxExtra (extra : option (list string)).

(** [d[key] = v] on a dictionary kept as a list of bindings. *)
Fixpoint dict_set {V : Type} (key : string) (v : V) (d : list (string * V))
  : list (string * V) :=
  match d with
  | [] => [(key, v)]
  | (k, old) :: rest => if String.eqb k key then (k, v) :: rest
                        else (k, old) :: dict_set key v rest
  end.

(** [d.update(new)] *)
Definition dict_update {V : Type} (new d : list (string * V))
  : list (string * V) :=
  fold_left (fun acc kv => dict_set (fst kv) (snd kv) acc) new d.

Section ExportView.

Variable db : Database.
Variables UNTRANSLATED FUZZY TRANSLATED : Z.
Variable EDIT_TYPES : list Z.
Variable get_user : string -> option UserId.
Variable parse_datetime : string -> option DateTime.
Variable get_date_interval : string -> DateTime * DateTime.
Variable make_search_form : QueryDict -> option SearchForm.
Variable get_for_path : string -> UserId -> QuerySet.
(** [ugettext] *)
Variable gettext : string -> string.
(** [pootle_misc.checks.check_names] *)
Variable check_names : string -> option string.

(** Gets current filter's human-readable name. *)
Definition get_filter_name (GET : QueryDict)
  : option string * option (list string) :=
  let '(filter, extra) :=
    match QD.get "filter" GET with
    | Some filter =>
        if String.prefix "user-" filter then
          (Some filter,
           Some [match QD.get "user" GET with
                 | Some u => u
                 | None => gettext "User missing"
                 end])
        else if String.eqb filter "checks" && QD.contains "checks" GET then
          (Some filter,
           Some (map (fun check => match check_names check with
                                   | Some n => n
                                   | None => check
                                   end)
                     (match QD.get "checks" GET with
                      | Some c => PyStr.split_on "," c
                      | None => []
                      end)))
        else (Some filter, None)
    | None =>
        match QD.get "search" GET with
        | Some s =>
            (Some "search",
             Some (s :: match QD.get "sfields" GET with
                        | Some f => PyStr.split_on "," f
                        | None => []
                        end))
        | None => (None, None)
        end
    end in
  let names :=
    [("all", gettext "All"); ("translated", gettext "Translated");
     ("untranslated", gettext "Untranslated");
     ("fuzzy", gettext "Needs work"); ("incomplete", gettext "Incomplete");
     ("search", gettext "Search"); ("checks", gettext "Checks");
     ("my-submissions", gettext "My submissions");
     ("user-submissions", gettext "Submissions");
     ("my-submissions-overwritten", gettext "My overwritten submissions");
     ("user-submissions-overwritten", gettext "Overwritten submissions")] in
  (match filter with
   | Some f => dict_get f names
   | None => None
   end, extra).

(** Returns a common context for export views.  [pootle_path] is
    [request.pootle_path]. *)
Definition get_export_view_context (pootle_path : string)
           (request : Request) : Result (list (string * CtxVal)) :=
  let res := [] in
  let '(filter_name, filter_extra) := get_filter_name (GET request) in
  let units_qs := get_for_path pootle_path (profile request) in
  units <-
    get_step_query db UNTRANSLATED FUZZY TRANSLATED EDIT_TYPES get_user
                   parse_datetime get_date_interval make_search_form
                   request units_qs ;;
  let unit_total_count := QS.count units in
  let '(units, res) :=
    if EXPORT_VIEW_QUERY_LIMIT <? unit_total_count then
      (QS.slice_to EXPORT_VIEW_QUERY_LIMIT units,
       dict_update [("unit_total_count", CtxInt unit_total_count);
                    ("displayed_unit_count",
                     CtxInt EXPORT_VIEW_QUERY_LIMIT)] res)
    else (QS.evaluate units, res) in
  let unit_groups := groupby store_pootle_path units in
  Ok (dict_update [("unit_groups", CtxGroups unit_groups);
                   ("filter_name", CtxName filter_name);
                   ("filter_extra", CtxExtra filter_extra)] res).

End ExportView.

(** ** Comment and suggestion-review endpoints *)

Inductive Json :=
| JInt (z : Z)
| JStr (s : string)
| JList (l : list string).

Record HttpResponse := mkHttpResponse {
  status : Z;
  body : list (string * Json)
}.

(** What an endpoint did to the store. *)
Inductive Effect :=
| FormSaved (data : QueryDict) (instance : Unit)
| SuggestionRejected (unit_id : Z) (sugg : Suggestion) (reviewer : UserId)
| SuggestionAccepted (unit_id : Z) (sugg : Suggestion) (reviewer : UserId).

Definition set_commented (by_ : option UserId) (on : option DateTime)
           (u : Unit) : Unit :=
  mkUnit (id u) (state u) (source_f u) (target_f u) (translator_comment u)
         (developer_comment u) (locations u) (submitted_on u)
         (submitted_by u) by_ on (store_pootle_path u) (suggestion_set u)
         (submission_set u) (qualitycheck_set u) (vfolders u).

(** [qs.get(id=...)] on the related suggestions of a unit. *)
Definition suggestion_get (suggid : Z) (l : list Suggestion)
  : Result (option Suggestion) :=
  match List.filter (fun s => suggestion_id s =? suggid) l with
  | [] => Ok None                         (* ObjectDoesNotExist *)
  | [s] => Ok (Some s)
  | _ => Raise MultipleObjectsReturned
  end.

Section Endpoints.

(** [form.is_valid()] of the comment form built from [data] for
    [instance]. *)
Variable comment_form_is_valid : QueryDict -> Unit -> Request -> bool.
Variable gettext : string -> string.
(** The rendered [xhr_comment.html] fragment. *)
Variable render_comment : Unit -> string.
(** [timezone.now()] *)
Variable now : DateTime.
(** [request.profile.public_score] *)
Variable public_score : UserId -> Z.
(** The JSON members [accept_suggestion] adds after a review. *)
Variable accepted_extras : Unit -> list (string * Json).

(** Deletes a comment by blanking its contents and records a new
    submission. *)
Definition delete_comment (request : Request) (unit : Unit)
  : HttpResponse * list Effect :=
  let unit := set_commented None None unit in
  let data : QueryDict := [] in
  if comment_form_is_valid data unit request then
    (mkHttpResponse 200 [], [FormSaved data unit])
  else
    (mkHttpResponse 400 [("msg", JStr (gettext "Failed to remove comment."))],
     []).

(** Stores a new comment for the given [unit]. *)
Definition save_comment (request : Request) (unit : Unit)
  : HttpResponse * list Effect :=
  let unit := set_commented (Some (profile request)) (Some now) unit in
  if comment_form_is_valid (POST request) unit request then
    (mkHttpResponse 200 [("comment", JStr (render_comment unit))],
     [FormSaved (POST request) unit])
  else
    (mkHttpResponse 400
       [("msg", JStr (gettext "Comment submission failed."))], []).

(** [request.POST.get(flag)], as a truth value. *)
Definition post_flag (flag : string) (request : Request) : bool :=
  match QD.get flag (POST request) with
  | Some v => PyStr.truthy v
  | None => false
  end.

Definition reject_suggestion (request : Request) (unit : Unit) (suggid : Z)
  : Result (HttpResponse * list Effect) :=
  let json := [("udbid", JInt (id unit)); ("sugid", JInt suggid)] in
  if post_flag "reject" request then
    found <- suggestion_get suggid (suggestion_set unit) ;;
    match found with
    | None => Raise Http404
    | Some sugg =>
        let json :=
          dict_set "user_score" (JInt (public_score (profile request)))
                   json in
        Ok (mkHttpResponse 200 json,
            [SuggestionRejected (id unit) sugg (profile request)])
    end
  else Ok (mkHttpResponse 200 json, []).

Definition accept_suggestion (request : Request) (unit : Unit) (suggid : Z)
  : Result (HttpResponse * list Effect) :=
  let json := [("udbid", JInt (id unit)); ("sugid", JInt suggid)] in
  if post_flag "accept" request then
    found <- suggestion_get suggid (suggestion_set unit) ;;
    match found with
    | None => Raise Http404
    | Some suggestion =>
        let json :=
          dict_set "user_score" (JInt (public_score (profile request)))
                   json in
        let json := dict_update (accepted_extras unit) json in
        Ok (mkHttpResponse 200 json,
            [SuggestionAccepted (id unit) suggestion (profile request)])
    end
  else Ok (mkHttpResponse 200 json, []).

End Endpoints.

(** ** The account adapter (pootle/apps/accounts/adapter.py) *)

Record Form := mkForm {
  form_is_valid : bool;
  form_errors : string
}.

Record JsonResponse := mkJsonResponse {
  json_data : list (string * Json);
  json_status : Z
}.

(** [ajax_response(request, response, redirect_to=None, form=None)].  The
    local [status] is [None] as long as no assignment to it has run. *)
Definition ajax_response (redirect_to : option string) (form : option Form)
  : Result JsonResponse :=
  let data : list (string * Json) := [] in
  let status : option Z := None in
  let '(status, data) :=
    match redirect_to with
    | Some url => if PyStr.truthy url
                  then (Some 200, dict_set "location" (JStr url) data)
                  else (status, data)
    | None => (status, data)
    end in
  let '(status, data) :=
    match form with
    | Some f => if form_is_valid f then (Some 200, data)
                else (Some 400, dict_set "errors" (JStr (form_errors f)) data)
    | None => (status, data)
    end in
  match status with
  | Some code => Ok (mkJsonResponse data code)
  | None => Raise UnboundLocalError
  end.

Definition redirect_falsy (redirect_to : option string) : bool :=
  match redirect_to with
  | Some url => negb (PyStr.truthy url)
  | None => true
  end.

(** ** The add_vfolders management command *)

(** A member of a JSON object that the command itself reads: it may be
    missing, hold a value of the kind the command expects, or hold a value
    of another kind. *)
Inductive Member (A : Type) :=
| Missing
| Given (a : A)
| Malformed.
Arguments Missing {A}.
Arguments Given {A} a.
Arguments Malformed {A}.

(** An entry of the JSON input file, which holds a list of objects.  The
    command calls [lower()] on the name and joins the files, so the name is
    [Given] for a text and [Malformed] for any other value; the files are
    [Given] for what [join] goes through, a sequence of texts (a list of
    texts; a text stands for the sequence of its characters), and
    [Malformed] for a number, a truth value, null or a list holding
    something that is no text.  The members that go to the model as they
    are (location, priority, is_browsable, description) hold, when present,
    a value of the kind the model field takes.  [item_other_keys] are the
    members [VirtualFolder] has no field for. *)
Record VFolderItem := mkVFolderItem {
  item_name : Member string;
  item_location : option string;
  item_files : Member (list string);
  item_priority : option Z;
  item_is_browsable : option bool;
  item_description : option string;
  item_other_keys : list string
}.

(** A row of the virtual folder table. *)
Record VirtualFolder := mkVirtualFolder {
  vf_name : string;
  vf_location : string;
  vf_filter_rules : string;
  vf_priority : Z;
  vf_is_browsable : bool;
  vf_description : string
}.

Record Counts := mkCounts {
  added_count : Z;
  updated_count : Z;
  errored_count : Z
}.

Definition opt_differs {A : Type} (eqb : A -> A -> bool) (current : A)
           (given : option A) : bool :=
  match given with
  | Some v => negb (eqb current v)
  | None => false
  end.

Definition opt_or {A : Type} (given : option A) (current : A) : A :=
  match given with Some v => v | None => current end.

Section AddVFolders.

(** Field validation run by [save()]; [false] stands for
    [ValidationError]. *)
Variable validates : VirtualFolder -> bool.
(** Model defaults of the optional fields. *)
Variable default_priority : Z.
Variable default_is_browsable : bool.
Variable default_description : string.

Definition same_key (name location : string) (v : VirtualFolder) : bool :=
  String.eqb (vf_name v) name && String.eqb (vf_location v) location.

(** [VirtualFolder.objects.get(name=..., location=...)] *)
Definition vfolder_get (name location : string) (db : list VirtualFolder)
  : Result (option VirtualFolder) :=
  match List.filter (same_key name location) db with
  | [] => Ok None                       (* VirtualFolder.DoesNotExist *)
  | [v] => Ok (Some v)
  | _ => Raise MultipleObjectsReturned
  end.

(** Saving an existing row: it replaces the row it was read from. *)
Fixpoint db_replace (old new : VirtualFolder) (db : list VirtualFolder)
  : list VirtualFolder :=
  match db with
  | [] => []
  | v :: rest =>
      if same_key (vf_name old) (vf_location old) v then new :: rest
      else v :: db_replace old new rest
  end.

(** [vfolder_item['name'].lower()] *)
Definition item_lower_name (vfolder_item : VFolderItem) : Result string :=
  match item_name vfolder_item with
  | Missing => Raise KeyError
  | Given name => Ok (PyStr.lower name)
  | Malformed => Raise AttributeError      (* no [lower] on such a value *)
  end.

(** [','.join(vfolder_item['files'])], or the empty text without
    [files]. *)
Definition item_filter_rules (vfolder_item : VFolderItem) : Result string :=
  match item_files vfolder_item with
  | Missing => Ok ""
  | Given files => Ok (PyStr.join "," files)
  | Malformed => Raise TypeError
  end.

(** [vfolder_item['location']] *)
Definition item_location_key (vfolder_item : VFolderItem) : Result string :=
  match item_location vfolder_item with
  | Some location => Ok location
  | None => Raise KeyError
  end.

(** The [VirtualFolder] made from the item, the name being lowercased and
    the files joined by then; a member that is no field of the model is
    refused. *)
Definition new_vfolder (name location filter_rules : string)
           (vfolder_item : VFolderItem) : Result VirtualFolder :=
  match item_other_keys vfolder_item with
  | [] =>
      Ok (mkVirtualFolder name location filter_rules
            (opt_or (item_priority vfolder_item) default_priority)
            (opt_or (item_is_browsable vfolder_item) default_is_browsable)
            (opt_or (item_description vfolder_item) default_description))
  | _ :: _ => Raise TypeError
  end.

(** The row an existing folder becomes when the item updates it. *)
Definition updated_vfolder (vfolder : VirtualFolder) (filter_rules : string)
           (vfolder_item : VFolderItem) : VirtualFolder :=
  mkVirtualFolder (vf_name vfolder) (vf_location vfolder) filter_rules
    (opt_or (item_priority vfolder_item) (vf_priority vfolder))
    (opt_or (item_is_browsable vfolder_item) (vf_is_browsable vfolder))
    (opt_or (item_description vfolder_item) (vf_description vfolder)).

(** Whether the item changes anything in an existing folder. *)
Definition item_changes (vfolder : VirtualFolder) (filter_rules : string)
           (vfolder_item : VFolderItem) : bool :=
  negb (String.eqb (vf_filter_rules vfolder) filter_rules)
  || opt_differs Z.eqb (vf_priority vfolder) (item_priority vfolder_item)
  || opt_differs Bool.eqb (vf_is_browsable vfolder)
                 (item_is_browsable vfolder_item)
  || opt_differs String.eqb (vf_description vfolder)
                 (item_description vfolder_item).

(** One round of the loop over the input items. *)
Definition handle_item (st : list VirtualFolder * Counts)
           (vfolder_item : VFolderItem)
  : Result (list VirtualFolder * Counts) :=
  let '(db, counts) := st in
  name <- item_lower_name vfolder_item ;;
  filter_rules <- item_filter_rules vfolder_item ;;
  (* Now create or update the virtual folder. *)
  location <- item_location_key vfolder_item ;;
  found <- vfolder_get name location db ;;
  match found with
  | None =>
      (* If the virtual folder doesn't exist yet then create it. *)
      vfolder <- new_vfolder name location filter_rules vfolder_item ;;
      if validates vfolder then
        Ok ((db ++ [vfolder])%list,
            mkCounts (added_count counts + 1) (updated_count counts)
                     (errored_count counts))
      else
        Ok (db, mkCounts (added_count counts) (updated_count counts)
                         (errored_count counts + 1))
  | Some vfolder =>
      (* Update the already existing virtual folder. *)
      let changed := item_changes vfolder filter_rules vfolder_item in
      let updated := updated_vfolder vfolder filter_rules vfolder_item in
      if changed then
        if validates updated then
          Ok (db_replace vfolder updated db,
              mkCounts (added_count counts) (updated_count counts + 1)
                       (errored_count counts))
        else
          Ok (db, mkCounts (added_count counts) (updated_count counts)
                           (errored_count counts + 1))
      else Ok (db, counts)
  end.

(** What a round that went through has done. *)
Inductive Outcome (db : list VirtualFolder) (counts : Counts)
          (name location rules : string) (item : VFolderItem)
  : list VirtualFolder -> Counts -> Prop :=
| Created w :
    vfolder_get name location db = Ok None ->
    new_vfolder name location rules item = Ok w ->
    validates w = true ->
    Outcome db counts name location rules item (db ++ [w])
            (mkCounts (added_count counts + 1) (updated_count counts)
                      (errored_count counts))
| CreationRefused w :
    vfolder_get name location db = Ok None ->
    new_vfolder name location rules item = Ok w ->
    validates w = false ->
    Outcome db counts name location rules item db
            (mkCounts (added_count counts) (updated_count counts)
                      (errored_count counts + 1))
| Updated v :
    vfolder_get name location db = Ok (Some v) ->
    item_changes v rules item = true ->
    validates (updated_vfolder v rules item) = true ->
    Outcome db counts name location rules item
            (db_replace v (updated_vfolder v rules item) db)
            (mkCounts (added_count counts) (updated_count counts + 1)
                      (errored_count counts))
| UpdateRefused v :
    vfolder_get name location db = Ok (Some v) ->
    item_changes v rules item = true ->
    validates (updated_vfolder v rules item) = false ->
    Outcome db counts name location rules item db
            (mkCounts (added_count counts) (updated_count counts)
                      (errored_count counts + 1))
| Unchanged v :
    vfolder_get name location db = Ok (Some v) ->
    item_changes v rules item = false ->
    Outcome db counts name location rules item db counts.

Fixpoint handle_items (st : list VirtualFolder * Counts)
         (vfolders : list VFolderItem)
  : Result (list VirtualFolder * Counts) :=
  match vfolders with
  | [] => Ok st
  | vfolder_item :: rest =>
      st' <- handle_item st vfolder_item ;;
      handle_items st' rest
  end.

(** [load] is what reading the input file gives, a list of objects;
    [None] for a file that cannot be opened or holds malformed JSON. *)
Definition handle (args : list string)
           (load : string -> option (list VFolderItem))
           (db : list VirtualFolder)
  : Result (list VirtualFolder * Counts) :=
  match args with
  | [] => Raise CommandError   (* You forgot to provide the filename. *)
  | filename :: _ =>
      match load filename with
      | None => Raise CommandError
      | Some vfolders => handle_items (db, mkCounts 0 0 0) vfolders
      end
  end.

End AddVFolders.

(** ** Letter case, stated on the texts *)

(** The upper-case letters up to U+00FF: A to Z, and the letters from
    U+00C0 to U+00DE, which leaves out the multiplication sign U+00D7.
    The lower-case form of each lies 32 code points higher. *)
Definition UpperCase (c : ascii) : Prop :=
  let n := nat_of_ascii c in
  (65 <= n <= 90 \/ 192 <= n <= 214 \/ 216 <= n <= 222)%nat.

(** Two characters that are the same letter: equal, or one the lower-case
    form of the other. *)
Definition same_letter (c d : ascii) : Prop :=
  c = d
  \/ (UpperCase c /\ nat_of_ascii d = (nat_of_ascii c + 32)%nat)
  \/ (UpperCase d /\ nat_of_ascii c = (nat_of_ascii d + 32)%nat).

(** Two texts that differ only by letter case. *)
Definition differ_only_by_case (a b : string) : Prop :=
  Forall2 same_letter (PyStr.chars a) (PyStr.chars b).

(** [needle] occurs in [hay] up to letter case: some block of [hay]
    differs from it only by letter case. *)
Definition OccursUpToCase (needle hay : string) : Prop :=
  exists block, Substring block hay /\ differ_only_by_case needle block.

(** A text without an upper-case letter. *)
Definition NoUpper (s : string) : Prop :=
  forall c, In c (PyStr.chars s) -> ~ UpperCase c.


(** An item that has all the command reads: a name that is a text, a
    location, files that are a sequence of texts if there are any, and no
    member the model has no field for. *)
Definition complete_item (item : VFolderItem) : Prop :=
  (exists name, item_name item = Given name)
  /\ (exists location, item_location item = Some location)
  /\ item_files item <> Malformed
  /\ item_other_keys item = [].

(** ** More of the views *)

(** Checks if unit list is filtered. *)
Definition _is_filtered (request : Request) : bool :=
  QD.contains "filter" (GET request)
  || QD.contains "checks" (GET request)
  || QD.contains "user" (GET request)
  || (QD.contains "search" (GET request)
      && QD.contains "sfields" (GET request)).

(** Consecutive groups have different keys. *)
Definition keys_alternate {A : Type} (groups : list (string * list A))
  : Prop :=
  Sorted (fun g h => fst g <> fst h) groups.

(** Every group is a non-empty run of items under the group's key. *)
Definition groups_are_runs {A : Type} (key : A -> string)
           (groups : list (string * list A)) : Prop :=
  Forall (fun g => snd g <> [] /\ Forall (fun x => key x = fst g) (snd g))
         groups.

(** The filter values [get_filter_name] has a display name for. *)
Definition named_filters : list string :=
  ["all"; "translated"; "untranslated"; "fuzzy"; "incomplete"; "search";
   "checks"; "my-submissions"; "user-submissions";
   "my-submissions-overwritten"; "user-submissions-overwritten"].

(** The key a virtual folder is looked up by. *)
Definition vf_key (v : VirtualFolder) : string * string :=
  (vf_name v, vf_location v).

Definition unique_keys (db : list VirtualFolder) : Prop :=
  NoDup (map vf_key db).

(** The items accounted for by the three counters. *)
Definition counted (c : Counts) : Z :=
  added_count c + updated_count c + errored_count c.

(** ** Context units (pootle_store/views.py) *)

Record CtxRows := mkCtxRows {
  before : list Unit;
  after : list Unit
}.

Inductive CtxOutcome :=
| CtxOk (rows : CtxRows)
| CtxValueError            (* [int()] of a text that is no integer *)
| CtxAssertionError.       (* a negative bound in a query set slice *)

(** [qs[lo:hi]] on a query set: negative bounds are refused. *)
Definition qs_slice (lo hi : Z) (l : list Unit) : option (list Unit) :=
  if (lo <? 0) || (hi <? 0) then None else Some (py_slice lo hi l).

(** Given a list/queryset of units, builds a list with the unit data; the
    [reverse] argument is not looked at. *)
Definition _build_units_list (units : list Unit) (reverse : bool)
  : list Unit := units.

Section ContextUnits.

Variable db : Database.
(** The [store_id] and [index] columns of a unit row. *)
Variable store_id : Unit -> Z.
Variable index : Unit -> Z.
(** [int(text)]; [None] stands for [ValueError]. *)
Variable py_int : string -> option Z.

(** Returns [how_many]*2 units that are before and after [index]. *)
Definition _filter_ctx_units (units_qs : QuerySet) (unit : Unit)
           (how_many gap : Z) : option CtxRows :=
  let result_before : option (list Unit) :=
    if negb (how_many =? 0) && (0 <? index unit - gap) then
      match qs_slice gap (how_many + gap)
              (QS.evaluate
                 (QS.order_rows db (fun u => Some (index u)) true
                    ["-index"]
                    (QS.filter (fun u => (store_id u =? store_id unit)
                                         && (index u <? index unit))
                               units_qs)))
      with
      | Some before => Some (rev (_build_units_list before true))
      | None => None
      end
    else Some [] in
  match result_before with
  | None => None
  | Some result_before =>
      if negb (how_many =? 0) then
        match qs_slice gap (how_many + gap)
                (QS.evaluate
                   (QS.filter (fun u => (store_id u =? store_id unit)
                                        && (index unit <? index u))
                              units_qs))
        with
        | Some after => Some (mkCtxRows result_before
                                        (_build_units_list after false))
        | None => None
        end
      else Some (mkCtxRows result_before [])
  end.

(** The units of the store before [unit], the nearest first. *)
Definition preceding (units_qs : QuerySet) (unit : Unit) : list Unit :=
  QS.evaluate
    (QS.order_rows db (fun u => Some (index u)) true ["-index"]
       (QS.filter (fun u => (store_id u =? store_id unit)
                            && (index u <? index unit)) units_qs)).

(** The units of the store after [unit], in the order of the query. *)
Definition following (units_qs : QuerySet) (unit : Unit) : list Unit :=
  QS.evaluate
    (QS.filter (fun u => (store_id u =? store_id unit)
                         && (index unit <? index u)) units_qs).

(** [int(request.GET.get(key, default))] *)
Definition get_int (key : string) (default : Z) (d : QueryDict)
  : option Z :=
  match QD.get key d with
  | Some text => py_int text
  | None => Some default
  end.

(** Retrieves more context units.  [store_units] is [request.store.units]. *)
Definition get_more_context (request : Request) (store_units : QuerySet)
           (unit : Unit) : CtxOutcome :=
  match get_int "gap" 0 (GET request) with
  | None => CtxValueError
  | Some gap =>
      match get_int "qty" 1 (GET request) with
      | None => CtxValueError
      | Some qty =>
          match _filter_ctx_units store_units unit qty gap with
          | Some rows => CtxOk rows
          | None => CtxAssertionError
          end
      end
  end.

(** The part of [get_edit_unit] that attaches context rows: [None] when no
    [ctx] member is set. *)
Definition get_edit_unit_ctx (request : Request)
           (COOKIES : list (string * string)) (is_terminology : bool)
           (store_units : QuerySet) (unit : Unit)
  : option CtxOutcome :=
  let current_filter := match QD.get "filter" (GET request) with
                        | Some f => f
                        | None => "all"
                        end in
  let show_ctx := match dict_get "ctxShow" COOKIES with
                  | Some v => v
                  | None => "true"
                  end in
  if (_is_filtered request || negb (PyStr.mem current_filter ["all"]))
     && String.eqb show_ctx "true" then
    if is_terminology then
      Some (match _filter_ctx_units store_units unit 0 0 with
            | Some rows => CtxOk rows
            | None => CtxAssertionError
            end)
    else
      match (match dict_get "ctxQty" COOKIES with
             | Some text => py_int text
             | None => Some 1
             end) with
      | None => Some CtxValueError
      | Some ctx_qty =>
          Some (match _filter_ctx_units store_units unit ctx_qty 0 with
                | Some rows => CtxOk rows
                | None => CtxAssertionError
                end)
      end
  else None.

End ContextUnits.

(** ** The browser tables (pootle/core/browser.py) *)

Record Heading := mkHeading {
  heading_id : string;
  heading_class : string;
  display_name : string
}.

Definition HEADING_CHOICES : list Heading :=
  [mkHeading "name" "stats" "Name";
   mkHeading "project" "stats" "Project";
   mkHeading "language" "stats" "Language";
   mkHeading "progress" "stats" "Progress";
   mkHeading "total" "stats-number sorttable_numeric when-loaded" "Total";
   mkHeading "last-updated" "stats sorttable_numeric when-loaded"
             "Last updated";
   mkHeading "need-translation" "stats-number sorttable_numeric when-loaded"
             "Need Translation";
   mkHeading "suggestions" "stats-number sorttable_numeric when-loaded"
             "Suggestions";
   mkHeading "critical" "stats-number sorttable_numeric when-loaded"
             "Critical";
   mkHeading "activity" "stats sorttable_numeric when-loaded"
             "Last Activity"].

(** Filters the list of available table headings to the given [choices]. *)
Definition get_table_headings (choices : list string) : list Heading :=
  List.filter (fun x => PyStr.mem (heading_id x) choices) HEADING_CHOICES.

(** A directory, store, project or translation project as the table rows
    see it: its urls as functions of the query arguments. *)
Record PathObj := mkPathObj {
  pootle_path : string;
  get_absolute_url : string;
  get_translate_url : list (string * string) -> string;
  get_critical_url : list (string * string) -> string;
  name : string;
  code : string;
  disabled : option bool          (* [None]: the object has no such attribute *)
}.

Inductive ItemVal :=
| IStr (s : string)
| IBool (b : bool).

(** Template variables for each row in the table. *)
Definition make_generic_item (path_obj : PathObj)
           (kwargs : list (string * string)) : list (string * ItemVal) :=
  [("href", IStr (get_absolute_url path_obj));
   ("href_all", IStr (get_translate_url path_obj []));
   ("href_todo",
    IStr (get_translate_url path_obj (("state", "incomplete") :: kwargs)));
   ("href_sugg",
    IStr (get_translate_url path_obj (("state", "suggestions") :: kwargs)));
   ("href_critical", IStr (get_critical_url path_obj kwargs));
   ("title", IStr (name path_obj));
   ("code", IStr (code path_obj));
   ("is_disabled", IBool (match disabled path_obj with
                          | Some b => b
                          | None => false
                          end))].

Section Browser.

(** [VirtualFolder.get_matching_for(pootle_path).count()] *)
Variable matching_vfolders : string -> Z.

Definition make_directory_item (directory : PathObj)
  : list (string * ItemVal) :=
  let filters :=
    if negb (matching_vfolders (pootle_path directory) =? 0)
    then [("sort", "priority")] else [] in
  let item := make_generic_item directory filters in
  dict_update [("icon", IStr "folder")] item.

Definition make_store_item (store : PathObj) : list (string * ItemVal) :=
  let item := make_generic_item store [] in
  dict_update [("icon", IStr "file")] item.

(** Returns a list of children directories and stores for this directory. *)
Definition get_children (child_dirs child_stores : list PathObj)
  : list (list (string * ItemVal)) :=
  let directories := map make_directory_item child_dirs in
  let stores := map make_store_item child_stores in
  (directories ++ stores)%list.

End Browser.

(** [get_parent]: the row leading back to the parent folder, unless the
    parent is a language or a project. *)
Definition get_parent (gettext : string -> string) (parent_dir : PathObj)
           (is_language is_project : bool)
  : option (list (string * ItemVal)) :=
  if negb (is_language || is_project) then
    Some [("icon", IStr "folder-parent");
          ("title", IStr (gettext "Back to parent folder"));
          ("href", IStr (get_absolute_url parent_dir))]
  else None.

(** ** The timeline of a unit (pootle_store/views.py) *)

(** A submission as the timeline reads it; [sub_entry] is the entry the
    loop builds from its field and values. *)
Record TimelineSub (Entry : Type) := mkTimelineSub {
  sub_id : Z;
  sub_submitter : UserId;
  sub_creation_time : DateTime;
  sub_field : Z;
  sub_entry : Entry
}.
Arguments mkTimelineSub {Entry}.
Arguments sub_id {Entry}.
Arguments sub_submitter {Entry}.
Arguments sub_creation_time {Entry}.
Arguments sub_field {Entry}.
Arguments sub_entry {Entry}.

Record EntryGroup (Entry : Type) := mkEntryGroup {
  entries : list Entry;
  group_datetime : option DateTime;
  group_submitter : UserId;
  group_created : bool
}.
Arguments mkEntryGroup {Entry}.
Arguments entries {Entry}.
Arguments group_datetime {Entry}.
Arguments group_submitter {Entry}.
Arguments group_created {Entry}.

Section Timeline.

Variable Entry : Type.
(** [SubmissionFields.TARGET], [STATE], [COMMENT] and [NONE] *)
Variables TARGET STATE COMMENT NONE : Z.
(** [User.objects.get_system_user()] *)
Variable system_user : UserId.

Definition Sub := TimelineSub Entry.

(** [order_by("id")] *)
Fixpoint insert_by_id (s : Sub) (l : list Sub) : list Sub :=
  match l with
  | [] => [s]
  | t :: rest => if sub_id s <=? sub_id t then s :: t :: rest
                 else t :: insert_by_id s rest
  end.

Fixpoint order_by_id (l : list Sub) : list Sub :=
  match l with
  | [] => []
  | s :: rest => insert_by_id s (order_by_id rest)
  end.

(** The submissions of the timeline: those on the four fields, without the
    comment that was made at the time the unit's comment was set. *)
Definition timeline_submissions (commented_on : option DateTime)
           (submissions : list Sub) : list Sub :=
  order_by_id
    (List.filter
       (fun s =>
          existsb (Z.eqb (sub_field s)) [TARGET; STATE; COMMENT; NONE]
          && negb ((sub_field s =? COMMENT)
                   && match commented_on with
                      | Some t => sub_creation_time s =? t
                      | None => false
                      end))
       submissions).

Definition same_group (s t : Sub) : bool :=
  (sub_submitter s =? sub_submitter t)
  && (sub_creation_time s =? sub_creation_time t).

(** [groupby] by submitter id and creation time: runs of submissions in a
    row that agree on both. *)
Fixpoint group_runs (l : list Sub) : list (list Sub) :=
  match l with
  | [] => []
  | s :: rest =>
      match group_runs rest with
      | (t :: run) :: groups =>
          if same_group s t then (s :: t :: run) :: groups
          else [s] :: (t :: run) :: groups
      | groups => [s] :: groups
      end
  end.

(** The entry group of a run: the time of its submissions, the submitter of
    the first one. *)
Definition entry_group (run : list Sub) : EntryGroup Entry :=
  mkEntryGroup (map sub_entry run)
               (match rev run with
                | s :: _ => Some (sub_creation_time s)
                | [] => None
                end)
               (match run with
                | s :: _ => sub_submitter s
                | [] => system_user
                end)
               false.

Definition mark_created (g : EntryGroup Entry) : EntryGroup Entry :=
  mkEntryGroup (entries g) (group_datetime g) (group_submitter g) true.

(** Marking the creation of the unit: on the first group when it dates
    from the creation of the unit, else on a group of the system user put
    in front. *)
Definition add_created (creation_time : option DateTime)
           (entries_group : list (EntryGroup Entry))
  : list (EntryGroup Entry) :=
  match entries_group, creation_time with
  | g :: rest, Some created_at =>
      match group_datetime g with
      | Some t =>
          if t =? created_at then mark_created g :: rest
          else mkEntryGroup [] creation_time system_user true
               :: g :: rest
      | None =>
          mkEntryGroup [] creation_time system_user true :: g :: rest
      end
  | _, _ =>
      mkEntryGroup [] creation_time system_user true :: entries_group
  end.

(** The entry groups [timeline] hands to the template. *)
Definition timeline_entries_group (creation_time commented_on : option DateTime)
           (submissions : list Sub) : list (EntryGroup Entry) :=
  let entries_group :=
    map entry_group
        (group_runs (timeline_submissions commented_on submissions)) in
  let entries_group := add_created creation_time entries_group in
  (* Let's reverse the chronological order *)
  rev entries_group.

End Timeline.

(** ** Alternative source languages (pootle_store/views.py) *)

Record Language := mkLanguage {
  lang_id : Z;
  lang_code : string;
  (* the projects of the language's translation projects *)
  lang_projects : list Z
}.

Record Project := mkProject {
  project_id : Z;
  source_language : Language
}.

Record TranslationProject := mkTranslationProject {
  tp_language : Language;
  tp_project : Project
}.

(** [.filter(translationproject__project=project)]: a join, with one row
    per translation project of the language in the project. *)
Definition of_project (project : Project) (langs : list Language)
  : list Language :=
  flat_map (fun l => map (fun _ => l)
                         (List.filter (Z.eqb (project_id project))
                                      (lang_projects l)))
           langs.

Section AltSrcLangs.

(** The priority that comes with a language of the header; not looked at. *)
Variable Priority : Type.
Variable parse_accept_lang_header : string -> list (string * Priority).
Variables simplify_to_common normalize_code to_locale : string -> string.
(** [Language.objects] *)
Variable Language_objects : list Language.

Definition header_normalized (accept_lang : string) : string :=
  to_locale (normalize_code (simplify_to_common accept_lang)).

Definition header_code (accept_lang : string) : string :=
  to_locale accept_lang.

(** The header languages the loop passes over: the wildcard, English, and
    the source and target language of the translation project. *)
Definition header_skipped (language source_language : Language)
           (accept_lang : string) : bool :=
  String.eqb accept_lang "*"
  || (PyStr.mem (header_normalized accept_lang)
                ["en"; "en_US"; lang_code source_language;
                 lang_code language]
      || PyStr.mem (header_code accept_lang)
                   ["en"; "en_US"; lang_code source_language;
                    lang_code language]).

(** The languages of the project under one of the two codes of a header
    language. *)
Definition header_langs (project : Project) (accept_lang : string)
  : list Language :=
  of_project project
    (List.filter (fun l => PyStr.mem (lang_code l)
                                     [header_normalized accept_lang;
                                      header_code accept_lang])
                 Language_objects).

(** The loop over the header: [langs] is rebound at each language that is
    not passed over, and the loop ends at the first one with languages. *)
Fixpoint accept_loop (language source_language : Language)
         (project : Project) (langs : list Language)
         (accepted : list (string * Priority)) : list Language :=
  match accepted with
  | [] => langs
  | (accept_lang, unused) :: rest =>
      if header_skipped language source_language accept_lang then
        accept_loop language source_language project langs rest
      else
        let langs := header_langs project accept_lang in
        if negb (Z.of_nat (List.length langs) =? 0) then langs
        else accept_loop language source_language project langs rest
  end.

(** [user_alt_src_langs] is [user.alt_src_langs]. *)
Definition get_alt_src_langs (META : list (string * string))
           (user_alt_src_langs : list Language)
           (translation_project : TranslationProject) : list Language :=
  let language := tp_language translation_project in
  let project := tp_project translation_project in
  let source_language := source_language project in
  let langs :=
    of_project project
      (List.filter
         (fun l => negb (existsb (Z.eqb (lang_id l))
                                 [lang_id language; lang_id source_language]))
         user_alt_src_langs) in
  if Z.of_nat (List.length user_alt_src_langs) =? 0 then
    let accept := match dict_get "HTTP_ACCEPT_LANGUAGE" META with
                  | Some a => a
                  | None => ""
                  end in
    accept_loop language source_language project langs
                (parse_accept_lang_header accept)
  else langs.

End AltSrcLangs.

(** ** A sample store and sample collaborators *)

Module Sample.

(** Two databases.  [db] compares as PostgreSQL does: [contains] takes
    the characters as they are, [icontains] folds every letter, NULL sorts
    above the values.  [sqlite] folds the letters A to Z, in both lookups,
    and sorts NULL below the values. *)
Definition db : Database := mkDatabase PyStr.lower_char false false.

Definition fold_a_z (c : ascii) : ascii :=
  if PyStr.between 65 90 (nat_of_ascii c)
  then ascii_of_nat (nat_of_ascii c + 32) else c.

Definition sqlite : Database := mkDatabase fold_a_z true true.

Definition UNTRANSLATED : Z := 0.
Definition FUZZY : Z := 50.
Definition TRANSLATED : Z := 200.
Definition EDIT_TYPES : list Z := [1; 3].

Definition get_user (username : string) : option UserId :=
  if String.eqb username "admin" then Some 1 else None.

Definition parse_datetime (s : string) : option DateTime :=
  if String.eqb s "epoch" then Some 0 else None.

Definition get_date_interval (s : string) : DateTime * DateTime :=
  (100, 200).

(** A form that is valid as soon as it has a search text; its cleaned
    data are the values given. *)
Definition make_search_form (data : QueryDict) : option SearchForm :=
  match QD.get "search" data, QD.getlist "sfields" data with
  | Some text, Some fields =>
      Some (mkSearchForm text fields
              (match QD.getlist "soptions" data with
               | Some o => o
               | None => []
               end))
  | _, _ => None
  end.

Definition digit_of (c : ascii) : option Z :=
  let n := nat_of_ascii c in
  if (Nat.leb 48 n && Nat.leb n 57)%bool then Some (Z.of_nat (n - 48))
  else None.

Fixpoint digits (acc : Z) (s : string) : option Z :=
  match s with
  | EmptyString => Some acc
  | String c rest => match digit_of c with
                     | Some d => digits (10 * acc + d) rest
                     | None => None
                     end
  end.

(** Decimal numerals are integers, other texts are not. *)
Definition to_int (s : string) : option Z :=
  match s with
  | EmptyString => None
  | _ => digits 0 s
  end.

Definition get_unit_rows (user : UserId) : Z := 1.

Definition unit_ (i st : Z) (source target : string) (path : string)
           (folders : list Z) : Unit :=
  mkUnit i st source target "" "" "" None None None None path [] [] []
         folders.

Definition u11 := unit_ 11 200 "Open file" "Datei offnen" "/de/a.po" [].
Definition u12 := unit_ 12 0 "Close" "" "/de/a.po" [5; 3].
Definition u13 := unit_ 13 50 "Save file as" "Speichern" "/de/a.po" [2].
Definition u14 := unit_ 14 200 "Quit" "Beenden" "/de/b.po" [].
Definition u15 := unit_ 15 0 "FILE" "" "/de/b.po" [7].

Definition store : list Unit := [u11; u12; u13; u14; u15].

Definition get_for_path (path : string) (user : UserId) : QuerySet :=
  QS.all_of store.

Definition step : Request -> QuerySet -> Result QuerySet :=
  get_step_query db UNTRANSLATED FUZZY TRANSLATED EDIT_TYPES get_user
                 parse_datetime get_date_interval make_search_form.

Definition units_view : Request -> Result UnitsResponse :=
  get_units db UNTRANSLATED FUZZY TRANSLATED EDIT_TYPES get_user
            parse_datetime get_date_interval make_search_form to_int
            get_unit_rows get_for_path.

Definition get (params : QueryDict) : Request := mkRequest params [] 1.
Definition post (params : QueryDict) : Request := mkRequest [] params 1.

Definition public_score (user : UserId) : Z := 0.
Definition accepted_extras (u : Unit) : list (string * Json) := [].

(** Folders need a positive priority. *)
Definition validates (v : VirtualFolder) : bool := 0 <? vf_priority v.

Definition item_docs : VFolderItem :=
  mkVFolderItem (Given "Docs") (Some "/de/") (Given ["a.po"]) None None None
                [].
Definition item_DOCS : VFolderItem :=
  mkVFolderItem (Given "DOCS") (Some "/de/") (Given ["a.po"; "b.po"])
                (Some 4) None None [].

Definition add_item :=
  handle_item validates 1 true "".

(** The comment form rejects units whose comment is locked. *)
Definition comment_valid (data : QueryDict) (u : Unit) (request : Request)
  : bool :=
  negb (String.eqb (translator_comment u) "locked").

Definition export_context
  : string -> Request -> Result (list (string * CtxVal)) :=
  get_export_view_context db UNTRANSLATED FUZZY TRANSLATED EDIT_TYPES get_user
                          parse_datetime get_date_interval make_search_form
                          get_for_path (fun s => s) (fun _ => None).

(** Requests. *)
Definition initial_13 : Request :=
  get [("path", ["/de/"]); ("initial", ["true"]); ("uids", ["13"])].
Definition initial_empty_99 : Request :=
  get [("path", ["/de/"]); ("initial", [""]); ("uids", ["99"])].
Definition initial_13_counted : Request :=
  get [("path", ["/de/"]); ("initial", ["true"]); ("uids", ["13"]);
       ("count", ["1"])].
Definition by_priority : Request :=
  get [("filter", ["all"]); ("sort", ["priority"])].
Definition incomplete : Request := get [("filter", ["incomplete"])].
Definition bogus : Request := get [("filter", ["bogus"])].
Definition reject_set : Request := post [("reject", ["1"])].
Definition reject_empty : Request := post [("reject", [""])].
Definition accept_empty : Request := post [("accept", [""])].

(** The ordered ids an initial request sees. *)
Definition uid_list (request : Request) : list Z :=
  match step request (get_for_path "/de/" 1) with
  | Ok step_queryset => map id (QS.evaluate step_queryset)
  | Raise _ => []
  end.

Definition served : Request -> QuerySet -> list Z -> Prop :=
  serves_window db UNTRANSLATED FUZZY TRANSLATED EDIT_TYPES get_user
                parse_datetime get_date_interval make_search_form to_int
                get_unit_rows get_for_path.

(** More requests and data. *)
Definition checks_only : Request := get [("checks", ["xmltags"])].
Definition plain_12_15 : Request :=
  get [("path", ["/de/"]); ("uids", ["12,15"])].
Definition all_units : Request := get [("filter", ["all"])].
Definition checks_without_names : Request := get [("filter", ["checks"])].
Definition user_suggestions : QueryDict :=
  [("filter", ["user-suggestions"])].
Definition file_in_source : SearchForm := mkSearchForm "file" ["source"] [].
Definition no_fields : SearchForm := mkSearchForm "file" [] [].

Definition load (filename : string) : option (list VFolderItem) :=
  if String.eqb filename "vfolders.json" then Some [item_docs; item_DOCS]
  else None.

Definition add_vfolders :=
  handle validates 1 true "".
Definition add_items :=
  handle_items validates 1 true "".

Definition docs_row : VirtualFolder :=
  mkVirtualFolder "docs" "/de/" "a.po" 1 true "".
Definition docs_row_updated : VirtualFolder :=
  mkVirtualFolder "docs" "/de/" "a.po,b.po" 4 true "".

(** All sample units are in store 1, at the index their id gives. *)
Definition store_id (u : Unit) : Z := 1.
Definition index (u : Unit) : Z := id u - 10.

Definition pending_5 : Suggestion :=
  mkSuggestion 5 SuggestionStates.PENDING 2 100.
Definition u16 : Unit :=
  mkUnit 16 0 "Help" "" "" "" "" None None None None "/de/b.po"
         [pending_5] [] [] [].

(** Languages and a project translated from English into German. *)
Definition english : Language := mkLanguage 1 "en" [7].
Definition german : Language := mkLanguage 2 "de" [7].
Definition french : Language := mkLanguage 3 "fr" [7; 8].
Definition dutch : Language := mkLanguage 4 "nl" [8].
Definition languages : list Language := [english; german; french; dutch].
Definition project_7 : Project := mkProject 7 english.
Definition german_7 : TranslationProject :=
  mkTranslationProject german project_7.

(** A header is a comma-separated list of languages, all of one
    priority; locales are written as the header has them. *)
Definition parse_accept_lang_header (accept : string)
  : list (string * Z) :=
  map (fun lang => (lang, 1)) (PyStr.split_on "," accept).
Definition same_code (s : string) : string := s.

Definition alt_src_langs :=
  get_alt_src_langs Z parse_accept_lang_header same_code same_code same_code
                    languages.

(** The ids of the units a step query gives. *)
Definition ids (r : Result QuerySet) : Result (list Z) :=
  qs <- r ;; Ok (map id (QS.evaluate qs)).

Definition step_sqlite : Request -> QuerySet -> Result QuerySet :=
  get_step_query sqlite UNTRANSLATED FUZZY TRANSLATED EDIT_TYPES get_user
                 parse_datetime get_date_interval make_search_form.

Definition translated_in_month : Request :=
  get [("filter", ["translated"]); ("month", ["2015-01"])].
Definition priority_search_two : Request :=
  get [("filter", ["all"]); ("sort", ["priority"]); ("search", ["file"]);
       ("sfields", ["source,target"])].
Definition initial_empty_13 : Request :=
  get [("path", ["/de/"]); ("initial", [""]); ("uids", ["13"])].
Definition exact_file : SearchForm :=
  mkSearchForm "file" ["source"] ["exact"].
Definition source_and_target : SearchForm :=
  mkSearchForm "file" ["source"; "target"] [].

(** A text with letters beyond A to Z: [Ecrit] with an acute accent on
    the capital, and its lower-case form. *)
Definition Ecrit : string := String (ascii_of_nat 201) "crit".
Definition ecrit : string := String (ascii_of_nat 233) "crit".

End Sample.
(** ** Texts: appending and containment *)

Lemma append_empty_r (s : string) : s ++ "" = s.
Proof. induction s; simpl; congruence. Qed.

Lemma append_assoc (a b c : string) : (a ++ b) ++ c = a ++ (b ++ c).
Proof. induction a; simpl; congruence. Qed.

Lemma append_nil_inv (a b : string) : a ++ b = "" -> a = "" /\ b = "".
Proof. destruct a; simpl; [auto | discriminate]. Qed.

Lemma append_cons_inv (c : ascii) (rest a b : string) :
  String c rest = a ++ b ->
  (a = "" /\ b = String c rest)
  \/ exists a', a = String c a' /\ rest = a' ++ b.
Proof.
  destruct a as [|d a']; simpl; intros H.
  - left. now split.
  - right. injection H as -> ->. now exists a'.
Qed.

Lemma chars_append (a b : string) :
  PyStr.chars (a ++ b) = (PyStr.chars a ++ PyStr.chars b)%list.
Proof.
  unfold PyStr.chars. induction a as [|c a IH]; simpl; [reflexivity|].
  now rewrite IH.
Qed.

Lemma prefix_iff (s1 s2 : string) :
  String.prefix s1 s2 = true <-> exists post, s2 = s1 ++ post.
Proof.
  revert s2; induction s1 as [|a s1 IH]; intros s2.
  - destruct s2; simpl; split; eauto.
  - destruct s2 as [|b s2]; simpl.
    + split; [discriminate | intros [post H]; discriminate].
    + destruct (ascii_dec a b) as [->|Hab].
      * rewrite IH. split; intros [post H]; exists post.
        -- now rewrite H.
        -- now injection H.
      * split; [discriminate | intros [post H]; injection H; intros; subst].
        now elim Hab.
Qed.

Lemma contains_nil (needle : string) :
  PyStr.contains needle "" = String.prefix needle "" || false.
Proof. reflexivity. Qed.

Lemma contains_cons (needle : string) (c : ascii) (hay : string) :
  PyStr.contains needle (String c hay)
  = String.prefix needle (String c hay) || PyStr.contains needle hay.
Proof. reflexivity. Qed.

Lemma contains_iff (needle hay : string) :
  PyStr.contains needle hay = true <-> Substring needle hay.
Proof.
  unfold Substring. induction hay as [|c hay IH].
  - rewrite contains_nil, orb_false_r, prefix_iff. split.
    + intros [post H]. exists "", post. exact H.
    + intros [pre [post H]]. destruct pre; simpl in H.
      * eauto.
      * discriminate.
  - rewrite contains_cons, orb_true_iff, prefix_iff, IH. split.
    + intros [[post H] | [pre [post H]]].
      * exists "", post. exact H.
      * exists (String c pre), post. simpl. now rewrite H.
    + intros [pre [post H]]. destruct pre as [|d pre]; simpl in H.
      * left. eauto.
      * right. injection H; intros. eauto.
Qed.

Lemma contains_empty (s : string) : PyStr.contains "" s = true.
Proof. apply contains_iff. exists "", s. reflexivity. Qed.

Lemma Substring_refl (s : string) : Substring s s.
Proof. exists "", "". simpl. now rewrite append_empty_r. Qed.

Lemma Substring_trans (a b c : string) :
  Substring a b -> Substring b c -> Substring a c.
Proof.
  intros [p1 [q1 ->]] [p2 [q2 ->]].
  exists (p2 ++ p1), (q1 ++ q2). now rewrite !append_assoc.
Qed.

(** ** Texts up to a folding *)

Lemma map_chars_append (f : ascii -> ascii) (a b : string) :
  PyStr.map_chars f (a ++ b) = PyStr.map_chars f a ++ PyStr.map_chars f b.
Proof. induction a as [|c a IH]; simpl; [reflexivity | now rewrite IH]. Qed.

Lemma map_chars_append_inv (f : ascii -> ascii) (a b : string) :
  forall h, PyStr.map_chars f h = a ++ b ->
  exists h1 h2, h = h1 ++ h2
                /\ PyStr.map_chars f h1 = a /\ PyStr.map_chars f h2 = b.
Proof.
  induction a as [|c a IH]; simpl; intros h H.
  - exists "", h. auto.
  - destruct h as [|d h]; simpl in H; [discriminate|].
    injection H as Hc Hr. destruct (IH h Hr) as (h1 & h2 & -> & H1 & H2).
    exists (String d h1), h2. simpl. now rewrite Hc, H1.
Qed.

Lemma map_chars_same (f : ascii -> ascii) (a b : string) :
  PyStr.map_chars f a = PyStr.map_chars f b <-> SameUpTo f a b.
Proof.
  unfold SameUpTo, PyStr.chars. revert b.
  induction a as [|c a IH]; intros [|d b]; simpl.
  - split; [constructor | reflexivity].
  - split; [discriminate | intros H; inversion H].
  - split; [discriminate | intros H; inversion H].
  - split.
    + intros H. injection H as Hc Hr. constructor; [exact Hc|].
      now apply IH.
    + intros H. inversion H as [|? ? ? ? Hc Hr]; subst.
      apply IH in Hr. now rewrite Hc, Hr.
Qed.

Lemma SameUpTo_refl (f : ascii -> ascii) (s : string) : SameUpTo f s s.
Proof. now apply map_chars_same. Qed.

Lemma folded_contains_iff (f : ascii -> ascii) (needle hay : string) :
  PyStr.contains (PyStr.map_chars f needle) (PyStr.map_chars f hay) = true
  <-> Occurs f needle hay.
Proof.
  rewrite contains_iff. unfold Substring, Occurs. split.
  - intros (pre & post & H).
    destruct (map_chars_append_inv f _ _ _ H) as (h1 & h2 & -> & _ & H2).
    destruct (map_chars_append_inv f _ _ _ H2) as (mid & h3 & -> & Hm & _).
    exists h1, mid, h3. split; [reflexivity|].
    apply map_chars_same. now symmetry.
  - intros (pre & mid & post & -> & H). apply map_chars_same in H.
    exists (PyStr.map_chars f pre), (PyStr.map_chars f post).
    now rewrite !map_chars_append, H.
Qed.

Lemma icontains_iff (db : Database) (needle hay : string) :
  DB.icontains db needle hay = true <-> Occurs (db_fold db) needle hay.
Proof. apply folded_contains_iff. Qed.

Lemma db_contains_iff (db : Database) (needle hay : string) :
  DB.contains db needle hay = true
  <-> if db_contains_folds db then Occurs (db_fold db) needle hay
      else Substring needle hay.
Proof.
  unfold DB.contains. destruct (db_contains_folds db).
  - apply icontains_iff.
  - apply contains_iff.
Qed.

Lemma Substring_Occurs (f : ascii -> ascii) (needle hay : string) :
  Substring needle hay -> Occurs f needle hay.
Proof.
  intros (pre & post & ->). exists pre, needle, post.
  split; [reflexivity | apply SameUpTo_refl].
Qed.

(** A part of a text that occurs somewhere occurs there too. *)
Lemma Occurs_part (f : ascii -> ascii) (part needle hay : string) :
  Substring part needle -> Occurs f needle hay -> Occurs f part hay.
Proof.
  intros (a & b & ->) (pre & mid & post & -> & H).
  apply map_chars_same in H. rewrite !map_chars_append in H.
  symmetry in H.
  destruct (map_chars_append_inv f _ _ _ H) as (a' & m2 & -> & _ & H2).
  destruct (map_chars_append_inv f _ _ _ H2) as (p' & b' & -> & Hp & _).
  exists (pre ++ a'), p', (b' ++ post). split.
  - now rewrite !append_assoc.
  - apply map_chars_same. now symmetry.
Qed.

(** The [contains] lookup finds nothing the [icontains] lookup would not
    find, for the text or for a part of it. *)
Lemma contains_icontains_part (db : Database) (part needle hay : string) :
  Substring part needle ->
  DB.contains db needle hay = true -> DB.icontains db part hay = true.
Proof.
  intros Hp H. apply icontains_iff. apply db_contains_iff in H.
  apply (Occurs_part _ _ needle); [exact Hp|].
  destruct (db_contains_folds db); [exact H | now apply Substring_Occurs].
Qed.

(** ** Words *)

(** [is_space] holds for the blank characters, and for no other. *)
Lemma is_space_iff (c : ascii) : PyStr.is_space c = true <-> Whitespace c.
Proof.
  unfold PyStr.is_space, PyStr.between, Whitespace. cbv zeta. cbn [In].
  rewrite !orb_true_iff, !andb_true_iff, !Nat.leb_le, !Nat.eqb_eq. lia.
Qed.

Lemma is_space_false (c : ascii) :
  PyStr.is_space c = false <-> ~ Whitespace c.
Proof.
  rewrite <- is_space_iff. destruct (PyStr.is_space c); intuition congruence.
Qed.

Lemma NoBlank_nil : NoBlank "".
Proof. intros c []. Qed.

Lemma NoBlank_cons (c : ascii) (s : string) :
  NoBlank (String c s) <-> ~ Whitespace c /\ NoBlank s.
Proof.
  unfold NoBlank, PyStr.chars; simpl. split.
  - intros H. split; [apply H; auto | intros d Hd; apply H; auto].
  - intros [Hc Hs] d [<-|Hd]; auto.
Qed.

Lemma NoBlank_append (a b : string) :
  NoBlank (a ++ b) <-> NoBlank a /\ NoBlank b.
Proof.
  unfold NoBlank. split.
  - intros H. split; intros c Hc; apply H; rewrite chars_append;
      apply in_or_app; auto.
  - intros [Ha Hb] c Hc. rewrite chars_append in Hc.
    apply in_app_or in Hc. destruct Hc; auto.
Qed.

Lemma snoc_not_nil (p : string) (c : ascii) : p ++ String c "" <> "".
Proof. destruct p; discriminate. Qed.

Lemma cons_snoc_inv (c d : ascii) (rest p : string) :
  String c rest = p ++ String d "" ->
  (p = "" /\ rest = "" /\ c = d)
  \/ exists p', p = String c p' /\ rest = p' ++ String d "".
Proof.
  intros H. destruct (append_cons_inv _ _ _ _ H) as [[-> E]|[p' [-> E]]].
  - left. injection E as -> ->. auto.
  - right. now exists p'.
Qed.

(** What [split_ws_aux] yields: the word being read, completed by the
    characters up to the next blank, and the words after a blank. *)
Lemma split_ws_aux_spec (s : string) : forall cur w,
  NoBlank cur ->
  In w (PyStr.split_ws_aux cur s) <->
  (w <> ""
   /\ exists head post, s = head ++ post /\ NoBlank head
                        /\ StartsBlank post /\ w = cur ++ head)
  \/ (w <> "" /\ NoBlank w
      /\ exists pre post,
          s = pre ++ w ++ post
          /\ (exists p c, pre = p ++ String c "" /\ Whitespace c)
          /\ StartsBlank post).
Proof.
  induction s as [|c rest IH]; intros cur w Hcur.
  - simpl. split.
    + intros H. left. destruct cur as [|d cur]; [destruct H|].
      destruct H as [<-|[]]. split; [discriminate|].
      exists "", "".
      split; [reflexivity|]. split; [apply NoBlank_nil|].
      split; [now left | now rewrite append_empty_r].
    + intros [(Hw & head & post & E & _ & _ & ->)
             |(Hw & _ & pre & post & E & (p & d & -> & _) & _)].
      * symmetry in E. apply append_nil_inv in E. destruct E as [-> ->].
        rewrite append_empty_r in *.
        destruct cur; [now elim Hw | now left].
      * exfalso. symmetry in E. rewrite append_assoc in E.
        apply append_nil_inv in E. destruct E as [_ E].
        discriminate E.
  - simpl. destruct (PyStr.is_space c) eqn:Hc;
      [apply is_space_iff in Hc | apply is_space_false in Hc].
    + rewrite in_app_iff, (IH "" w NoBlank_nil). split.
      * intros [H|[(Hw & head & post & -> & Hh & Hp & ->)
                  |(Hw & Hn & pre & post & -> & (p & d & -> & Hd) & Hp)]].
        -- left. destruct cur as [|e cur]; [destruct H|].
           destruct H as [<-|[]]. split; [discriminate|].
           exists "", (String c rest).
           split; [reflexivity|]. split; [apply NoBlank_nil|].
           split; [|now rewrite append_empty_r]. right. now exists c, rest.
        -- right. simpl in *. split; [exact Hw|]. split; [exact Hh|].
           exists (String c ""), post. split; [reflexivity|].
           split; [now exists "", c | exact Hp].
        -- right. split; [exact Hw|]. split; [exact Hn|].
           exists (String c (p ++ String d "")), post.
           split; [reflexivity|].
           split; [now exists (String c p), d | exact Hp].
      * intros [(Hw & head & post & E & Hh & Hp & ->)
               |(Hw & Hn & pre & post & E & (p & d & -> & Hd) & Hp)].
        -- left.
           destruct (append_cons_inv _ _ _ _ E) as [[-> _]|[a' [-> _]]].
           ++ rewrite append_empty_r in *.
              destruct cur; [now elim Hw | now left].
           ++ apply NoBlank_cons in Hh. destruct Hh as [Hh _].
              contradiction.
        -- right. rewrite append_assoc in E. simpl in E.
           destruct p as [|e p]; simpl in E.
           ++ injection E as _ E. left. split; [exact Hw|].
              exists w, post.
              split; [exact E|]. split; [exact Hn|]. now split.
           ++ injection E as _ E. right. split; [exact Hw|].
              split; [exact Hn|].
              exists (p ++ String d ""), post.
              split; [now rewrite append_assoc|].
              split; [now exists p, d | exact Hp].
    + assert (Hcur' : NoBlank (cur ++ String c "")).
      { apply NoBlank_append. split; [exact Hcur|].
        apply NoBlank_cons. split; [exact Hc | apply NoBlank_nil]. }
      rewrite (IH _ w Hcur'). split.
      * intros [(Hw & head & post & -> & Hh & Hp & ->)
               |(Hw & Hn & pre & post & -> & (p & d & -> & Hd) & Hp)].
        -- left. split; [exact Hw|].
           exists (String c head), post. simpl.
           split; [reflexivity|].
           split; [apply NoBlank_cons; auto|].
           split; [exact Hp | now rewrite append_assoc].
        -- right. split; [exact Hw|]. split; [exact Hn|].
           exists (String c (p ++ String d "")), post.
           split; [reflexivity|].
           split; [now exists (String c p), d | exact Hp].
      * intros [(Hw & head & post & E & Hh & Hp & ->)
               |(Hw & Hn & pre & post & E & (p & d & -> & Hd) & Hp)].
        -- left.
           destruct (append_cons_inv _ _ _ _ E) as [[-> E']|[a' [-> E']]].
           ++ exfalso. destruct Hp as [->|(e & q & -> & He)];
                [discriminate E'|].
              injection E' as <- _. contradiction.
           ++ split; [exact Hw|]. exists a', post.
              apply NoBlank_cons in Hh. destruct Hh as [_ Hh].
              split; [exact E'|]. split; [exact Hh|].
              split; [exact Hp | now rewrite append_assoc].
        -- right. rewrite append_assoc in E. simpl in E.
           destruct p as [|e p]; simpl in E.
           ++ injection E as <- _. contradiction.
           ++ injection E as _ E. split; [exact Hw|]. split; [exact Hn|].
              exists (p ++ String d ""), post.
              split; [now rewrite append_assoc|].
              split; [now exists p, d | exact Hp].
Qed.

(** [split()] yields exactly the whitespace-separated words. *)
Lemma split_ws_word (w s : string) :
  In w (PyStr.split_ws s) <-> Word w s.
Proof.
  unfold PyStr.split_ws. rewrite (split_ws_aux_spec s "" w NoBlank_nil).
  unfold Word. split.
  - intros [(Hw & head & post & -> & Hh & Hp & ->)
           |(Hw & Hn & pre & post & -> & Hpre & Hp)].
    + simpl. split; [exact Hw|]. split; [exact Hh|].
      exists "", post. split; [reflexivity|].
      split; [now left | exact Hp].
    + split; [exact Hw|]. split; [exact Hn|].
      exists pre, post. split; [reflexivity|].
      split; [now right | exact Hp].
  - intros (Hw & Hn & pre & post & -> & [->|Hpre] & Hp).
    + left. split; [exact Hw|]. exists w, post.
      split; [reflexivity|]. split; [exact Hn|]. now split.
    + right. split; [exact Hw|]. split; [exact Hn|].
      exists pre, post. auto.
Qed.

Lemma Word_Substring (w s : string) : Word w s -> Substring w s.
Proof. intros (_ & _ & pre & post & -> & _). now exists pre, post. Qed.

Lemma split_ws_substring (s w : string) :
  In w (PyStr.split_ws s) -> Substring w s.
Proof. intros H. apply Word_Substring, split_ws_word, H. Qed.

(** A text of blanks has no word. *)
Lemma split_ws_blank (s : string) : Blank s -> PyStr.split_ws s = [].
Proof.
  unfold PyStr.split_ws, Blank, PyStr.chars.
  induction s as [|c s IH]; simpl; intros H; [reflexivity|].
  rewrite (proj2 (is_space_iff c) (H c (or_introl eq_refl))). simpl.
  apply IH. intros d Hd. apply H. auto.
Qed.

Lemma split_ws_nil_blank (s : string) : PyStr.split_ws s = [] -> Blank s.
Proof.
  unfold PyStr.split_ws, Blank, PyStr.chars.
  assert (G : forall s cur, PyStr.split_ws_aux cur s = [] ->
                            cur = ""
                            /\ forall c, In c (list_ascii_of_string s) ->
                                         Whitespace c).
  { clear s. induction s as [|c s IH]; simpl; intros cur H.
    - destruct cur; [split; [reflexivity | intros c []] | discriminate].
    - destruct (PyStr.is_space c) eqn:Hc.
      + apply is_space_iff in Hc.
        apply app_eq_nil in H. destruct H as [Hf H].
        destruct (IH _ H) as [_ Hs].
        split; [destruct cur; [reflexivity | discriminate]|].
        intros d [<-|Hd]; auto.
      + destruct (IH _ H) as [E _]. now apply snoc_not_nil in E. }
  intros H. apply (G s ""), H.
Qed.

(** ** Letter case *)

(** [is_upper_char] holds for the upper-case letters, and for no other
    character. *)
Lemma is_upper_char_iff (c : ascii) :
  PyStr.is_upper_char c = true <-> UpperCase c.
Proof.
  unfold PyStr.is_upper_char, PyStr.between, UpperCase. cbv zeta.
  rewrite !orb_true_iff, !andb_true_iff, !Nat.leb_le. tauto.
Qed.

Lemma is_upper_char_false (c : ascii) :
  PyStr.is_upper_char c = false <-> ~ UpperCase c.
Proof.
  rewrite <- is_upper_char_iff.
  destruct (PyStr.is_upper_char c); intuition congruence.
Qed.


Lemma lower_char_not_upper (c : ascii) :
  PyStr.is_upper_char (PyStr.lower_char c) = false.
Proof.
  unfold PyStr.lower_char.
  destruct (PyStr.is_upper_char c) eqn:E; [|exact E].
  unfold PyStr.is_upper_char in *.
  set (n := nat_of_ascii c) in *.
  assert (Hn : (n < 256)%nat) by apply nat_ascii_bounded.
  unfold PyStr.between in E.
  assert (Hr : (65 <= n <= 90 \/ 192 <= n <= 214 \/ 216 <= n <= 222)%nat).
  { repeat (apply orb_true_iff in E; destruct E as [E|E]);
      apply andb_true_iff in E; destruct E as [E1 E2];
      apply Nat.leb_le in E1, E2; lia. }
  rewrite nat_ascii_embedding by lia.
  unfold PyStr.between.
  repeat (apply orb_false_iff; split);
    apply andb_false_iff;
    rewrite !Nat.leb_gt; lia.
Qed.



Lemma has_upper_NoUpper (s : string) :
  PyStr.has_upper s = false <-> NoUpper s.
Proof.
  unfold NoUpper, PyStr.chars. induction s as [|c s IH]; simpl.
  - split; [intros _ d [] | reflexivity].
  - rewrite orb_false_iff, IH, is_upper_char_false. split.
    + intros [Hc Hs] d [<-|Hd]; auto.
    + intros H. split; [apply H; auto | intros d Hd; apply H; auto].
Qed.

(** Same letters have the same lower-case letter. *)
Lemma same_letter_lower (c d : ascii) :
  same_letter c d -> PyStr.lower_char c = PyStr.lower_char d.
Proof.
  assert (G : forall c d, PyStr.is_upper_char c = true ->
                          nat_of_ascii d = (nat_of_ascii c + 32)%nat ->
                          PyStr.lower_char c = PyStr.lower_char d).
  { clear c d. intros c d Hc Hd.
    assert (Hl : PyStr.lower_char c = d).
    { unfold PyStr.lower_char. rewrite Hc, <- Hd.
      apply ascii_nat_embedding. }
    rewrite Hl. unfold PyStr.lower_char at 1.
    pose proof (lower_char_not_upper c) as Hn. rewrite Hl in Hn.
    now rewrite Hn. }
  intros [->|[[Hc Hd]|[Hd Hc]]]; [reflexivity | |];
    apply is_upper_char_iff in Hc + apply is_upper_char_iff in Hd.
  - now apply G.
  - symmetry. now apply G.
Qed.


Lemma is_upper_char_bound (c : ascii) :
  PyStr.is_upper_char c = true -> (nat_of_ascii c + 32 < 256)%nat.
Proof.
  unfold PyStr.is_upper_char, PyStr.between. intros E.
  repeat (apply orb_true_iff in E; destruct E as [E|E]);
    apply andb_true_iff in E; destruct E as [_ E];
    apply Nat.leb_le in E; lia.
Qed.

(** Two characters have the same lower-case letter exactly when they are
    the same letter. *)
Lemma lower_char_eq_iff (c d : ascii) :
  PyStr.lower_char c = PyStr.lower_char d <-> same_letter c d.
Proof.
  split; [|apply same_letter_lower].
  unfold PyStr.lower_char, same_letter.
  destruct (PyStr.is_upper_char c) eqn:Ec,
           (PyStr.is_upper_char d) eqn:Ed; intros H.
  - left. apply (f_equal nat_of_ascii) in H.
    rewrite !nat_ascii_embedding in H by now apply is_upper_char_bound.
    rewrite <- (ascii_nat_embedding c), <- (ascii_nat_embedding d).
    f_equal. lia.
  - right. left. split; [now apply is_upper_char_iff|]. rewrite <- H.
    apply nat_ascii_embedding. now apply is_upper_char_bound.
  - right. right. split; [now apply is_upper_char_iff|]. rewrite H.
    apply nat_ascii_embedding. now apply is_upper_char_bound.
  - now left.
Qed.

(** For a folding that equates the characters that are the same letter,
    being the same up to the folding is differing only by letter case. *)
Lemma SameUpTo_case (f : ascii -> ascii) (a b : string) :
  (forall c d, f c = f d <-> same_letter c d) ->
  SameUpTo f a b <-> differ_only_by_case a b.
Proof.
  intros Hf. unfold SameUpTo, differ_only_by_case.
  split; apply Forall2_impl; intros c d; apply Hf.
Qed.

Lemma Occurs_case (f : ascii -> ascii) (needle hay : string) :
  (forall c d, f c = f d <-> same_letter c d) ->
  Occurs f needle hay <-> OccursUpToCase needle hay.
Proof.
  intros Hf. unfold Occurs, OccursUpToCase, Substring. split.
  - intros (pre & mid & post & -> & H). exists mid.
    split; [eauto | now apply (SameUpTo_case f)].
  - intros (mid & (pre & post & ->) & H). exists pre, mid, post.
    split; [reflexivity | now apply (SameUpTo_case f)].
Qed.
(** ** Query sets: evaluation lemmas *)

Lemma filter_andb {A} (p q : A -> bool) (l : list A) :
  List.filter (fun x => p x && q x) l = List.filter q (List.filter p l).
Proof.
  induction l as [|x l IH]; simpl; [reflexivity|].
  destruct (p x); simpl; [destruct (q x)|]; now rewrite IH.
Qed.

Lemma filter_all {A} (l : list A) : List.filter (fun _ => true) l = l.
Proof. induction l; simpl; congruence. Qed.

Lemma filter_none {A} (p : A -> bool) (l : list A) :
  (forall x, p x = false) -> List.filter p l = [].
Proof.
  intros H. induction l as [|x l IH]; simpl; [reflexivity|].
  now rewrite H.
Qed.

Lemma existsb_same {A} (f g : A -> bool) (l : list A) :
  (forall x, f x = g x) -> existsb f l = existsb g l.
Proof. intros H. induction l; simpl; congruence. Qed.

Lemma existsb_const_true {A} (l : list A) :
  existsb (fun _ => true) l = negb (match l with [] => true | _ => false end).
Proof. now destruct l. Qed.

Lemma mem_In (s : string) (l : list string) :
  PyStr.mem s l = true <-> In s l.
Proof.
  unfold PyStr.mem. rewrite existsb_exists. split.
  - intros [x [Hin E]]. apply String.eqb_eq in E. now subst.
  - intros H. exists s. split; [exact H | apply String.eqb_refl].
Qed.

Lemma evaluate_filter (p : Unit -> bool) (qs : QuerySet) :
  QS.evaluate (QS.filter p qs) = List.filter p (QS.evaluate qs).
Proof.
  unfold QS.evaluate, QS.filter, QS.rows; simpl.
  destruct (is_empty qs); [reflexivity | apply filter_andb].
Qed.

Lemma evaluate_all_of (l : list Unit) : QS.evaluate (QS.all_of l) = l.
Proof. unfold QS.evaluate, QS.rows; simpl. apply filter_all. Qed.

Lemma evaluate_distinct (qs : QuerySet) :
  QS.evaluate (QS.distinct qs) = QS.evaluate qs.
Proof. reflexivity. Qed.

Lemma evaluate_extra (name : string) (qs : QuerySet) :
  QS.evaluate (QS.extra name qs) = QS.evaluate qs.
Proof. reflexivity. Qed.

Ltac restricts_cases :=
  split; [|split; [|split]]; simpl; auto;
  try solve [intros; exfalso; intuition congruence].

Lemma Restricts_none qs : Restricts qs (fun _ => false) (QS.none qs).
Proof. restricts_cases. Qed.

Lemma Restricts_self qs : Restricts qs (fun _ => true) qs.
Proof.
  restricts_cases. intros _ u. now rewrite andb_true_r.
Qed.

Lemma Restricts_filter qs p q r :
  Restricts qs p r -> Restricts qs (fun u => p u && q u) (QS.filter q r).
Proof.
  intros (Hr & He & Hw & Hn). restricts_cases.
  - intros H u. now rewrite (Hw H), andb_assoc.
  - intros H. destruct (Hn H) as [|Hp]; auto.
    right. intros u. now rewrite Hp.
Qed.

Lemma Restricts_distinct qs p r :
  Restricts qs p r -> Restricts qs p (QS.distinct r).
Proof. intros (Hr & He & Hw & Hn). restricts_cases. Qed.

Lemma Restricts_ext qs p q r :
  (forall u, p u = q u) -> Restricts qs p r -> Restricts qs q r.
Proof.
  intros E (Hr & He & Hw & Hn). restricts_cases.
  - intros H u. now rewrite <- E, (Hw H).
  - intros H. destruct (Hn H) as [|Hp]; auto.
    right. intros u. now rewrite <- E.
Qed.

Lemma Restricts_evaluate qs p r :
  Restricts qs p r -> QS.evaluate r = List.filter p (QS.evaluate qs).
Proof.
  intros (Hr & He & Hw & Hn). unfold QS.evaluate.
  destruct (is_empty r) eqn:Er.
  - destruct (Hn eq_refl) as [Hq|Hp].
    + now rewrite Hq.
    + now rewrite filter_none.
  - destruct (is_empty qs) eqn:Eq; [discriminate (He eq_refl)|].
    rewrite Hr, <- filter_andb. apply filter_ext. auto.
Qed.

Lemma Restricts_trans a p b q c :
  Restricts a p b -> Restricts b q c ->
  Restricts a (fun u => p u && q u) c.
Proof.
  intros (Hr1 & He1 & Hw1 & Hn1) (Hr2 & He2 & Hw2 & Hn2).
  split; [congruence|split; [auto|split]].
  - intros H u. rewrite (Hw2 H).
    destruct (is_empty b) eqn:Eb; [rewrite (He2 eq_refl) in H; discriminate H|].
    now rewrite (Hw1 eq_refl), andb_assoc.
  - intros H. destruct (Hn2 H) as [Hb|Hq].
    + destruct (Hn1 Hb) as [|Hp]; auto. right. intros u. now rewrite Hp.
    + right. intros u. rewrite Hq. apply andb_false_r.
Qed.

(** ** Queries made from one query set *)

Lemma SameQuery_refl qs : SameQuery qs qs.
Proof. repeat split. Qed.

Lemma SameQuery_none qs : SameQuery qs (QS.none qs).
Proof. repeat split. Qed.

Lemma SameQuery_filter qs p r :
  SameQuery qs r -> SameQuery qs (QS.filter p r).
Proof. intros H. exact H. Qed.

Lemma SameQuery_rows qs r : SameQuery qs r -> QS.rows r = QS.rows qs.
Proof. intros (Ht & Ho & _). unfold QS.rows. now rewrite Ht, Ho. Qed.

Lemma Operand_self qs : Operand qs (fun _ => true) qs.
Proof. split; [apply Restricts_self|]. split; [apply SameQuery_refl | auto]. Qed.

Lemma Operand_filter qs p q r :
  Operand qs p r -> Operand qs (fun u => p u && q u) (QS.filter q r).
Proof.
  intros (H1 & H2 & H3). split; [now apply Restricts_filter|].
  split; [exact H2 | exact H3].
Qed.

Lemma Operand_ext qs p q r :
  (forall u, p u = q u) -> Operand qs p r -> Operand qs q r.
Proof.
  intros E (H1 & H2 & H3). split; [now apply (Restricts_ext qs p)|].
  now split.
Qed.

(** Or-ing two operands made from one query set: it is refused exactly
    when the query set is not empty and has an extra column. *)
Lemma or_operands qs p q a b :
  Operand qs p a -> Operand qs q b ->
  if negb (is_empty qs) && has_extra qs
  then QS.or a b = Raise ValueError
  else exists r, QS.or a b = Ok r
                 /\ Operand qs (fun u => p u || q u) r.
Proof.
  intros ((Hra & Hea & Hwa & Hna) & (Hta & Hoa & Hba & Hxa & Hda) & Eea)
         ((Hrb & Heb & Hwb & Hnb) & (Htb & Hob & Hbb & Hxb & Hdb) & Eeb).
  unfold QS.or, has_extra. rewrite Eea, Eeb, Hda, Hdb, Hxa, Hxb.
  rewrite Bool.eqb_reflx.
  destruct (is_empty qs) eqn:Eq; simpl.
  - exists b. split; [reflexivity|].
    split; [|split; [repeat split; assumption | congruence]].
    restricts_cases.
  - destruct (extra_select qs) as [|x xs] eqn:Ex; [|reflexivity].
    eexists. split; [reflexivity|].
    split; [|split; [|simpl; now rewrite Eq]].
    + restricts_cases.
      * unfold QS.rows; simpl. rewrite Hta.
        unfold QS.rows in Hra. rewrite Hoa, Hob.
        now destruct (ordering qs).
      * intros _ u. rewrite Eea in Hwa. rewrite Eeb in Hwb.
        rewrite (Hwa eq_refl), (Hwb eq_refl).
        now destruct (where_ qs u), (p u), (q u).
    + repeat split; simpl; try assumption.
      * rewrite Hob, Hoa. now destruct (ordering qs).
      * rewrite Hbb, Hba. now destruct (order_by qs).
      * now rewrite Ex.
Qed.

Lemma or_none_l qs r : QS.or (QS.none qs) r = Ok r.
Proof. reflexivity. Qed.

Section OrAll.

Variable C : Type.
Variable qs : QuerySet.
Variable cond : C -> Unit -> bool.
Variable query : C -> QuerySet.
Hypothesis operands : forall c, Operand qs (cond c) (query c).

Lemma or_all_from (cs : list C) : forall p acc,
  Operand qs p acc ->
  if negb (is_empty qs) && has_extra qs
     && negb (match cs with [] => true | _ => false end)
  then or_all acc (map query cs) = Raise ValueError
  else exists r, or_all acc (map query cs) = Ok r
                 /\ Operand qs (fun u => p u || existsb (fun c => cond c u) cs)
                            r.
Proof.
  induction cs as [|c cs IH]; intros p acc Hacc; simpl.
  - rewrite andb_false_r. exists acc. split; [reflexivity|].
    eapply Operand_ext; [|exact Hacc]. intros u. now rewrite orb_false_r.
  - rewrite andb_true_r.
    pose proof (or_operands qs p (cond c) acc (query c) Hacc (operands c))
      as H.
    destruct (negb (is_empty qs) && has_extra qs) eqn:E.
    + now rewrite H.
    + destruct H as (r & -> & Hr). simpl.
      specialize (IH _ r Hr). simpl in IH.
      destruct IH as (r' & -> & Hr'). exists r'. split; [reflexivity|].
      eapply Operand_ext; [|exact Hr']. intros u. simpl.
      now rewrite orb_assoc.
Qed.

(** Or-ing the queries of a list onto the empty query set: refused exactly
    when two or more are or-ed on a query set that is not empty and has an
    extra column. *)
Lemma or_all_none (cs : list C) :
  if negb (is_empty qs) && has_extra qs && (2 <=? List.length cs)%nat
  then or_all (QS.none qs) (map query cs) = Raise ValueError
  else exists r, or_all (QS.none qs) (map query cs) = Ok r
                 /\ Restricts qs (fun u => existsb (fun c => cond c u) cs) r
                 /\ SameQuery qs r.
Proof.
  destruct cs as [|c cs].
  - simpl. rewrite andb_false_r. exists (QS.none qs).
    split; [reflexivity|].
    split; [apply Restricts_none | apply SameQuery_none].
  - change (or_all (QS.none qs) (map query (c :: cs)))
      with (or_all (query c) (map query cs)).
    pose proof (or_all_from cs _ _ (operands c)) as H.
    replace (2 <=? List.length (c :: cs))%nat
      with (negb (match cs with [] => true | _ => false end))
      by now destruct cs.
    destruct (negb (is_empty qs) && has_extra qs
              && negb (match cs with [] => true | _ => false end)).
    + exact H.
    + destruct H as (r & -> & Hr & Hs & _). exists r.
      split; [reflexivity|]. split; [exact Hr | exact Hs].
Qed.

End OrAll.

(** ** The search step *)

Section SearchFacts.

Variable db : Database.

Lemma filter_words_from qs field words : forall p r,
  Operand qs p r ->
  Operand qs (fun u => p u && all_words db field words u)
          (filter_words db field words r).
Proof.
  unfold filter_words, all_words.
  induction words as [|w words IH]; intros p r H; simpl.
  - eapply Operand_ext; [|exact H]. intros u. now rewrite andb_true_r.
  - eapply Operand_ext; [|apply IH, Operand_filter, H].
    intros u; simpl. now rewrite andb_assoc.
Qed.

Lemma filter_words_operand qs field words :
  Operand qs (all_words db field words) (filter_words db field words qs).
Proof.
  eapply Operand_ext;
    [|apply (filter_words_from qs field words _ _ (Operand_self qs))].
  reflexivity.
Qed.

Lemma contains_operand qs phrase (field : Unit -> string) :
  Operand qs (fun u => DB.contains db phrase (field u))
          (QS.filter (fun u => DB.contains db phrase (field u)) qs).
Proof.
  eapply Operand_ext;
    [|apply (Operand_filter qs _ _ _ (Operand_self qs))].
  reflexivity.
Qed.

Ltac settle_ors :=
  repeat match goal with
         | |- context [QS.or ?a ?b] =>
             let E := fresh "E" in
             destruct (QS.or a b) eqn:E; simpl
         end;
  try reflexivity.

(** The word search or-s, onto the empty query set, one query per selected
    column, in the order source, target, comments, locations. *)
Lemma get_search_query_or_all form qs :
  get_search_query db form qs
  = or_all (QS.none qs)
      (map (fun c => filter_words db (column_text c)
                                  (PyStr.split_ws (search form)) qs)
           (selected_columns form)).
Proof.
  unfold get_search_query, selected_columns, all_columns; simpl.
  destruct (PyStr.mem "source" (sfields form)),
           (PyStr.mem "target" (sfields form)),
           (PyStr.mem "notes" (sfields form)),
           (PyStr.mem "locations" (sfields form)); simpl; settle_ors.
Qed.

Lemma get_search_exact_query_or_all form qs :
  get_search_exact_query db form qs
  = or_all (QS.none qs)
      (map (fun c => QS.filter
                       (fun u => DB.contains db (search form)
                                             (column_text c u)) qs)
           (selected_columns form)).
Proof.
  unfold get_search_exact_query, selected_columns, all_columns; simpl.
  destruct (PyStr.mem "source" (sfields form)),
           (PyStr.mem "target" (sfields form)),
           (PyStr.mem "notes" (sfields form)),
           (PyStr.mem "locations" (sfields form)); simpl; settle_ors.
Qed.

Lemma search_refused_unfold form qs :
  search_refused form qs
  = negb (is_empty qs) && has_extra qs
    && (2 <=? List.length (selected_columns form))%nat.
Proof. reflexivity. Qed.

Lemma get_search_query_spec form qs :
  if search_refused form qs
  then get_search_query db form qs = Raise ValueError
  else exists r, get_search_query db form qs = Ok r
                 /\ Restricts qs (words_matchb db form) r
                 /\ SameQuery qs r.
Proof.
  rewrite get_search_query_or_all, search_refused_unfold.
  apply (or_all_none Column qs
           (fun c => all_words db (column_text c)
                               (PyStr.split_ws (search form)))).
  intros c. apply filter_words_operand.
Qed.

Lemma get_search_exact_query_spec form qs :
  if search_refused form qs
  then get_search_exact_query db form qs = Raise ValueError
  else exists r, get_search_exact_query db form qs = Ok r
                 /\ Restricts qs (phrase_matchb db form) r
                 /\ SameQuery qs r.
Proof.
  rewrite get_search_exact_query_or_all, search_refused_unfold.
  apply (or_all_none Column qs
           (fun c u => DB.contains db (search form) (column_text c u))).
  intros c. apply contains_operand.
Qed.

Lemma get_search_step_query_spec form qs :
  if search_refused form qs
  then get_search_step_query db form qs = Raise ValueError
  else exists r, get_search_step_query db form qs = Ok r
                 /\ Restricts qs (search_matchb db form) r
                 /\ SameQuery qs r.
Proof.
  unfold get_search_step_query, search_matchb.
  destruct (PyStr.mem "exact" (soptions form)).
  - apply get_search_exact_query_spec.
  - apply get_search_query_spec.
Qed.

Lemma selected_columns_In form c :
  In c (selected_columns form) <-> Selected form c.
Proof.
  unfold selected_columns, Selected. rewrite filter_In, mem_In.
  split; [tauto|]. intros H. split; [|exact H].
  unfold all_columns. destruct c; simpl; tauto.
Qed.

Lemma all_columns_NoDup : NoDup all_columns.
Proof.
  unfold all_columns.
  repeat constructor; simpl; intuition discriminate.
Qed.

Lemma NoDup_filter {A} (p : A -> bool) (l : list A) :
  NoDup l -> NoDup (List.filter p l).
Proof.
  induction 1 as [|x l Hx Hl IH]; simpl; [constructor|].
  destruct (p x); [|exact IH]. constructor; [|exact IH].
  intros H. apply filter_In in H. tauto.
Qed.

Lemma selects_two_iff form :
  (2 <=? List.length (selected_columns form))%nat = true
  <-> selects_two form.
Proof.
  unfold selects_two.
  pose proof (NoDup_filter
                (fun c => PyStr.mem (field_name c) (sfields form))
                all_columns all_columns_NoDup) as Hn.
  fold (selected_columns form) in Hn.
  split.
  - intros H. apply Nat.leb_le in H.
    destruct (selected_columns form) as [|c [|d l]] eqn:E;
      simpl in H; try lia.
    exists c, d. split.
    + intros ->. inversion Hn as [|? ? Hc _]; subst. apply Hc. now left.
    + split; apply selected_columns_In; rewrite E; simpl; auto.
  - intros (c & d & Hcd & Hc & Hd).
    apply selected_columns_In in Hc, Hd. apply Nat.leb_le.
    destruct (selected_columns form) as [|x [|y l]]; simpl in *;
      [tauto | | lia].
    destruct Hc as [<-|[]], Hd as [<-|[]]. now elim Hcd.
Qed.

Lemma words_matchb_iff form u :
  words_matchb db form u = true <-> matches_words db form u.
Proof.
  unfold words_matchb, matches_words, all_words.
  rewrite existsb_exists. split; intros [c [Hin H]]; exists c.
  - split; [now apply selected_columns_In|].
    rewrite forallb_forall in H. intros w Hw.
    apply icontains_iff, H, split_ws_word, Hw.
  - split; [now apply selected_columns_In|].
    apply forallb_forall. intros w Hw.
    apply icontains_iff, H, split_ws_word, Hw.
Qed.

Lemma phrase_matchb_iff form u :
  phrase_matchb db form u = true <-> matches_phrase db form u.
Proof.
  unfold phrase_matchb, matches_phrase.
  rewrite existsb_exists. split; intros [c [Hin H]]; exists c;
    (split; [now apply selected_columns_In | now apply db_contains_iff]).
Qed.

Lemma search_refused_iff form qs :
  search_refused form qs = true
  <-> is_empty qs = false /\ extra_select qs <> [] /\ selects_two form.
Proof.
  rewrite search_refused_unfold, !andb_true_iff, negb_true_iff,
    selects_two_iff.
  unfold has_extra. destruct (extra_select qs); intuition congruence.
Qed.

(** C2.  When the search step answers, it keeps, in the order of the
    input, exactly the units for which some selected column holds every
    whitespace-separated word of the search text up to the letter folding
    of the database or, with the [exact] option, the whole phrase as a
    contiguous block: as it is written where the [contains] lookup compares
    characters as they are, up to the folding where it folds.  It answers
    unless two columns are selected on a query set that is not empty and
    has an extra column, where the or-combination is refused. *)
Theorem get_search_step_query_selects
        (form : SearchForm) (units_queryset : QuerySet) :
  match get_search_step_query db form units_queryset with
  | Ok r =>
      (exists keep,
          QS.evaluate r = List.filter keep (QS.evaluate units_queryset))
      /\ (~ In "exact" (soptions form) ->
          forall u, In u (QS.evaluate r)
                    <-> In u (QS.evaluate units_queryset)
                        /\ matches_words db form u)
      /\ (In "exact" (soptions form) ->
          forall u, In u (QS.evaluate r)
                    <-> In u (QS.evaluate units_queryset)
                        /\ matches_phrase db form u)
  | Raise e =>
      e = ValueError
      /\ is_empty units_queryset = false
      /\ extra_select units_queryset <> []
      /\ selects_two form
  end
  /\ (is_empty units_queryset = true \/ extra_select units_queryset = []
      \/ ~ selects_two form ->
      exists r, get_search_step_query db form units_queryset = Ok r).
Proof.
  pose proof (get_search_step_query_spec form units_queryset) as H.
  pose proof (search_refused_iff form units_queryset) as Hr.
  destruct (search_refused form units_queryset).
  - destruct Hr as [Hr _]. destruct (Hr eq_refl) as (He & Hx & Ht).
    rewrite H. split; [auto|].
    intros [E|[E|E]]; [congruence | contradiction | contradiction].
  - destruct H as (r & -> & Hres & _). split; [|eauto].
    pose proof (Restricts_evaluate _ _ _ Hres) as E.
    split; [eauto|]. unfold search_matchb in E.
    split.
    + intros Hne u.
      destruct (PyStr.mem "exact" (soptions form)) eqn:Em;
        [apply mem_In in Em; contradiction|].
      now rewrite E, filter_In, words_matchb_iff.
    + intros He u. apply mem_In in He. rewrite He in E.
      now rewrite E, filter_In, phrase_matchb_iff.
Qed.

(** The units a search that answers selects. *)
Lemma get_search_step_query_matches form qs r :
  get_search_step_query db form qs = Ok r ->
  (~ In "exact" (soptions form) ->
   forall u, In u (QS.evaluate r)
             <-> In u (QS.evaluate qs) /\ matches_words db form u)
  /\ (In "exact" (soptions form) ->
      forall u, In u (QS.evaluate r)
                <-> In u (QS.evaluate qs) /\ matches_phrase db form u).
Proof.
  intros Hr. pose proof (get_search_step_query_spec form qs) as H.
  destruct (search_refused form qs); [congruence|].
  destruct H as (r' & Hr' & Hres & _).
  assert (r' = r) by congruence. subst r'.
  pose proof (Restricts_evaluate _ _ _ Hres) as E.
  unfold search_matchb in E. split.
  - intros Hne u.
    destruct (PyStr.mem "exact" (soptions form)) eqn:Em;
      [apply mem_In in Em; contradiction|].
    now rewrite E, filter_In, words_matchb_iff.
  - intros He u. apply mem_In in He. rewrite He in E.
    now rewrite E, filter_In, phrase_matchb_iff.
Qed.

(** X30.  The search on a database that takes the upper-case and the
    lower-case form of a letter for the same in [icontains], and the
    characters as they are in [contains].  Whenever the search answers: in
    word mode it selects exactly the units of the input in which some
    selected column holds every whitespace-separated word of the search
    text up to letter case; in exact mode exactly the units in which some
    selected column holds the search text as a contiguous block. *)
Theorem get_search_step_query_up_to_case
        (form : SearchForm) (units_queryset r : QuerySet) :
  (forall c d, db_fold db c = db_fold db d <-> same_letter c d) ->
  db_contains_folds db = false ->
  get_search_step_query db form units_queryset = Ok r ->
  (~ In "exact" (soptions form) ->
   forall u,
     In u (QS.evaluate r)
     <-> In u (QS.evaluate units_queryset)
         /\ exists c, Selected form c
                      /\ forall word, Word word (search form) ->
                                      OccursUpToCase word (column_text c u))
  /\ (In "exact" (soptions form) ->
      forall u,
        In u (QS.evaluate r)
        <-> In u (QS.evaluate units_queryset)
            /\ exists c, Selected form c
                         /\ Substring (search form) (column_text c u)).
Proof.
  intros Hfold Hexact Hr.
  destruct (get_search_step_query_matches _ _ _ Hr) as [Hw Hp].
  split.
  - intros Hne u. rewrite (Hw Hne u). unfold matches_words.
    split; intros [Hin [c [Hc H]]]; (split; [exact Hin|]); exists c;
      (split; [exact Hc|]); intros word Hword;
      apply (Occurs_case _ _ _ Hfold); auto.
  - intros He u. rewrite (Hp He u). unfold matches_phrase.
    rewrite Hexact. reflexivity.
Qed.

(** X6.  Edge cases of the search step.  With no column selected it
    returns nothing.  With a column selected, a search text of blanks only
    (in word mode) or an empty one (in exact mode) keeps every unit,
    whenever the search answers. *)
Theorem get_search_step_query_edges (form : SearchForm) (qs : QuerySet) :
  ((forall c, ~ Selected form c) ->
   exists r, get_search_step_query db form qs = Ok r
             /\ QS.evaluate r = [])
  /\ (forall r c,
         get_search_step_query db form qs = Ok r ->
         Selected form c ->
         ~ In "exact" (soptions form) ->
         Blank (search form) ->
         QS.evaluate r = QS.evaluate qs)
  /\ (forall r c,
         get_search_step_query db form qs = Ok r ->
         Selected form c ->
         In "exact" (soptions form) ->
         search form = "" ->
         QS.evaluate r = QS.evaluate qs).
Proof.
  pose proof (get_search_step_query_spec form qs) as H.
  split; [|split].
  - intros Hnone.
    assert (E : selected_columns form = []).
    { destruct (selected_columns form) as [|c l] eqn:E; [reflexivity|].
      elim (Hnone c). apply selected_columns_In. rewrite E. now left. }
    rewrite search_refused_unfold, E in H. simpl in H.
    rewrite andb_false_r in H. destruct H as (r & -> & Hr & _).
    exists r. split; [reflexivity|].
    rewrite (Restricts_evaluate _ _ _ Hr). apply filter_none.
    intros u. unfold search_matchb, phrase_matchb, words_matchb.
    rewrite E. now destruct (PyStr.mem "exact" (soptions form)).
  - intros r c Hok Hc Hne Hb. rewrite Hok in H.
    destruct (search_refused form qs); [discriminate H|].
    destruct H as (r' & [= <-] & Hr & _).
    rewrite (Restricts_evaluate _ _ _ Hr).
    rewrite <- (filter_all (QS.evaluate qs)) at 2.
    apply filter_ext. intros u. unfold search_matchb.
    destruct (PyStr.mem "exact" (soptions form)) eqn:Em;
      [apply mem_In in Em; contradiction|].
    unfold words_matchb. rewrite (split_ws_blank _ Hb).
    apply existsb_exists. exists c.
    split; [now apply selected_columns_In | reflexivity].
  - intros r c Hok Hc He Hs. rewrite Hok in H.
    destruct (search_refused form qs); [discriminate H|].
    destruct H as (r' & [= <-] & Hr & _).
    rewrite (Restricts_evaluate _ _ _ Hr).
    rewrite <- (filter_all (QS.evaluate qs)) at 2.
    apply filter_ext. intros u. unfold search_matchb.
    apply mem_In in He. rewrite He.
    unfold phrase_matchb. apply existsb_exists. exists c.
    split; [now apply selected_columns_In|].
    rewrite Hs. apply db_contains_iff.
    destruct (db_contains_folds db).
    + apply Substring_Occurs. now exists "", (column_text c u).
    + now exists "", (column_text c u).
Qed.

(** X7.  The exact search is the stricter one: when it answers, so does
    the word search, and every unit the exact query selects for a form,
    the word query selects for it too. *)
Theorem get_search_exact_query_within_words
        (form : SearchForm) (qs : QuerySet) (exact : QuerySet) :
  get_search_exact_query db form qs = Ok exact ->
  exists words,
    get_search_query db form qs = Ok words
    /\ forall u, In u (QS.evaluate exact) -> In u (QS.evaluate words).
Proof.
  intros Hok.
  pose proof (get_search_exact_query_spec form qs) as He.
  pose proof (get_search_query_spec form qs) as Hw.
  rewrite Hok in He.
  destruct (search_refused form qs); [discriminate He|].
  destruct He as (r & [= <-] & He & _).
  destruct Hw as (words & -> & Hw & _).
  exists words. split; [reflexivity|]. intros u.
  rewrite (Restricts_evaluate _ _ _ He), (Restricts_evaluate _ _ _ Hw).
  rewrite !filter_In. intros [Hin H]. split; [exact Hin|].
  unfold phrase_matchb in H. unfold words_matchb, all_words.
  apply existsb_exists in H. destruct H as [c [Hc H]].
  apply existsb_exists. exists c. split; [exact Hc|].
  apply forallb_forall. intros w Hw'.
  apply (contains_icontains_part db w (search form)); [|exact H].
  now apply split_ws_substring.
Qed.

End SearchFacts.

(** ** Ordering rows *)

Section Sorting.

Variable leb : Unit -> Unit -> bool.

Lemma insert_by_perm u l : Permutation (QS.insert_by leb u l) (u :: l).
Proof.
  induction l as [|v l IH]; simpl; [reflexivity|].
  destruct (leb u v); [reflexivity|].
  rewrite IH. apply perm_swap.
Qed.

Lemma sort_by_perm l : Permutation (QS.sort_by leb l) l.
Proof.
  induction l as [|u l IH]; simpl; [reflexivity|].
  rewrite insert_by_perm. now constructor.
Qed.

Hypothesis leb_total : forall u v, leb u v = false -> leb v u = true.
Hypothesis leb_trans :
  forall u v w, leb u v = true -> leb v w = true -> leb u w = true.

Let R (u v : Unit) : Prop := leb u v = true.

Lemma insert_by_sorted u l :
  StronglySorted R l -> StronglySorted R (QS.insert_by leb u l).
Proof.
  induction 1 as [|v l Hs IH Hall]; simpl.
  - repeat constructor.
  - destruct (leb u v) eqn:E.
    + constructor; [now constructor|].
      constructor; [exact E|].
      eapply Forall_impl; [|exact Hall].
      intros w Hw. now apply (leb_trans u v w).
    + constructor; [exact IH|].
      eapply Permutation_Forall; [symmetry; apply insert_by_perm|].
      constructor; [now apply leb_total | exact Hall].
Qed.

Lemma sort_by_sorted l : StronglySorted R (QS.sort_by leb l).
Proof.
  induction l as [|u l IH]; simpl; [constructor|].
  now apply insert_by_sorted.
Qed.

End Sorting.

Lemma filter_perm {A} (p : A -> bool) (l l' : list A) :
  Permutation l l' -> Permutation (List.filter p l) (List.filter p l').
Proof.
  induction 1 as [|x l l' _ IH|x y l|l l' l'' _ IH1 _ IH2]; simpl.
  - constructor.
  - destruct (p x); [now constructor | exact IH].
  - destruct (p x), (p y); try reflexivity. apply perm_swap.
  - now transitivity (List.filter p l').
Qed.

Lemma filter_sorted {A} (R : A -> A -> Prop) (p : A -> bool) (l : list A) :
  StronglySorted R l -> StronglySorted R (List.filter p l).
Proof.
  induction 1 as [|x l Hs IH Hall]; simpl; [constructor|].
  destruct (p x); [|exact IH].
  constructor; [exact IH|].
  apply Forall_forall. intros y Hy. apply filter_In in Hy.
  rewrite Forall_forall in Hall. now apply Hall.
Qed.

Lemma sorted_impl {A} (R R' : A -> A -> Prop) (l : list A) :
  (forall x y, R x y -> R' x y) -> StronglySorted R l -> StronglySorted R' l.
Proof.
  intros H. induction 1 as [|x l Hs IH Hall]; constructor; auto.
  eapply Forall_impl; [|exact Hall]. auto.
Qed.


Lemma rows_perm (qs : QuerySet) : Permutation (QS.rows qs) (table qs).
Proof.
  unfold QS.rows. destruct (ordering qs); [apply sort_by_perm | reflexivity].
Qed.

(** Replacing the ordering of a query only reorders its rows. *)
Lemma evaluate_reordered (leb : Unit -> Unit -> bool) (names : list string)
      (qs : QuerySet) :
  Permutation
    (QS.evaluate (mkQuerySet (table qs) (where_ qs) (is_empty qs) (Some leb)
                             names (extra_select qs) (distinct_ qs)))
    (QS.evaluate qs).
Proof.
  unfold QS.evaluate, QS.rows at 1; simpl.
  destruct (is_empty qs); [reflexivity|].
  apply filter_perm. rewrite sort_by_perm. symmetry. apply rows_perm.
Qed.

Lemma evaluate_order_rows_perm db key descending names qs :
  Permutation (QS.evaluate (QS.order_rows db key descending names qs))
              (QS.evaluate qs).
Proof. unfold QS.order_rows. apply evaluate_reordered. Qed.

Lemma evaluate_extra_order_by_perm leb qs :
  Permutation (QS.evaluate (QS.extra_order_by leb qs)) (QS.evaluate qs).
Proof. unfold QS.extra_order_by. apply evaluate_reordered. Qed.

Lemma key_leb_total db a b :
  DB.key_leb db a b = false -> DB.key_leb db b a = true.
Proof.
  destruct a as [x|], b as [y|]; simpl; try congruence.
  - rewrite Z.leb_gt, Z.leb_le. lia.
  - now destruct (db_nulls_smallest db).
  - now destruct (db_nulls_smallest db).
Qed.

Lemma key_leb_trans db a b c :
  DB.key_leb db a b = true -> DB.key_leb db b c = true ->
  DB.key_leb db a c = true.
Proof.
  destruct a as [x|], b as [y|], c as [z|]; simpl; try congruence;
    try (destruct (db_nulls_smallest db); simpl; congruence).
  rewrite !Z.leb_le. lia.
Qed.

(** A query with an ordering in force gives its rows sorted by it. *)
Lemma evaluate_sorted (leb : Unit -> Unit -> bool) (qs : QuerySet) :
  ordering qs = Some leb ->
  (forall u v, leb u v = false -> leb v u = true) ->
  (forall u v w, leb u v = true -> leb v w = true -> leb u w = true) ->
  StronglySorted (fun u v => leb u v = true) (QS.evaluate qs).
Proof.
  intros Ho Htot Htrans. unfold QS.evaluate, QS.rows. rewrite Ho.
  destruct (is_empty qs); [constructor|].
  apply filter_sorted. now apply sort_by_sorted.
Qed.

(** Rows ordered by a descending key come out with the key never
    increasing. *)
Lemma evaluate_order_rows_desc db key names qs :
  StronglySorted (fun u v => DB.key_leb db (key v) (key u) = true)
                 (QS.evaluate (QS.order_rows db key true names qs)).
Proof.
  apply (evaluate_sorted (fun u v => DB.key_leb db (key v) (key u))).
  - reflexivity.
  - intros u v. apply key_leb_total.
  - intros u v w H1 H2. eapply key_leb_trans; eauto.
Qed.

(** ** Priorities *)

Lemma sql_max_nil_iff l : sql_max l = None <-> l = [].
Proof.
  destruct l as [|x l]; simpl; [tauto|].
  destruct (sql_max l); split; discriminate.
Qed.

Lemma sql_max_spec l m :
  sql_max l = Some m -> In m l /\ forall x, In x l -> x <= m.
Proof.
  revert m. induction l as [|y l IH]; simpl; [discriminate|].
  intros m. destruct (sql_max l) as [k|] eqn:E.
  - intros [= <-]. destruct (IH k eq_refl) as [Hin Hle]. split.
    + destruct (Z.max_spec y k) as [[_ ->]|[_ ->]]; auto.
    + intros x [<-|Hx]; [lia|]. specialize (Hle x Hx). lia.
  - intros [= <-]. apply sql_max_nil_iff in E. subst l. split; [auto|].
    intros x [<-|[]]. lia.
Qed.

Lemma unit_priority_default u : vfolders u = [] -> unit_priority u = 1.
Proof. unfold unit_priority. now intros ->. Qed.

Lemma unit_priority_max u :
  vfolders u <> [] ->
  In (unit_priority u) (vfolders u)
  /\ forall p, In p (vfolders u) -> p <= unit_priority u.
Proof.
  unfold unit_priority. intros H.
  destruct (sql_max (vfolders u)) as [m|] eqn:E.
  - now apply sql_max_spec.
  - now apply sql_max_nil_iff in E.
Qed.

(** ** The step query *)

Lemma QD_get_contains key d v :
  QD.get key d = Some v -> QD.contains key d = true.
Proof.
  unfold QD.get, QD.contains. now destruct (QD.getlist key d).
Qed.

Lemma QD_absent_get key d : QD.contains key d = false -> QD.get key d = None.
Proof.
  unfold QD.get, QD.contains. now destruct (QD.getlist key d).
Qed.

Lemma split_on_aux_nonempty sep s : forall cur,
  PyStr.split_on_aux sep cur s <> [].
Proof.
  induction s as [|c s IH]; intros cur; simpl; [discriminate|].
  destruct (Ascii.eqb c sep); [discriminate | apply IH].
Qed.

Ltac restricts_chain :=
  unfold QS.exclude;
  repeat first [ apply Restricts_self
               | apply Restricts_none
               | apply Restricts_filter
               | apply Restricts_distinct ].

Section StepQueryFacts.

Variable db : Database.
Variables UNTRANSLATED FUZZY TRANSLATED : Z.
Variable EDIT_TYPES : list Z.
Variable get_user : string -> option UserId.
Variable parse_datetime : string -> option DateTime.
Variable get_date_interval : string -> DateTime * DateTime.
Variable make_search_form : QueryDict -> option SearchForm.

Local Abbreviation branch :=
  (filter_branch UNTRANSLATED FUZZY TRANSLATED EDIT_TYPES).
Local Abbreviation block :=
  (filter_block db UNTRANSLATED FUZZY TRANSLATED EDIT_TYPES get_user
                parse_datetime get_date_interval).
Local Abbreviation stage := (search_stage db make_search_form).
Local Abbreviation step :=
  (get_step_query db UNTRANSLATED FUZZY TRANSLATED EDIT_TYPES get_user
                  parse_datetime get_date_interval make_search_form).
Local Abbreviation keep := (search_keep db make_search_form).
Local Abbreviation form_of := (search_form_of make_search_form).
Local Abbreviation matched_units :=
  (matched UNTRANSLATED FUZZY TRANSLATED EDIT_TYPES get_user
           parse_datetime get_date_interval).
Local Abbreviation states_of :=
  (state_filter_states UNTRANSLATED FUZZY TRANSLATED).

(** *** The search stage *)

Lemma search_stage_form request qs :
  stage request qs
  = match form_of request with
    | Some form => get_search_step_query db form qs
    | None => Ok qs
    end.
Proof.
  unfold search_stage, search_form_of.
  now destruct (QD.contains "search" (GET request)
                && QD.contains "sfields" (GET request)).
Qed.

Lemma search_keep_form request :
  keep request
  = match form_of request with
    | Some form => search_matchb db form
    | None => fun _ => true
    end.
Proof.
  unfold search_keep, search_form_of.
  now destruct (QD.contains "search" (GET request)
                && QD.contains "sfields" (GET request)).
Qed.

Lemma search_form_of_inactive request :
  QD.contains "search" (GET request)
  && QD.contains "sfields" (GET request) = false ->
  form_of request = None.
Proof. unfold search_form_of. now intros ->. Qed.

(** The search stage is refused exactly when the search of its form is;
    otherwise it keeps the units the form selects. *)
Lemma search_stage_spec request qs :
  match form_of request with
  | Some form =>
      if search_refused form qs
      then stage request qs = Raise ValueError
      else exists r, stage request qs = Ok r
                     /\ Restricts qs (keep request) r
                     /\ SameQuery qs r
  | None => stage request qs = Ok qs
  end.
Proof.
  rewrite search_stage_form, search_keep_form.
  destruct (form_of request) as [form|]; [|reflexivity].
  apply get_search_step_query_spec.
Qed.

Lemma step_result request qs :
  match step request qs with
  | Ok r => Restricts (block request qs) (keep request) r
            /\ SameQuery (block request qs) r
  | Raise e =>
      e = ValueError
      /\ exists form, form_of request = Some form
                      /\ search_refused form (block request qs) = true
  end.
Proof.
  unfold get_step_query.
  pose proof (search_stage_spec request (block request qs)) as H.
  pose proof (search_keep_form request) as Hk.
  destruct (form_of request) as [form|].
  - destruct (search_refused form (block request qs)) eqn:E.
    + rewrite H. split; [reflexivity|]. now exists form.
    + destruct H as (r & -> & H1 & H2). now split.
  - rewrite H. split; [|apply SameQuery_refl].
    rewrite Hk. apply Restricts_self.
Qed.

Lemma step_answers request qs :
  (forall form, form_of request = Some form ->
                search_refused form (block request qs) = false) ->
  exists r, step request qs = Ok r
            /\ Restricts (block request qs) (keep request) r
            /\ SameQuery (block request qs) r.
Proof.
  intros H. pose proof (step_result request qs) as Hs.
  destruct (step request qs) as [r|e].
  - exists r. now split.
  - destruct Hs as (_ & form & Hf & Hr). rewrite (H form Hf) in Hr.
    discriminate Hr.
Qed.

Lemma step_evaluate request qs r :
  step request qs = Ok r ->
  QS.evaluate r
  = List.filter (keep request) (QS.evaluate (block request qs)).
Proof.
  intros H. pose proof (step_result request qs) as Hs. rewrite H in Hs.
  apply Restricts_evaluate, Hs.
Qed.

Lemma step_inactive request qs :
  QD.contains "search" (GET request)
  && QD.contains "sfields" (GET request) = false ->
  step request qs = Ok (block request qs).
Proof. unfold get_step_query, search_stage. now intros ->. Qed.

Lemma step_raises_value_error request qs e :
  step request qs = Raise e -> e = ValueError.
Proof.
  intros H. pose proof (step_result request qs) as Hs. rewrite H in Hs.
  apply Hs.
Qed.

(** *** The filter block *)

Lemma filter_branch_restricts request user unit_filter qs :
  exists p, Restricts qs p (fst (branch request user unit_filter qs)).
Proof.
  unfold filter_branch.
  repeat match goal with
         | |- context [if ?c then _ else _] => destruct c
         | |- context [match ?l with [] => _ | _ :: _ => _ end] =>
             destruct l
         end; simpl; eexists; restricts_chain.
Qed.

Lemma modified_since_stage_restricts since qs :
  exists p, Restricts qs p (modified_since_stage parse_datetime since qs).
Proof.
  unfold modified_since_stage.
  destruct since as [s|]; [destruct (parse_datetime s)|];
    eexists; restricts_chain.
Qed.

Lemma month_stage_restricts month qs :
  exists p, Restricts qs p (month_stage get_date_interval month qs).
Proof.
  unfold month_stage.
  destruct month as [m|]; [destruct (get_date_interval m)|];
    eexists; restricts_chain.
Qed.

Lemma modified_since_stage_flags since qs :
  is_empty (modified_since_stage parse_datetime since qs) = is_empty qs
  /\ extra_select (modified_since_stage parse_datetime since qs)
     = extra_select qs.
Proof.
  unfold modified_since_stage.
  destruct since as [s|]; [destruct (parse_datetime s)|]; now split.
Qed.

Lemma month_stage_flags month qs :
  is_empty (month_stage get_date_interval month qs) = is_empty qs
  /\ extra_select (month_stage get_date_interval month qs)
     = extra_select qs.
Proof.
  unfold month_stage.
  destruct month as [m|]; [destruct (get_date_interval m)|]; now split.
Qed.

Lemma sort_stage_is_empty user sort_on sort_by_param qs :
  is_empty (sort_stage db EDIT_TYPES user sort_on sort_by_param qs)
  = is_empty qs.
Proof.
  unfold sort_stage, order_by_field.
  repeat match goal with
         | |- context [match ?x with _ => _ end] => destruct x
         end; reflexivity.
Qed.

Lemma matched_flags request unit_filter qs :
  is_empty (matched_units request unit_filter qs)
  = is_empty (fst (branch request (filter_user get_user request)
                          unit_filter qs))
  /\ extra_select (matched_units request unit_filter qs)
     = extra_select (fst (branch request (filter_user get_user request)
                                 unit_filter qs)).
Proof.
  unfold matched.
  destruct (month_stage_flags (QD.get "month" (GET request))
              (modified_since_stage parse_datetime
                 (QD.get "modified-since" (GET request))
                 (fst (branch request (filter_user get_user request)
                              unit_filter qs)))) as [-> ->].
  apply modified_since_stage_flags.
Qed.

Lemma sort_stage_perm user sort_on sort_by_param qs :
  Permutation
    (QS.evaluate (sort_stage db EDIT_TYPES user sort_on sort_by_param qs))
    (QS.evaluate qs).
Proof.
  unfold sort_stage, order_by_field.
  repeat match goal with
         | |- context [match ?x with _ => _ end] => destruct x
         end;
    first [ reflexivity
          | apply evaluate_order_rows_perm
          | rewrite evaluate_extra_order_by_perm; reflexivity ].
Qed.

Lemma matched_restricts request unit_filter qs :
  exists p, Restricts qs p (matched_units request unit_filter qs).
Proof.
  unfold matched.
  destruct (filter_branch_restricts request (filter_user get_user request)
              unit_filter qs) as [p1 H1].
  destruct (modified_since_stage_restricts
              (QD.get "modified-since" (GET request))
              (fst (branch request (filter_user get_user request)
                           unit_filter qs))) as [p2 H2].
  destruct (month_stage_restricts (QD.get "month" (GET request))
              (modified_since_stage parse_datetime
                 (QD.get "modified-since" (GET request))
                 (fst (branch request (filter_user get_user request)
                              unit_filter qs)))) as [p3 H3].
  eexists.
  exact (Restricts_trans _ _ _ _ _ (Restricts_trans _ _ _ _ _ H1 H2) H3).
Qed.

Lemma filter_block_unfold request unit_filter qs :
  QD.get "filter" (GET request) = Some unit_filter ->
  PyStr.truthy unit_filter = true ->
  block request qs
  = sort_stage db EDIT_TYPES (filter_user get_user request)
      (snd (branch request (filter_user get_user request) unit_filter qs))
      (QD.get "sort" (GET request)) (matched_units request unit_filter qs).
Proof.
  intros Hf Ht. unfold filter_block, matched. rewrite Hf, Ht.
  now destruct (branch request (filter_user get_user request) unit_filter
                       qs).
Qed.

(** The filter block keeps some of the input units, possibly reordered. *)
Lemma filter_block_perm request qs :
  exists p, Permutation (QS.evaluate (block request qs))
                        (List.filter p (QS.evaluate qs)).
Proof.
  destruct (QD.get "filter" (GET request)) as [unit_filter|] eqn:Hf;
    [destruct (PyStr.truthy unit_filter) eqn:Ht|].
  - rewrite (filter_block_unfold _ _ _ Hf Ht).
    destruct (matched_restricts request unit_filter qs) as [p H].
    exists p. rewrite sort_stage_perm.
    now rewrite (Restricts_evaluate _ _ _ H).
  - exists (fun _ => true). unfold filter_block. rewrite Hf, Ht.
    now rewrite filter_all.
  - exists (fun _ => true). unfold filter_block. rewrite Hf.
    now rewrite filter_all.
Qed.

Lemma filter_branch_unrecognised request user unit_filter qs :
  PyStr.mem unit_filter recognised_filters = false ->
  branch request user unit_filter qs = (QS.none qs, "units").
Proof.
  unfold PyStr.mem, recognised_filters, filter_branch; simpl.
  intros H.
  repeat (apply orb_false_iff in H; destruct H as [E H]; rewrite ?E;
          clear E).
  reflexivity.
Qed.

Lemma filter_branch_sort_on request user unit_filter qs :
  PyStr.mem unit_filter related_sort_filters = false ->
  snd (branch request user unit_filter qs) = "units".
Proof.
  unfold PyStr.mem, related_sort_filters, filter_branch; simpl.
  intros H.
  repeat (apply orb_false_iff in H; destruct H as [E H]; rewrite ?E;
          clear E).
  simpl.
  repeat match goal with
         | |- context [if ?c then _ else _] => destruct c
         | |- context [match ?l with [] => _ | _ :: _ => _ end] =>
             destruct l
         end; reflexivity.
Qed.

(** The block of a request sorted by priority on the plain unit family. *)
Lemma filter_block_priority request unit_filter qs :
  QD.get "filter" (GET request) = Some unit_filter ->
  PyStr.truthy unit_filter = true ->
  PyStr.mem unit_filter related_sort_filters = false ->
  QD.get "sort" (GET request) = Some "priority" ->
  block request qs
  = QS.extra_order_by (fun u v => unit_priority v <=? unit_priority u)
      (QS.extra "sort_by_field" (matched_units request unit_filter qs)).
Proof.
  intros Hf Ht Hplain Hsort.
  rewrite (filter_block_unfold _ _ _ Hf Ht), Hsort.
  now rewrite (filter_branch_sort_on _ _ _ _ Hplain).
Qed.

(** C5.  Whatever the GET parameters, the step query only narrows: every
    unit of a collection it returns is a unit of the input collection; and
    for a non-empty filter value outside the recognised ones it returns the
    empty collection. *)
Theorem get_step_query_narrows (request : Request) (qs : QuerySet) :
  (forall r, step request qs = Ok r ->
             forall u, In u (QS.evaluate r) -> In u (QS.evaluate qs))
  /\ (forall unit_filter,
        QD.get "filter" (GET request) = Some unit_filter ->
        PyStr.truthy unit_filter = true ->
        PyStr.mem unit_filter recognised_filters = false ->
        exists r, step request qs = Ok r /\ QS.evaluate r = []).
Proof.
  split.
  - intros r Hok u. rewrite (step_evaluate _ _ _ Hok), filter_In.
    intros [Hin _].
    destruct (filter_block_perm request qs) as [p Hp].
    apply (Permutation_in _ Hp), filter_In in Hin. tauto.
  - intros unit_filter Hf Ht Hm.
    assert (He : is_empty (block request qs) = true).
    { rewrite (filter_block_unfold _ _ _ Hf Ht), sort_stage_is_empty.
      destruct (matched_flags request unit_filter qs) as [-> _].
      now rewrite filter_branch_unrecognised. }
    destruct (step_answers request qs) as (r & Hok & Hr & _).
    { intros form _. unfold search_refused. now rewrite He. }
    exists r. split; [exact Hok|].
    rewrite (Restricts_evaluate _ _ _ Hr). unfold QS.evaluate at 1.
    now rewrite He.
Qed.

(** C3.  With [sort=priority] on a filter of the plain unit family, the
    units the step query returns come out by descending priority, the
    priority of a unit being the largest priority among its virtual
    folders and 1 when it has none; they are the units that match the
    filter, the dates and the search, all of them.  The step query returns
    them unless the search or-combines two columns, which the extra column
    of this sort makes fail. *)
Theorem get_step_query_priority_order
        (request : Request) (qs : QuerySet) (unit_filter : string) :
  QD.get "filter" (GET request) = Some unit_filter ->
  PyStr.truthy unit_filter = true ->
  PyStr.mem unit_filter related_sort_filters = false ->
  QD.get "sort" (GET request) = Some "priority" ->
  match step request qs with
  | Ok r =>
      StronglySorted (fun u v => unit_priority v <= unit_priority u)
                     (QS.evaluate r)
      /\ Permutation
           (QS.evaluate r)
           (List.filter (keep request)
              (QS.evaluate (matched_units request unit_filter qs)))
  | Raise e =>
      e = ValueError
      /\ exists form, form_of request = Some form /\ selects_two form
  end
  /\ ((forall form, form_of request = Some form -> ~ selects_two form) ->
      exists r, step request qs = Ok r)
  /\ (forall u, vfolders u = [] -> unit_priority u = 1)
  /\ (forall u, vfolders u <> [] ->
                In (unit_priority u) (vfolders u)
                /\ forall p, In p (vfolders u) -> p <= unit_priority u).
Proof.
  intros Hf Ht Hplain Hsort.
  pose proof (filter_block_priority _ _ qs Hf Ht Hplain Hsort) as Hb.
  split; [|split; [|split]].
  - pose proof (step_result request qs) as Hs.
    destruct (step request qs) as [r|e] eqn:Hok.
    + rewrite (step_evaluate _ _ _ Hok), Hb. split.
      * apply filter_sorted.
        eapply sorted_impl;
          [|apply (evaluate_sorted
                     (fun u v => unit_priority v <=? unit_priority u))].
        -- intros u v. simpl. apply Z.leb_le.
        -- reflexivity.
        -- intros u v. rewrite Z.leb_gt, Z.leb_le. lia.
        -- intros u v w. rewrite !Z.leb_le. lia.
      * apply filter_perm. now rewrite evaluate_extra_order_by_perm.
    + destruct Hs as (-> & form & Hform & Hr). split; [reflexivity|].
      exists form. split; [exact Hform|].
      now apply search_refused_iff in Hr.
  - intros Hno. destruct (step_answers request qs) as (r & Hok & _).
    + intros form Hform.
      destruct (search_refused form (block request qs)) eqn:E;
        [|reflexivity].
      apply search_refused_iff in E. now elim (Hno form Hform).
    + now exists r.
  - apply unit_priority_default.
  - apply unit_priority_max.
Qed.

Lemma in_states_iff states u :
  in_states states u = true <-> In (state u) states.
Proof.
  unfold in_states. rewrite existsb_exists. split.
  - intros [x [Hin E]]. apply Z.eqb_eq in E. now subst.
  - intros H. exists (state u). split; [exact H | apply Z.eqb_refl].
Qed.

Lemma state_filter_branch request user name states qs :
  states_of name = Some states ->
  exists p, branch request user name qs = (QS.filter p qs, "units")
            /\ forall u, p u = in_states states u.
Proof.
  unfold state_filter_states, in_states.
  destruct (String.eqb name "translated") eqn:E1;
    [|destruct (String.eqb name "untranslated") eqn:E2;
      [|destruct (String.eqb name "fuzzy") eqn:E3;
        [|destruct (String.eqb name "incomplete") eqn:E4]]];
    intros H; try discriminate H; injection H as <-;
    match goal with
    | E : String.eqb name _ = true |- _ =>
        apply String.eqb_eq in E; subst name
    end;
    eexists; (split; [reflexivity|]); intros u; simpl;
    now rewrite ?orb_false_r.
Qed.

(** With nothing but the filter narrowing, the step query returns the
    units the filter branch selects, possibly reordered. *)
Lemma step_only_filter request qs unit_filter :
  QD.get "filter" (GET request) = Some unit_filter ->
  PyStr.truthy unit_filter = true ->
  only_filter request ->
  exists r,
    step request qs = Ok r
    /\ Permutation
         (QS.evaluate r)
         (QS.evaluate
            (fst (branch request (filter_user get_user request)
                         unit_filter qs))).
Proof.
  intros Hf Ht (Hms & Hmonth & Hsearch).
  exists (block request qs). split; [now apply step_inactive|].
  rewrite (filter_block_unfold _ _ _ Hf Ht), sort_stage_perm.
  unfold matched. now rewrite Hms, Hmonth.
Qed.

(** C4.  With filter value [translated], [untranslated], [fuzzy] or
    [incomplete], every unit the step query returns is an input unit in
    the state the filter names (either of UNTRANSLATED and FUZZY for
    [incomplete]); and when the request narrows by nothing else, the step
    query returns exactly those units, each as often as in the input. *)
Theorem get_step_query_state_filters
        (request : Request) (qs : QuerySet) (name : string)
        (states : list Z) :
  QD.get "filter" (GET request) = Some name ->
  states_of name = Some states ->
  (forall r, step request qs = Ok r ->
             forall u, In u (QS.evaluate r) ->
                       In u (QS.evaluate qs) /\ In (state u) states)
  /\ (only_filter request ->
      exists r,
        step request qs = Ok r
        /\ (forall u, In u (QS.evaluate r) <->
                      In u (QS.evaluate qs) /\ In (state u) states)
        /\ Permutation (QS.evaluate r)
                       (List.filter (in_states states) (QS.evaluate qs))).
Proof.
  intros Hf Hs.
  assert (Ht : PyStr.truthy name = true).
  { destruct name; [discriminate Hs | reflexivity]. }
  destruct (state_filter_branch request (filter_user get_user request)
              name states qs Hs) as [p [Hb Hp]].
  assert (Hsound : forall r, step request qs = Ok r ->
             forall u, In u (QS.evaluate r) ->
                       In u (QS.evaluate qs) /\ In (state u) states).
  { intros r Hok u. rewrite (step_evaluate _ _ _ Hok), filter_In.
    intros [Hin _].
    rewrite (filter_block_unfold _ _ _ Hf Ht) in Hin.
    apply (Permutation_in _ (sort_stage_perm _ _ _ _)) in Hin.
    unfold matched in Hin. rewrite Hb in Hin. simpl fst in Hin.
    destruct (modified_since_stage_restricts
                (QD.get "modified-since" (GET request)) (QS.filter p qs))
      as [p2 H2].
    destruct (month_stage_restricts (QD.get "month" (GET request))
                (modified_since_stage parse_datetime
                   (QD.get "modified-since" (GET request))
                   (QS.filter p qs)))
      as [p3 H3].
    rewrite (Restricts_evaluate _ _ _ H3), (Restricts_evaluate _ _ _ H2),
      evaluate_filter in Hin.
    rewrite !filter_In in Hin. destruct Hin as [[[Hin Hk] _] _].
    rewrite Hp in Hk. now apply in_states_iff in Hk. }
  split; [exact Hsound|].
  intros Ho.
  destruct (step_only_filter request qs name Hf Ht Ho) as (r & Hok & Hperm).
  rewrite Hb in Hperm. simpl fst in Hperm.
  rewrite evaluate_filter, (filter_ext _ _ Hp) in Hperm.
  exists r. split; [exact Hok|]. split; [|exact Hperm].
  intros u. split; [now apply Hsound|].
  intros [Hin Hst]. apply (Permutation_in _ (Permutation_sym Hperm)).
  apply filter_In. split; [exact Hin | now apply in_states_iff].
Qed.

(** X1.  Without a [filter] key, and without both [search] and [sfields],
    the step query hands back the query set it was given: [checks] and
    [user] alone narrow nothing, although [_is_filtered] counts them; in
    particular a request that [_is_filtered] finds unfiltered is not
    narrowed. *)
Theorem get_step_query_untouched (request : Request) (qs : QuerySet) :
  (QD.contains "filter" (GET request) = false ->
   QD.contains "search" (GET request)
   && QD.contains "sfields" (GET request) = false ->
   step request qs = Ok qs)
  /\ (_is_filtered request = false -> step request qs = Ok qs).
Proof.
  assert (H : QD.contains "filter" (GET request) = false ->
              QD.contains "search" (GET request)
              && QD.contains "sfields" (GET request) = false ->
              step request qs = Ok qs).
  { intros Hf Hs. unfold get_step_query, filter_block, search_stage.
    now rewrite (QD_absent_get _ _ Hf), Hs. }
  split; [exact H|].
  unfold _is_filtered. intros E.
  apply orb_false_iff in E. destruct E as [E Hs].
  apply orb_false_iff in E. destruct E as [E _].
  apply orb_false_iff in E. destruct E as [Hf _].
  now apply H.
Qed.

(** X15.  The filter value [all] keeps every unit: when the request narrows
    by nothing else the step query returns the units of the input, each as
    often as there, and without a [sort] value the query set comes back as
    it was given. *)
Theorem get_step_query_all (request : Request) (qs : QuerySet) :
  QD.get "filter" (GET request) = Some "all" ->
  only_filter request ->
  exists r,
    step request qs = Ok r
    /\ Permutation (QS.evaluate r) (QS.evaluate qs)
    /\ (QD.get "sort" (GET request) = None -> r = qs).
Proof.
  intros Hf Ho.
  destruct (step_only_filter request qs "all" Hf eq_refl Ho)
    as (r & Hok & Hp).
  exists r. split; [exact Hok|]. split; [exact Hp|].
  destruct Ho as (Hms & Hmonth & Hsearch). intros Hsort.
  rewrite (step_inactive _ _ Hsearch) in Hok. injection Hok as <-.
  unfold filter_block. rewrite Hf, Hms, Hmonth, Hsort. reflexivity.
Qed.

(** X16.  The [checks] filter.  Without a [checks] parameter the step
    query returns nothing.  With one, and nothing else narrowing, it
    returns the input units that have a quality check which is not a false
    positive and whose name is among the comma-separated names given. *)
Theorem get_step_query_checks (request : Request) (qs : QuerySet) :
  QD.get "filter" (GET request) = Some "checks" ->
  (QD.contains "checks" (GET request) = false ->
   exists r, step request qs = Ok r /\ QS.evaluate r = [])
  /\ (forall names,
        QD.get "checks" (GET request) = Some names ->
        only_filter request ->
        exists r,
          step request qs = Ok r
          /\ forall u,
              In u (QS.evaluate r)
              <-> In u (QS.evaluate qs)
                  /\ exists q,
                      In q (qualitycheck_set u)
                      /\ qualitycheck_false_positive q = false
                      /\ In (qualitycheck_name q)
                            (PyStr.split_on "," names)).
Proof.
  intros Hf. split.
  - intros Hc.
    assert (He : is_empty (block request qs) = true).
    { rewrite (filter_block_unfold _ _ _ Hf eq_refl), sort_stage_is_empty.
      destruct (matched_flags request "checks" qs) as [-> _].
      unfold filter_branch. simpl. now rewrite Hc. }
    destruct (step_answers request qs) as (r & Hok & Hr & _).
    { intros form _. unfold search_refused. now rewrite He. }
    exists r. split; [exact Hok|].
    rewrite (Restricts_evaluate _ _ _ Hr). unfold QS.evaluate at 1.
    now rewrite He.
  - intros names Hn Ho.
    destruct (step_only_filter request qs "checks" Hf eq_refl Ho)
      as (r & Hok & Hp).
    exists r. split; [exact Hok|]. intros u.
    assert (Hb : fst (branch request (filter_user get_user request)
                             "checks" qs)
                 = QS.distinct
                     (QS.filter
                        (fun u => existsb
                           (fun q => negb (qualitycheck_false_positive q)
                                     && PyStr.mem (qualitycheck_name q)
                                                  (PyStr.split_on "," names))
                           (qualitycheck_set u)) qs)).
    { unfold filter_branch. simpl.
      rewrite (QD_get_contains _ _ _ Hn), Hn. simpl.
      pose proof (split_on_aux_nonempty "," names []) as Hne.
      unfold PyStr.split_on.
      destruct (PyStr.split_on_aux "," [] names); [now elim Hne|].
      reflexivity. }
    rewrite Hb, evaluate_distinct, evaluate_filter in Hp.
    split.
    + intros Hin. apply (Permutation_in _ Hp), filter_In in Hin.
      destruct Hin as [Hin Hq]. split; [exact Hin|].
      apply existsb_exists in Hq. destruct Hq as [q [Hq Hc]].
      apply andb_true_iff in Hc. destruct Hc as [Hfp Hm].
      exists q. split; [exact Hq|]. split.
      * now destruct (qualitycheck_false_positive q).
      * now apply mem_In.
    + intros [Hin [q [Hq [Hfp Hm]]]].
      apply (Permutation_in _ (Permutation_sym Hp)), filter_In.
      split; [exact Hin|]. apply existsb_exists. exists q.
      split; [exact Hq|]. rewrite Hfp. simpl. now apply mem_In.
Qed.

(** X17.  How the suggestion and submission filters nest.  The units with
    overwritten submissions of a user are among the units with submissions
    of that user, and none of them was last submitted by the user; the
    units with pending suggestions of a user are among the units with
    pending suggestions.  The [my-] and [user-] spellings of a filter select
    the same units. *)
Theorem filter_branch_nesting
        (request : Request) (user : UserId) (qs : QuerySet) :
  (forall u,
      In u (QS.evaluate
              (fst (branch request user "my-submissions-overwritten" qs))) ->
      In u (QS.evaluate (fst (branch request user "my-submissions" qs)))
      /\ submitted_by u <> Some user)
  /\ (forall u,
         In u (QS.evaluate (fst (branch request user "my-suggestions" qs))) ->
         In u (QS.evaluate (fst (branch request user "suggestions" qs))))
  /\ branch request user "user-suggestions" qs
     = branch request user "my-suggestions" qs
  /\ branch request user "user-submissions" qs
     = branch request user "my-submissions" qs
  /\ branch request user "user-submissions-overwritten" qs
     = branch request user "my-submissions-overwritten" qs.
Proof.
  split; [|split; [|repeat split]].
  - intros u. unfold filter_branch; simpl.
    unfold QS.exclude. rewrite !evaluate_distinct, !evaluate_filter,
      !filter_In.
    intros [[Hin Hs] Hx]. split; [now split|].
    intros E. rewrite E in Hx. simpl in Hx. now rewrite Z.eqb_refl in Hx.
  - intros u. unfold filter_branch; simpl.
    rewrite !evaluate_distinct, !evaluate_filter, !filter_In.
    intros [Hin Hs]. split; [exact Hin|].
    apply existsb_exists in Hs. destruct Hs as [s [Hs Hp]].
    apply existsb_exists. exists s. split; [exact Hs|].
    unfold pending_of in Hp. now apply andb_true_iff in Hp.
Qed.

End StepQueryFacts.

(** X8.  Sorting never changes which units are returned, and a [sort] value
    that the filter's sort family does not list (any value for an absent
    family, [priority] for the suggestion and submission families) leaves
    the query set as it is. *)
Theorem sort_stage_only_reorders
        (db : Database) (EDIT_TYPES : list Z) (user : UserId)
        (sort_on : string) (sort_by_param : option string) (qs : QuerySet) :
  Permutation
    (QS.evaluate (sort_stage db EDIT_TYPES user sort_on sort_by_param qs))
    (QS.evaluate qs)
  /\ ((forall p, sort_by_param = Some p ->
                 dict_get p (ALLOWED_SORTS sort_on) = None) ->
      sort_stage db EDIT_TYPES user sort_on sort_by_param qs = qs)
  /\ dict_get "priority" (ALLOWED_SORTS "suggestions") = None
  /\ dict_get "priority" (ALLOWED_SORTS "submissions") = None.
Proof.
  split; [apply sort_stage_perm|]. split; [|split; reflexivity].
  intros H. unfold sort_stage.
  destruct sort_by_param as [p|]; [|reflexivity].
  now rewrite (H p eq_refl).
Qed.

(** ** The data of the search form *)

Lemma getlist_setlist_same key vs d :
  QD.getlist key (QD.setlist key vs d) = Some vs.
Proof.
  induction d as [|[k old] d IH]; simpl.
  - now rewrite String.eqb_refl.
  - destruct (String.eqb k key) eqn:E; simpl; now rewrite E.
Qed.

Lemma getlist_setlist_other key other vs d :
  other <> key ->
  QD.getlist other (QD.setlist key vs d) = QD.getlist other d.
Proof.
  intros Hne. induction d as [|[k old] d IH]; simpl.
  - destruct (String.eqb_spec key other); [congruence | reflexivity].
  - destruct (String.eqb_spec k key) as [->|Hk]; simpl.
    + destruct (String.eqb_spec key other); [congruence | reflexivity].
    + destruct (String.eqb k other); [reflexivity | exact IH].
Qed.

(** X24.  What the search form is given.  A [sfields] value with commas
    reaches the form as one value per comma-separated field; a value
    without comma reaches it as it is; and every other parameter reaches it
    unchanged. *)
Theorem search_form_data_splits (request : Request) :
  (forall key, key <> "sfields" ->
               QD.getlist key (search_form_data request)
               = QD.getlist key (GET request))
  /\ (forall sfields,
         QD.get "sfields" (GET request) = Some sfields ->
         QD.getlist "sfields" (search_form_data request)
         = if PyStr.has_char "," sfields
           then Some (PyStr.split_on "," sfields)
           else QD.getlist "sfields" (GET request)).
Proof.
  unfold search_form_data. split.
  - intros key Hk.
    destruct (QD.get "sfields" (GET request)) as [s|]; [|reflexivity].
    destruct (PyStr.has_char "," s); [|reflexivity].
    now apply getlist_setlist_other.
  - intros sfields ->. destruct (PyStr.has_char "," sfields); [|reflexivity].
    apply getlist_setlist_same.
Qed.

(** ** When the step query is refused *)

Section StepQueryRefusal.

Variable db : Database.
Variables UNTRANSLATED FUZZY TRANSLATED : Z.
Variable EDIT_TYPES : list Z.
Variable get_user : string -> option UserId.
Variable parse_datetime : string -> option DateTime.
Variable get_date_interval : string -> DateTime * DateTime.
Variable make_search_form : QueryDict -> option SearchForm.

Local Abbreviation branch :=
  (filter_branch UNTRANSLATED FUZZY TRANSLATED EDIT_TYPES).
Local Abbreviation block :=
  (filter_block db UNTRANSLATED FUZZY TRANSLATED EDIT_TYPES get_user
                parse_datetime get_date_interval).
Local Abbreviation step :=
  (get_step_query db UNTRANSLATED FUZZY TRANSLATED EDIT_TYPES get_user
                  parse_datetime get_date_interval make_search_form).
Local Abbreviation form_of := (search_form_of make_search_form).
Local Abbreviation matched_units :=
  (matched UNTRANSLATED FUZZY TRANSLATED EDIT_TYPES get_user
           parse_datetime get_date_interval).

Lemma filter_branch_extra request user unit_filter qs :
  extra_select (fst (branch request user unit_filter qs)) = extra_select qs.
Proof.
  unfold filter_branch.
  repeat match goal with
         | |- context [if ?c then _ else _] => destruct c
         | |- context [match ?l with [] => _ | _ :: _ => _ end] =>
             destruct l
         end; reflexivity.
Qed.

(** A recognised filter leaves the query set non-empty as a query: only
    an unknown filter, or [checks] without names, gives [none()]. *)
Lemma filter_branch_is_empty request user unit_filter qs :
  PyStr.mem unit_filter recognised_filters = true ->
  (unit_filter = "checks" ->
   exists names, QD.get "checks" (GET request) = Some names) ->
  is_empty (fst (branch request user unit_filter qs)) = is_empty qs.
Proof.
  intros Hm Hc. apply mem_In in Hm. unfold recognised_filters in Hm.
  simpl in Hm.
  repeat (destruct Hm as [<-|Hm]; [try reflexivity|]); [|destruct Hm].
  destruct (Hc eq_refl) as [names Hn].
  unfold filter_branch. simpl.
  rewrite (QD_get_contains _ _ _ Hn), Hn. simpl.
  pose proof (split_on_aux_nonempty "," names []) as Hne.
  unfold PyStr.split_on.
  destruct (PyStr.split_on_aux "," [] names); [now elim Hne | reflexivity].
Qed.

Lemma recognised_truthy unit_filter :
  PyStr.mem unit_filter recognised_filters = true ->
  PyStr.truthy unit_filter = true.
Proof.
  intros Hm. apply mem_In in Hm. unfold recognised_filters in Hm.
  simpl in Hm.
  repeat (destruct Hm as [<-|Hm]; [reflexivity|]). destruct Hm.
Qed.

Lemma allowed_priority sort_on p :
  dict_get p (ALLOWED_SORTS sort_on) = Some "priority" -> p = "priority".
Proof.
  unfold ALLOWED_SORTS.
  destruct (String.eqb sort_on "units");
    [|destruct (String.eqb sort_on "suggestions");
      [|destruct (String.eqb sort_on "submissions")]]; cbn [dict_get];
    repeat match goal with
           | |- context [String.eqb ?a p] =>
               destruct (String.eqb_spec a p)
           end;
    intros H; try discriminate H; congruence.
Qed.

(** Only the sort by priority adds an extra column. *)
Lemma sort_stage_extra user sort_on sort_by_param qs :
  sort_by_param <> Some "priority" ->
  extra_select (sort_stage db EDIT_TYPES user sort_on sort_by_param qs)
  = extra_select qs.
Proof.
  intros Hne. unfold sort_stage, order_by_field.
  destruct sort_by_param as [p|]; [|reflexivity].
  destruct (dict_get p (ALLOWED_SORTS sort_on)) as [sort_by|] eqn:E;
    [|reflexivity].
  destruct (PyStr.mem sort_on SIMPLY_SORTED).
  - destruct (String.eqb_spec sort_by "priority") as [->|_].
    + apply allowed_priority in E. congruence.
    + now destruct sort_by as [|[[] [] [] [] [] [] [] []] rest].
  - now destruct sort_by as [|[[] [] [] [] [] [] [] []] rest].
Qed.

Lemma filter_block_extra request qs :
  QD.get "sort" (GET request) <> Some "priority" ->
  extra_select (block request qs) = extra_select qs.
Proof.
  intros Hs.
  destruct (QD.get "filter" (GET request)) as [unit_filter|] eqn:Hf;
    [destruct (PyStr.truthy unit_filter) eqn:Ht|].
  - rewrite (filter_block_unfold _ _ _ _ _ _ _ _ _ _ _ Hf Ht).
    rewrite (sort_stage_extra _ _ _ _ Hs).
    destruct (matched_flags UNTRANSLATED FUZZY TRANSLATED EDIT_TYPES
                get_user parse_datetime get_date_interval request
                unit_filter qs) as [_ ->].
    apply filter_branch_extra.
  - unfold filter_block. now rewrite Hf, Ht.
  - unfold filter_block. now rewrite Hf.
Qed.

(** X29.  When the step query fails.  It raises nothing but the
    [ValueError] of an or-combination, and only for a search that selects
    two columns.  On a query set without extra columns it always answers
    unless the request sorts by priority.  And it does fail when a
    request sorts the units of a recognised filter of the plain family by
    priority and searches two columns: the sort adds an extra column to
    the query, which the or-combination of the per-column queries
    refuses. *)
Theorem get_step_query_refusal (request : Request) (qs : QuerySet) :
  (forall e, step request qs = Raise e ->
             e = ValueError
             /\ exists form, form_of request = Some form
                             /\ selects_two form)
  /\ (extra_select qs = [] ->
      QD.get "sort" (GET request) <> Some "priority" ->
      exists r, step request qs = Ok r)
  /\ (forall unit_filter form,
         QD.get "filter" (GET request) = Some unit_filter ->
         PyStr.mem unit_filter recognised_filters = true ->
         PyStr.mem unit_filter related_sort_filters = false ->
         (unit_filter = "checks" ->
          exists names, QD.get "checks" (GET request) = Some names) ->
         QD.get "sort" (GET request) = Some "priority" ->
         is_empty qs = false ->
         form_of request = Some form ->
         selects_two form ->
         step request qs = Raise ValueError).
Proof.
  split; [|split].
  - intros e He.
    pose proof (step_result db UNTRANSLATED FUZZY TRANSLATED EDIT_TYPES
                  get_user parse_datetime get_date_interval
                  make_search_form request qs) as Hs.
    rewrite He in Hs. destruct Hs as (-> & form & Hf & Hr).
    split; [reflexivity|]. exists form. split; [exact Hf|].
    now apply search_refused_iff in Hr.
  - intros Hx Hs.
    destruct (step_answers db UNTRANSLATED FUZZY TRANSLATED EDIT_TYPES
                get_user parse_datetime get_date_interval
                make_search_form request qs) as (r & Hok & _).
    + intros form _. unfold search_refused.
      rewrite (filter_block_extra _ _ Hs), Hx.
      now rewrite andb_false_r.
    + now exists r.
  - intros unit_filter form Hf Hrec Hplain Hc Hsort He Hform Htwo.
    pose proof (recognised_truthy _ Hrec) as Ht.
    pose proof (filter_block_priority db UNTRANSLATED FUZZY TRANSLATED
                  EDIT_TYPES get_user parse_datetime get_date_interval
                  _ _ qs Hf Ht Hplain Hsort) as Hb.
    pose proof (step_result db UNTRANSLATED FUZZY TRANSLATED EDIT_TYPES
                  get_user parse_datetime get_date_interval
                  make_search_form request qs) as Hs.
    assert (Hr : search_refused form (block request qs) = true).
    { apply search_refused_iff. rewrite Hb. simpl.
      split; [|split; [|exact Htwo]].
      - destruct (matched_flags UNTRANSLATED FUZZY TRANSLATED EDIT_TYPES
                    get_user parse_datetime get_date_interval request
                    unit_filter qs) as [-> _].
        rewrite (filter_branch_is_empty _ _ _ _ Hrec Hc). exact He.
      - intros E. apply app_eq_nil in E. destruct E as [_ E].
        discriminate E. }
    pose proof (search_stage_spec db make_search_form request
                  (block request qs)) as Hst.
    rewrite Hform, Hr in Hst. exact Hst.
Qed.

End StepQueryRefusal.

(** ** The id window of an initial [get_units] request *)

(** ** The id window of an initial [get_units] request *)

Lemma py_slice_in_range {A} (b e : Z) (l : list A) :
  0 <= b <= Z.of_nat (List.length l) ->
  0 <= e <= Z.of_nat (List.length l) ->
  py_slice b e l = slice b e l.
Proof.
  intros Hb He. unfold py_slice, py_bound, slice.
  destruct (b <? 0) eqn:Eb; [apply Z.ltb_lt in Eb; lia|].
  destruct (e <? 0) eqn:Ee; [apply Z.ltb_lt in Ee; lia|].
  now rewrite !Z.min_l by lia.
Qed.

Lemma py_slice_head {A} (n : Z) (l : list A) :
  0 <= n -> py_slice 0 n l = firstn (Z.to_nat n) l.
Proof.
  intros Hn. unfold py_slice, py_bound.
  destruct (n <? 0) eqn:En; [apply Z.ltb_lt in En; lia|].
  simpl. rewrite (Z.min_l 0) by lia. simpl. rewrite Z.sub_0_r.
  destruct (Z.le_ge_cases n (Z.of_nat (List.length l))) as [H|H].
  - now rewrite Z.min_l.
  - rewrite Z.min_r, Nat2Z.id by lia.
    rewrite firstn_all. symmetry. apply firstn_all2. lia.
Qed.

Lemma list_index_Some x l i :
  list_index x l = Some i ->
  0 <= i < Z.of_nat (List.length l) /\ nth_error l (Z.to_nat i) = Some x.
Proof.
  revert i. induction l as [|y l IH]; simpl; [discriminate|].
  intros i. destruct (y =? x) eqn:E.
  - intros [= <-]. apply Z.eqb_eq in E. subst. simpl. split; [lia|auto].
  - destruct (list_index x l) as [j|]; simpl; [|discriminate].
    intros [= <-]. destruct (IH j eq_refl) as [Hr Hn].
    split; [lia|]. rewrite Z2Nat.inj_succ by lia. exact Hn.
Qed.

Lemma list_index_None x l : list_index x l = None <-> ~ In x l.
Proof.
  induction l as [|y l IH]; simpl; [tauto|].
  destruct (y =? x) eqn:E.
  - apply Z.eqb_eq in E. split; [discriminate | intros H; elim H; auto].
  - apply Z.eqb_neq in E.
    destruct (list_index x l); simpl.
    + split; [discriminate|]. intros H. exfalso.
      destruct IH as [_ IH]. assert (Some z = None) by (apply IH; tauto).
      discriminate.
    + split; [|reflexivity]. intros _ [H|H]; [congruence|].
      now apply IH.
Qed.

Lemma slice_around_length {A} (c i : Z) (l : list A) (b e : Z) :
  0 <= c -> b = Z.max (i - c) 0 -> e <= i + c + 1 ->
  Z.of_nat (List.length (slice b e l)) <= 2 * c + 1.
Proof.
  intros Hc -> He. unfold slice.
  pose proof (firstn_le_length (Z.to_nat (e - Z.max (i - c) 0))
                (skipn (Z.to_nat (Z.max (i - c) 0)) l)).
  lia.
Qed.

Lemma slice_nth {A} (b e i : Z) (l : list A) (x : A) :
  0 <= b <= i -> i < e -> nth_error l (Z.to_nat i) = Some x ->
  In x (slice b e l).
Proof.
  intros Hb He Hn. unfold slice.
  apply (nth_error_In _ (Z.to_nat (i - b))).
  rewrite nth_error_firstn, nth_error_skipn.
  replace (Z.to_nat b + Z.to_nat (i - b))%nat with (Z.to_nat i) by lia.
  destruct (Nat.ltb_spec (Z.to_nat (i - b)) (Z.to_nat (e - b)));
    [exact Hn | lia].
Qed.

(** The window around the position [index] of the uid asked for. *)
Lemma initial_uids_window (chunk_size uid index : Z) (uid_list : list Z) :
  0 <= chunk_size ->
  list_index uid uid_list = Some index ->
  let window := slice (window_begin chunk_size index)
                      (window_end chunk_size index uid_list) uid_list in
  initial_uids (PyInt chunk_size) [uid] uid_list = Ok window
  /\ In uid window
  /\ Z.of_nat (List.length window) <= 2 * chunk_size + 1.
Proof.
  intros Hc Hi window. subst window.
  destruct (list_index_Some _ _ _ Hi) as [Hr Hn].
  unfold initial_uids, window_begin, window_end. rewrite Hi. simpl.
  split; [|split].
  - f_equal. apply py_slice_in_range; lia.
  - apply (slice_nth _ _ index); [lia | lia | exact Hn].
  - apply (slice_around_length chunk_size index); [lia | reflexivity | lia].
Qed.

Lemma initial_uids_missing (chunk_size : PyVal) (uid : Z) (uid_list : list Z) :
  ~ In uid uid_list ->
  initial_uids chunk_size [uid] uid_list = Raise Http404.
Proof.
  intros H. apply list_index_None in H. unfold initial_uids. now rewrite H.
Qed.

Lemma initial_uids_head (chunk_size : Z) (uids uid_list : list Z) :
  0 <= chunk_size -> List.length uids <> 1%nat ->
  initial_uids (PyInt chunk_size) uids uid_list
  = Ok (firstn (Z.to_nat (2 * chunk_size)) uid_list).
Proof.
  intros Hc Hl. unfold initial_uids.
  destruct uids as [|u [|v rest]]; simpl in Hl; try (now elim Hl);
    unfold py_int_mul, py_slice_to; now rewrite py_slice_head by lia.
Qed.

Lemma groupby_concat {A} (key : A -> string) (l : list A) :
  List.concat (map snd (groupby key l)) = l.
Proof.
  induction l as [|x l IH]; simpl; [reflexivity|].
  destruct (groupby key l) as [|[k run] groups]; simpl in *.
  - now subst.
  - destruct (String.eqb (key x) k); simpl; now rewrite <- IH.
Qed.

Lemma get_uid_list_ids qs : get_uid_list qs = map id (QS.evaluate qs).
Proof.
  unfold get_uid_list.
  destruct (order_by qs) as [|f [|g rest]]; try reflexivity.
  destruct (sort_family (Some f)) as [s|]; [|reflexivity].
  repeat match goal with
         | |- context [match ?x with _ => _ end] => destruct x
         end; reflexivity.
Qed.

Lemma groupby_runs {A} (key : A -> string) (l : list A) :
  groups_are_runs key (groupby key l).
Proof.
  unfold groups_are_runs. induction l as [|x l IH]; simpl; [constructor|].
  destruct (groupby key l) as [|[k run] groups].
  - repeat constructor. discriminate.
  - destruct (String.eqb (key x) k) eqn:E.
    + apply String.eqb_eq in E. inversion IH as [|g gs [Hne Hall] Hrest]; subst.
      constructor; [|exact Hrest]. simpl in *. split; [discriminate|].
      now constructor.
    + constructor; [|exact IH]. simpl. split; [discriminate|].
      now repeat constructor.
Qed.

Lemma groupby_alternate {A} (key : A -> string) (l : list A) :
  keys_alternate (groupby key l).
Proof.
  unfold keys_alternate. induction l as [|x l IH]; simpl; [constructor|].
  destruct (groupby key l) as [|[k run] groups].
  - repeat constructor.
  - destruct (String.eqb (key x) k) eqn:E.
    + inversion IH as [|g gs Hs Hhd]; subst.
      constructor; [exact Hs|].
      inversion Hhd; subst; constructor. assumption.
    + apply String.eqb_neq in E. constructor; [exact IH|].
      constructor. exact E.
Qed.

Section GetUnitsFacts.

Variable db : Database.
Variables UNTRANSLATED FUZZY TRANSLATED : Z.
Variable EDIT_TYPES : list Z.
Variable get_user : string -> option UserId.
Variable parse_datetime : string -> option DateTime.
Variable get_date_interval : string -> DateTime * DateTime.
Variable make_search_form : QueryDict -> option SearchForm.
Variable to_int : string -> option Z.
Variable get_unit_rows : UserId -> Z.
Variable get_for_path : string -> UserId -> QuerySet.

Local Abbreviation step :=
  (get_step_query db UNTRANSLATED FUZZY TRANSLATED EDIT_TYPES get_user
                  parse_datetime get_date_interval make_search_form).
Local Abbreviation units_view :=
  (get_units db UNTRANSLATED FUZZY TRANSLATED EDIT_TYPES get_user
             parse_datetime get_date_interval make_search_form to_int
             get_unit_rows get_for_path).
Local Abbreviation served :=
  (serves_window db UNTRANSLATED FUZZY TRANSLATED EDIT_TYPES get_user
                 parse_datetime get_date_interval make_search_form to_int
                 get_unit_rows get_for_path).

(** A failure of the step query is the answer of [get_units]. *)
Lemma get_units_step_raises request path e :
  QD.get "path" (GET request) = Some path ->
  step request (get_for_path path (profile request)) = Raise e ->
  units_view request = Raise e.
Proof. intros Hp He. unfold get_units. now rewrite Hp, He. Qed.

Lemma get_units_after_window request path step_queryset window :
  QD.get "path" (GET request) = Some path ->
  step request (get_for_path path (profile request)) = Ok step_queryset ->
  is_initial_request request = true ->
  initial_uids (get_chunk_size get_unit_rows request)
               (parse_uids to_int request)
               (map id (QS.evaluate step_queryset))
  = Ok window ->
  served request step_queryset window.
Proof.
  intros Hp Hs Hi Hw. unfold serves_window, get_units.
  rewrite Hp, Hs. simpl. rewrite Hi, get_uid_list_ids, Hw. simpl.
  eexists. split; [reflexivity|]. simpl. split.
  - rewrite groupby_concat. destruct window as [|w ws]; simpl.
    + symmetry. now apply filter_none.
    + now rewrite evaluate_filter.
  - now destruct (map id _).
Qed.

(** X28.  The id window of an initial request.  On a request whose
    [initial] parameter has a non-empty value and that gives no [count],
    with a non-negative chunk size (the user's unit rows) and a step query
    that answers: when the [uids] parameter yields one uid that is at
    position [index] of the ordered id list, the units loaded are those of
    the slice from [max(index - chunk_size, 0)] to
    [min(index + chunk_size + 1, len)], a window that holds the uid and at
    most [2 * chunk_size + 1] ids; when that uid is not in the list the
    request fails with 404; and when [uids] yields no uid or several, the
    window is the first [2 * chunk_size] ids. *)
Theorem get_units_initial_window
        (request : Request) (path : string) (step_queryset : QuerySet) :
  QD.get "path" (GET request) = Some path ->
  step request (get_for_path path (profile request)) = Ok step_queryset ->
  is_initial_request request = true ->
  QD.get "count" (GET request) = None ->
  0 <= get_unit_rows (profile request) ->
  let chunk_size := get_unit_rows (profile request) in
  let uid_list := map id (QS.evaluate step_queryset) in
  (forall uid index,
      parse_uids to_int request = [uid] ->
      list_index uid uid_list = Some index ->
      let window := slice (window_begin chunk_size index)
                          (window_end chunk_size index uid_list)
                          uid_list in
      served request step_queryset window
      /\ In uid window
      /\ Z.of_nat (List.length window) <= 2 * chunk_size + 1)
  /\ (forall uid,
         parse_uids to_int request = [uid] ->
         ~ In uid uid_list ->
         units_view request = Raise Http404)
  /\ (List.length (parse_uids to_int request) <> 1%nat ->
      served request step_queryset
             (firstn (Z.to_nat (2 * chunk_size)) uid_list)).
Proof.
  intros Hp Hs Hi Hc Hrows chunk_size uid_list.
  assert (Hchunk : get_chunk_size get_unit_rows request = PyInt chunk_size).
  { unfold get_chunk_size. now rewrite Hc. }
  split; [|split].
  - intros uid index Hu Hidx window.
    destruct (initial_uids_window chunk_size uid index uid_list Hrows Hidx)
      as (Hw & Hin & Hlen).
    split; [|split; assumption].
    apply (get_units_after_window request path); try assumption.
    now rewrite Hchunk, Hu.
  - intros uid Hu Hnot. unfold get_units.
    rewrite Hp, Hs. simpl. rewrite Hi, get_uid_list_ids, Hu.
    now rewrite (initial_uids_missing _ _ _ Hnot).
  - intros Hlen.
    apply (get_units_after_window request path); try assumption.
    rewrite Hchunk. now apply initial_uids_head.
Qed.

(** X2.  Whenever [get_units] answers, its unit groups are the runs of the
    loaded units by store path: no group is empty, the units of a group
    are in the store the group is named after, and two groups in a row
    never carry the same path. *)
Theorem get_units_groups_are_runs (request : Request) (resp : UnitsResponse) :
  units_view request = Ok resp ->
  groups_are_runs store_pootle_path (unitGroups resp)
  /\ keys_alternate (unitGroups resp).
Proof.
  unfold get_units.
  destruct (QD.get "path" (GET request)) as [path|]; [|discriminate].
  destruct (step request (get_for_path path (profile request)))
    as [step_queryset|e]; simpl; [|discriminate].
  match goal with
  | |- bind ?r _ = _ -> _ => destruct r as [[uids uid_list]|e]
  end; simpl; [|discriminate].
  intros [= <-]. simpl. split.
  - apply groupby_runs.
  - apply groupby_alternate.
Qed.

(** X3.  A request without [path] is refused with 400 before anything else
    is looked at.  A request with [path] whose [initial] value is missing or
    empty fails as the step query fails; when the step query answers, it
    gets no id list, and exactly the units of the step query whose id is
    among the parsed [uids], in the order of the query. *)
Theorem get_units_plain_request (request : Request) :
  (QD.get "path" (GET request) = None ->
   units_view request = Raise Http400)
  /\ (forall path,
        QD.get "path" (GET request) = Some path ->
        is_initial_request request = false ->
        match step request (get_for_path path (profile request)) with
        | Ok step_queryset =>
            exists resp,
              units_view request = Ok resp
              /\ uIds resp = None
              /\ List.concat (map snd (unitGroups resp))
                 = List.filter
                     (fun u => existsb (Z.eqb (id u))
                                       (parse_uids to_int request))
                     (QS.evaluate step_queryset)
        | Raise e => units_view request = Raise e
        end).
Proof.
  unfold get_units. split.
  - now intros ->.
  - intros path -> Hi.
    destruct (step request (get_for_path path (profile request)))
      as [step_queryset|e]; simpl; [|reflexivity].
    rewrite Hi. simpl. eexists. split; [reflexivity|].
    split; [reflexivity|]. simpl. rewrite groupby_concat.
    destruct (parse_uids to_int request) as [|z zs].
    + symmetry. now apply filter_none.
    + now rewrite evaluate_filter.
Qed.

(** X4.  An initial request that carries a [count] parameter never gets an
    answer.  It fails as the step query fails; when the step query
    answers, the chunk size is a text, and the request ends in a
    [TypeError], or in 404 when its one uid is not in the id list. *)
Theorem get_units_counted_request
        (request : Request) (path count : string) :
  QD.get "path" (GET request) = Some path ->
  is_initial_request request = true ->
  QD.get "count" (GET request) = Some count ->
  match step request (get_for_path path (profile request)) with
  | Ok step_queryset =>
      let uid_list := map id (QS.evaluate step_queryset) in
      units_view request
      = Raise (match parse_uids to_int request with
               | [uid] => if existsb (Z.eqb uid) uid_list then TypeError
                          else Http404
               | _ => TypeError
               end)
  | Raise e => units_view request = Raise e
  end.
Proof.
  intros Hp Hi Hc. unfold get_units, get_chunk_size.
  rewrite Hp.
  destruct (step request (get_for_path path (profile request)))
    as [step_queryset|e]; simpl; [|reflexivity].
  set (uid_list := map id (QS.evaluate step_queryset)).
  rewrite Hi, Hc, get_uid_list_ids. fold uid_list.
  unfold initial_uids.
  destruct (parse_uids to_int request) as [|uid [|v rest]]; try reflexivity.
  destruct (list_index uid uid_list) as [index|] eqn:E.
  - destruct (existsb (Z.eqb uid) uid_list) eqn:Ex; [reflexivity|].
    exfalso. apply list_index_Some in E. destruct E as [_ E].
    apply nth_error_In in E.
    assert (existsb (Z.eqb uid) uid_list = true)
      by (apply existsb_exists; exists uid; split;
          [exact E | apply Z.eqb_refl]).
    congruence.
  - destruct (existsb (Z.eqb uid) uid_list) eqn:Ex; [|reflexivity].
    exfalso. apply list_index_None in E. apply E.
    apply existsb_exists in Ex. destruct Ex as [x [Hin Hx]].
    apply Z.eqb_eq in Hx. now subst.
Qed.


(** X5.  The uids read from a request are non-zero integers that [to_int]
    gives for a non-empty piece of the comma-separated [uids] value; a
    request without [uids] has none. *)
Theorem parse_uids_sound (request : Request) :
  (forall z, In z (parse_uids to_int request) ->
             z <> 0
             /\ exists raw piece,
                 QD.get "uids" (GET request) = Some raw
                 /\ In piece (PyStr.split_on "," raw)
                 /\ piece <> ""
                 /\ to_int piece = Some z)
  /\ (QD.get "uids" (GET request) = None -> parse_uids to_int request = []).
Proof.
  unfold parse_uids. split.
  - intros z Hz. apply in_flat_map in Hz. destruct Hz as [piece [Hp Hz]].
    apply filter_In in Hp. destruct Hp as [Hp Ht].
    destruct (to_int piece) as [y|] eqn:Ey; [|contradiction].
    destruct (y =? 0) eqn:E0; [contradiction|].
    destruct Hz as [<-|[]]. apply Z.eqb_neq in E0. split; [exact E0|].
    destruct (QD.get "uids" (GET request)) as [raw|].
    + exists raw, piece. repeat split; auto.
      intros ->. discriminate Ht.
    + simpl in Hp. destruct Hp as [<-|[]]. discriminate Ht.
  - now intros ->.
Qed.

End GetUnitsFacts.

(** ** The export view *)

Section ExportViewFacts.

Variable db : Database.
Variables UNTRANSLATED FUZZY TRANSLATED : Z.
Variable EDIT_TYPES : list Z.
Variable get_user : string -> option UserId.
Variable parse_datetime : string -> option DateTime.
Variable get_date_interval : string -> DateTime * DateTime.
Variable make_search_form : QueryDict -> option SearchForm.
Variable get_for_path : string -> UserId -> QuerySet.
Variable gettext : string -> string.
Variable check_names : string -> option string.

Local Abbreviation step :=
  (get_step_query db UNTRANSLATED FUZZY TRANSLATED EDIT_TYPES get_user
                  parse_datetime get_date_interval make_search_form).
Local Abbreviation export_context :=
  (get_export_view_context db UNTRANSLATED FUZZY TRANSLATED EDIT_TYPES
     get_user parse_datetime get_date_interval make_search_form
     get_for_path gettext check_names).

(** C9.  The unit groups of an export context never hold more than
    [EXPORT_VIEW_QUERY_LIMIT] = 10000 units.  When more units match, the
    groups hold the first 10000 of them and the context has
    [unit_total_count] (the full count) and [displayed_unit_count]
    (10000); otherwise both keys are absent and the groups hold every
    matching unit.  There is a context whenever the step query answers;
    when the step query fails, so does the view. *)
Theorem get_export_view_context_limit
        (pootle_path : string) (request : Request) :
  EXPORT_VIEW_QUERY_LIMIT = 10000
  /\ match step request (get_for_path pootle_path (profile request)) with
     | Ok units =>
         exists res unit_groups,
           export_context pootle_path request = Ok res
           /\ dict_get "unit_groups" res = Some (CtxGroups unit_groups)
           /\ Z.of_nat (List.length (List.concat (map snd unit_groups)))
              <= 10000
           /\ if 10000 <? QS.count units
              then List.concat (map snd unit_groups)
                   = firstn (Z.to_nat 10000) (QS.evaluate units)
                   /\ dict_get "unit_total_count" res
                      = Some (CtxInt (QS.count units))
                   /\ dict_get "displayed_unit_count" res
                      = Some (CtxInt 10000)
              else List.concat (map snd unit_groups) = QS.evaluate units
                   /\ dict_get "unit_total_count" res = None
                   /\ dict_get "displayed_unit_count" res = None
     | Raise e => export_context pootle_path request = Raise e
     end.
Proof.
  split; [reflexivity|].
  unfold get_export_view_context.
  destruct (get_filter_name gettext check_names (GET request))
    as [filter_name filter_extra].
  destruct (step request (get_for_path pootle_path (profile request)))
    as [units|e]; [|reflexivity].
  cbn [bind]. unfold EXPORT_VIEW_QUERY_LIMIT, QS.slice_to.
  remember (Z.to_nat 10000) as limit eqn:Elimit.
  destruct (10000 <? QS.count units) eqn:E.
  - eexists.
    exists (groupby store_pootle_path (firstn limit (QS.evaluate units))).
    split; [reflexivity|].
    split; [reflexivity|]. rewrite groupby_concat.
    split; [|split; [reflexivity | split; reflexivity]].
    pose proof (firstn_le_length limit (QS.evaluate units)). lia.
  - eexists. exists (groupby store_pootle_path (QS.evaluate units)).
    split; [reflexivity|].
    split; [reflexivity|]. rewrite groupby_concat.
    split; [|split; [reflexivity | split; reflexivity]].
    apply Z.ltb_ge in E. exact E.
Qed.

End ExportViewFacts.

(** ** Comment and review endpoints, and the adapter *)

Section EndpointFacts.

Variable comment_form_is_valid : QueryDict -> Unit -> Request -> bool.
Variable gettext : string -> string.
Variable render_comment : Unit -> string.
Variable now : DateTime.
Variable public_score : UserId -> Z.
Variable accepted_extras : Unit -> list (string * Json).

Local Abbreviation delete := (delete_comment comment_form_is_valid gettext).
Local Abbreviation save :=
  (save_comment comment_form_is_valid gettext render_comment now).

(** C6.  Both comment endpoints answer 400 with a [msg] member exactly
    when the comment form fails validation, and 200 with no [msg]
    otherwise; the form [delete_comment] validates and saves is bound to
    the unit with [commented_by] and [commented_on] cleared, and nothing
    is saved when validation fails. *)
Theorem comment_endpoints_status (request : Request) (unit : Unit) :
  let cleared := set_commented None None unit in
  let stamped := set_commented (Some (profile request)) (Some now) unit in
  let d := delete request unit in
  let s := save request unit in
  (status (fst d) = 400 /\ dict_get "msg" (body (fst d)) <> None
   <-> comment_form_is_valid [] cleared request = false)
  /\ (status (fst d) = 200 /\ dict_get "msg" (body (fst d)) = None
      <-> comment_form_is_valid [] cleared request = true)
  /\ (status (fst s) = 400 /\ dict_get "msg" (body (fst s)) <> None
      <-> comment_form_is_valid (POST request) stamped request = false)
  /\ (status (fst s) = 200 /\ dict_get "msg" (body (fst s)) = None
      <-> comment_form_is_valid (POST request) stamped request = true)
  /\ snd d = (if comment_form_is_valid [] cleared request
              then [FormSaved [] cleared] else [])
  /\ commented_by cleared = None
  /\ commented_on cleared = None.
Proof.
  intros cleared stamped d s. subst d s.
  unfold delete_comment, save_comment. fold cleared. fold stamped.
  destruct (comment_form_is_valid [] cleared request),
           (comment_form_is_valid (POST request) stamped request);
    simpl; repeat split; try reflexivity; try discriminate;
    intros [H1 H2]; try discriminate; try (now elim H2).
Qed.

End EndpointFacts.

Section ReviewFacts.

Variable public_score : UserId -> Z.
Variable accepted_extras : Unit -> list (string * Json).

Lemma filter_absent {A} (p : A -> bool) (l : list A) :
  (forall x, In x l -> p x = false) -> List.filter p l = [].
Proof.
  induction l as [|x l IH]; simpl; intros H; [reflexivity|].
  rewrite (H x) by auto. apply IH. auto.
Qed.

Lemma suggestion_get_missing suggid l :
  (forall s, In s l -> suggestion_id s <> suggid) ->
  suggestion_get suggid l = Ok None.
Proof.
  intros H. unfold suggestion_get.
  rewrite filter_absent; [reflexivity|].
  intros s Hs. apply Z.eqb_neq. now apply H.
Qed.

(** C7, as the code has it.  With a non-empty [reject] (respectively
    [accept]) flag in the POST body and no suggestion of the unit under
    the given id, the request fails with 404; with the flag absent or
    empty, the endpoint does nothing to the store and answers 200 with
    the unit id ([udbid]) and the suggestion id ([sugid]). *)
Theorem review_endpoints_flag (request : Request) (unit : Unit) (suggid : Z) :
  let idle := Ok (mkHttpResponse 200 [("udbid", JInt (id unit));
                                      ("sugid", JInt suggid)], []) in
  (post_flag "reject" request = true ->
   (forall s, In s (suggestion_set unit) -> suggestion_id s <> suggid) ->
   reject_suggestion public_score request unit suggid = Raise Http404)
  /\ (post_flag "accept" request = true ->
      (forall s, In s (suggestion_set unit) -> suggestion_id s <> suggid) ->
      accept_suggestion public_score accepted_extras request unit suggid
      = Raise Http404)
  /\ (post_flag "reject" request = false ->
      reject_suggestion public_score request unit suggid = idle)
  /\ (post_flag "accept" request = false ->
      accept_suggestion public_score accepted_extras request unit suggid
      = idle)
  /\ (forall flag,
        QD.get flag (POST request) = None
        \/ QD.get flag (POST request) = Some "" ->
        post_flag flag request = false).
Proof.
  intros idle. unfold reject_suggestion, accept_suggestion.
  repeat split.
  - intros -> H. now rewrite (suggestion_get_missing _ _ H).
  - intros -> H. now rewrite (suggestion_get_missing _ _ H).
  - now intros ->.
  - now intros ->.
  - unfold post_flag. now intros flag [-> | ->].
Qed.

End ReviewFacts.

(** C8.  [ajax_response] raises on reading the unassigned local [status]
    whenever [redirect_to] is falsy and [form] is [None]; and only then,
    since the redirect branch and the form branch each assign it. *)
Theorem ajax_response_unbound_status
        (redirect_to : option string) (form : option Form) :
  (redirect_falsy redirect_to = true -> form = None ->
   ajax_response redirect_to form = Raise UnboundLocalError)
  /\ (ajax_response redirect_to form = Raise UnboundLocalError ->
      redirect_falsy redirect_to = true /\ form = None)
  /\ (forall resp, ajax_response redirect_to form = Ok resp ->
                   json_status resp = 200 \/ json_status resp = 400).
Proof.
  unfold ajax_response, redirect_falsy.
  destruct redirect_to as [url|]; [destruct (PyStr.truthy url)|];
    (destruct form as [f|]; [destruct (form_is_valid f)|]); simpl;
    repeat split; try discriminate; try tauto;
    intros; try discriminate;
    match goal with
    | H : Ok _ = Ok _ |- _ => injection H as <-; simpl; auto
    end.
Qed.

(** ** Further properties of the helpers and of the adapter *)

Lemma dict_get_mem {V} (key : string) (d : list (string * V)) :
  dict_get key d <> None <-> PyStr.mem key (map fst d) = true.
Proof.
  unfold PyStr.mem. induction d as [|[k v] d IH]; simpl.
  - split; congruence.
  - rewrite (String.eqb_sym key k). destruct (String.eqb k key); simpl.
    + split; [reflexivity | discriminate].
    + exact IH.
Qed.

(** X10.  What an answer of [ajax_response] holds: the [location] member
    is there exactly for a truthy redirect, the [errors] member exactly for
    a form that is not valid, and the status is 400 exactly for such a
    form, redirect or not. *)
Theorem ajax_response_contents
        (redirect_to : option string) (form : option Form)
        (resp : JsonResponse) :
  ajax_response redirect_to form = Ok resp ->
  dict_get "location" (json_data resp)
  = match redirect_to with
    | Some url => if PyStr.truthy url then Some (JStr url) else None
    | None => None
    end
  /\ dict_get "errors" (json_data resp)
     = match form with
       | Some f => if form_is_valid f then None
                   else Some (JStr (form_errors f))
       | None => None
       end
  /\ (json_status resp = 400
      <-> exists f, form = Some f /\ form_is_valid f = false).
Proof.
  unfold ajax_response.
  destruct redirect_to as [url|]; [destruct (PyStr.truthy url)|];
    (destruct form as [f|]; [destruct (form_is_valid f) eqn:V|]); simpl;
    intros H; try discriminate H; injection H as <-; simpl;
    (split; [reflexivity|split; [reflexivity|]]); split;
    try discriminate; try (intros _; exists f; now split);
    intros [g [Hg Hv]]; try discriminate Hg;
    injection Hg as <-; congruence.
Qed.

Lemma suggestion_get_one suggid l s :
  List.filter (fun x => suggestion_id x =? suggid) l = [s] ->
  suggestion_get suggid l = Ok (Some s).
Proof. unfold suggestion_get. now intros ->. Qed.

(** X25.  A review that goes through.  With a non-empty flag and exactly
    one suggestion of the unit under the given id, [reject_suggestion] and
    [accept_suggestion] answer 200 with the unit id, the suggestion id and
    the reviewer's score, and review that suggestion, once, in the name of
    the requester. *)
Theorem review_endpoints_done
        (public_score : UserId -> Z)
        (accepted_extras : Unit -> list (string * Json))
        (request : Request) (unit : Unit) (suggid : Z) (sugg : Suggestion) :
  List.filter (fun x => suggestion_id x =? suggid) (suggestion_set unit)
  = [sugg] ->
  (post_flag "reject" request = true ->
   reject_suggestion public_score request unit suggid
   = Ok (mkHttpResponse 200
           [("udbid", JInt (id unit)); ("sugid", JInt suggid);
            ("user_score", JInt (public_score (profile request)))],
         [SuggestionRejected (id unit) sugg (profile request)]))
  /\ (post_flag "accept" request = true ->
      accept_suggestion public_score accepted_extras request unit suggid
      = Ok (mkHttpResponse 200
              (dict_update
                 (accepted_extras unit)
                 [("udbid", JInt (id unit)); ("sugid", JInt suggid);
                  ("user_score", JInt (public_score (profile request)))]),
            [SuggestionAccepted (id unit) sugg (profile request)]))
  /\ suggestion_id sugg = suggid
  /\ In sugg (suggestion_set unit).
Proof.
  intros Hone.
  assert (Hin : In sugg (List.filter (fun x => suggestion_id x =? suggid)
                                     (suggestion_set unit)))
    by (rewrite Hone; now left).
  apply filter_In in Hin. destruct Hin as [Hin Hid]. apply Z.eqb_eq in Hid.
  split; [|split; [|split; assumption]].
  - intros Hf. unfold reject_suggestion.
    now rewrite Hf, (suggestion_get_one _ _ _ Hone).
  - intros Hf. unfold accept_suggestion.
    now rewrite Hf, (suggestion_get_one _ _ _ Hone).
Qed.

(** ** add_vfolders: names are lowercased *)

Section AddVFoldersFacts.

Variable validates : VirtualFolder -> bool.
Variable default_priority : Z.
Variable default_is_browsable : bool.
Variable default_description : string.

Local Abbreviation item_step :=
  (handle_item validates default_priority default_is_browsable
               default_description).
Local Abbreviation items_step :=
  (handle_items validates default_priority default_is_browsable
                default_description).
Local Abbreviation created :=
  (new_vfolder default_priority default_is_browsable default_description).
Local Abbreviation outcome :=
  (Outcome validates default_priority default_is_browsable
           default_description).

Ltac split_ifs :=
  repeat match goal with
         | |- context [if ?c then _ else _] => destruct c eqn:?
         end.

Lemma vfolder_get_found name location db v :
  vfolder_get name location db = Ok (Some v) ->
  List.filter (same_key name location) db = [v].
Proof.
  unfold vfolder_get.
  destruct (List.filter (same_key name location) db) as [|x [|y rest]];
    intros H; try discriminate H. now injection H as ->.
Qed.

Lemma vfolder_get_none name location db :
  vfolder_get name location db = Ok None ->
  List.filter (same_key name location) db = [].
Proof.
  unfold vfolder_get.
  destruct (List.filter (same_key name location) db) as [|x [|y rest]];
    intros H; try discriminate H. reflexivity.
Qed.

Lemma found_has_key name location db v :
  vfolder_get name location db = Ok (Some v) ->
  In v db /\ vf_name v = name /\ vf_location v = location.
Proof.
  intros H. apply vfolder_get_found in H.
  assert (Hin : In v (List.filter (same_key name location) db))
    by (rewrite H; now left).
  apply filter_In in Hin. destruct Hin as [Hin Hk]. split; [exact Hin|].
  unfold same_key in Hk. apply andb_true_iff in Hk. destruct Hk as [H1 H2].
  now apply String.eqb_eq in H1, H2.
Qed.


Lemma db_replace_length old new db :
  List.length (db_replace old new db) = List.length db.
Proof.
  induction db as [|x db IH]; simpl; [reflexivity|].
  destruct (same_key (vf_name old) (vf_location old) x); simpl; congruence.
Qed.

(** Replacing the row of a key by a row of the same key leaves as many
    rows under the key. *)
Lemma db_replace_filter old new db :
  same_key (vf_name old) (vf_location old) new = true ->
  List.filter (same_key (vf_name old) (vf_location old))
              (db_replace old new db)
  = match List.filter (same_key (vf_name old) (vf_location old)) db with
    | [] => []
    | _ :: rest => new :: rest
    end.
Proof.
  intros Hnew. induction db as [|x db IH]; simpl; [reflexivity|].
  destruct (same_key (vf_name old) (vf_location old) x) eqn:E; simpl.
  - now rewrite Hnew.
  - now rewrite E.
Qed.

Lemma filter_key_replace name location v new db :
  vfolder_get name location db = Ok (Some v) ->
  vf_name new = vf_name v -> vf_location new = vf_location v ->
  vfolder_get name location (db_replace v new db) = Ok (Some new).
Proof.
  intros G Hn Hl.
  destruct (found_has_key _ _ _ _ G) as (_ & Hvn & Hvl).
  pose proof (vfolder_get_found _ _ _ _ G) as F.
  unfold vfolder_get. rewrite <- Hvn, <- Hvl.
  rewrite db_replace_filter.
  - rewrite Hvn, Hvl, F. reflexivity.
  - unfold same_key. rewrite Hn, Hl. now rewrite !String.eqb_refl.
Qed.

Lemma vfolder_get_appended name location db w :
  vfolder_get name location db = Ok None ->
  vf_name w = name -> vf_location w = location ->
  vfolder_get name location (db ++ [w]) = Ok (Some w).
Proof.
  intros G Hn Hl. unfold vfolder_get.
  rewrite filter_app, (vfolder_get_none _ _ _ G). simpl.
  unfold same_key. now rewrite Hn, Hl, !String.eqb_refl.
Qed.

Lemma opt_differs_same {A} (eqb : A -> A -> bool) (current : A)
      (given : option A) :
  (forall x, eqb x x = true) ->
  opt_differs eqb (opt_or given current) given = false.
Proof.
  intros H. destruct given as [x|]; simpl; [|reflexivity]. now rewrite H.
Qed.


Lemma eqb_bool_refl (b : bool) : Bool.eqb b b = true.
Proof. now destruct b. Qed.


(** The row written over a folder changes nothing when the item is gone
    over again. *)
Lemma item_changes_updated v rules item :
  item_changes (updated_vfolder v rules item) rules item = false.
Proof.
  unfold item_changes, updated_vfolder. simpl.
  rewrite String.eqb_refl.
  rewrite (opt_differs_same Z.eqb _ _ Z.eqb_refl).
  rewrite (opt_differs_same Bool.eqb _ _ eqb_bool_refl).
  now rewrite (opt_differs_same String.eqb _ _ String.eqb_refl).
Qed.

Lemma created_fields name location rules item w :
  created name location rules item = Ok w ->
  item_other_keys item = []
  /\ w = mkVirtualFolder name location rules
           (opt_or (item_priority item) default_priority)
           (opt_or (item_is_browsable item) default_is_browsable)
           (opt_or (item_description item) default_description).
Proof.
  unfold new_vfolder. destruct (item_other_keys item); [|discriminate].
  now intros [= <-].
Qed.

Lemma item_changes_created name location rules item w :
  created name location rules item = Ok w ->
  item_changes w rules item = false.
Proof.
  intros H. apply created_fields in H. destruct H as [_ ->].
  unfold item_changes. simpl. rewrite String.eqb_refl.
  rewrite (opt_differs_same Z.eqb _ _ Z.eqb_refl).
  rewrite (opt_differs_same Bool.eqb _ _ eqb_bool_refl).
  now rewrite (opt_differs_same String.eqb _ _ String.eqb_refl).
Qed.

(** An item that goes through has a name, a location and filter rules. *)
Lemma handle_item_given st item st' :
  item_step st item = Ok st' ->
  exists name location rules,
    item_name item = Given name /\ item_location item = Some location
    /\ item_filter_rules item = Ok rules.
Proof.
  destruct st as [db counts].
  unfold handle_item, item_lower_name, item_location_key.
  destruct (item_name item) as [|name|]; simpl; try discriminate.
  destruct (item_filter_rules item) as [rules|e]; simpl; try discriminate.
  destruct (item_location item) as [location|]; simpl; try discriminate.
  intros _. eauto 6.
Qed.

(** The round of the loop for an item with a name, a location and filter
    rules. *)
Lemma handle_item_unfold db counts item name location rules :
  item_name item = Given name -> item_location item = Some location ->
  item_filter_rules item = Ok rules ->
  item_step (db, counts) item
  = (found <- vfolder_get (PyStr.lower name) location db ;;
     match found with
     | None =>
         vfolder <- created (PyStr.lower name) location rules item ;;
         if validates vfolder then
           Ok ((db ++ [vfolder])%list,
               mkCounts (added_count counts + 1) (updated_count counts)
                        (errored_count counts))
         else
           Ok (db, mkCounts (added_count counts) (updated_count counts)
                            (errored_count counts + 1))
     | Some vfolder =>
         if item_changes vfolder rules item then
           if validates (updated_vfolder vfolder rules item) then
             Ok (db_replace vfolder (updated_vfolder vfolder rules item) db,
                 mkCounts (added_count counts) (updated_count counts + 1)
                          (errored_count counts))
           else
             Ok (db, mkCounts (added_count counts) (updated_count counts)
                              (errored_count counts + 1))
         else Ok (db, counts)
     end).
Proof.
  intros Hn Hl Hr. unfold handle_item, item_lower_name, item_location_key.
  now rewrite Hn, Hr, Hl.
Qed.

Lemma handle_item_outcome db counts item db' counts' :
  item_step (db, counts) item = Ok (db', counts') ->
  exists name location rules,
    item_name item = Given name /\ item_location item = Some location
    /\ item_filter_rules item = Ok rules
    /\ outcome db counts (PyStr.lower name) location rules item db' counts'.
Proof.
  intros H.
  destruct (handle_item_given _ _ _ H) as (name & location & rules
                                           & Hn & Hl & Hr).
  exists name, location, rules. repeat (split; [assumption|]).
  rewrite (handle_item_unfold _ _ _ _ _ _ Hn Hl Hr) in H.
  destruct (vfolder_get (PyStr.lower name) location db)
    as [[v|]|e] eqn:G; simpl in H; [| |discriminate].
  - destruct (item_changes v rules item) eqn:C.
    + destruct (validates (updated_vfolder v rules item)) eqn:V;
        injection H as <- <-.
      * now apply Updated.
      * now apply UpdateRefused with v.
    + injection H as <- <-. now apply Unchanged with v.
  - destruct (created (PyStr.lower name) location rules item)
      as [w|e] eqn:N; simpl in H; [|discriminate].
    destruct (validates w) eqn:V; injection H as <- <-.
    + now apply Created.
    + now apply CreationRefused with w.
Qed.






(** One item moves at most one counter, by one, and the table grows by one
    row exactly when the item is counted as added. *)
Lemma handle_item_counts db counts item db' counts' :
  item_step (db, counts) item = Ok (db', counts') ->
  added_count counts <= added_count counts'
  /\ updated_count counts <= updated_count counts'
  /\ errored_count counts <= errored_count counts'
  /\ counted counts' <= counted counts + 1
  /\ Z.of_nat (List.length db')
     = Z.of_nat (List.length db) + (added_count counts' - added_count counts).
Proof.
  intros H. apply handle_item_outcome in H.
  destruct H as (name & location & rules & _ & _ & _ & O).
  unfold counted.
  destruct O; simpl; rewrite ?db_replace_length, ?length_app; simpl; lia.
Qed.

Lemma handle_items_counts items : forall db counts db' counts',
  items_step (db, counts) items = Ok (db', counts') ->
  added_count counts <= added_count counts'
  /\ updated_count counts <= updated_count counts'
  /\ errored_count counts <= errored_count counts'
  /\ counted counts' <= counted counts + Z.of_nat (List.length items)
  /\ Z.of_nat (List.length db')
     = Z.of_nat (List.length db) + (added_count counts' - added_count counts).
Proof.
  induction items as [|item items IH]; intros db counts db' counts'.
  - simpl. intros [= <- <-]. lia.
  - cbn [handle_items].
    destruct (item_step (db, counts) item) as [[db1 counts1]|e] eqn:E;
      simpl; [|discriminate].
    intros H. apply IH in H. apply handle_item_counts in E.
    cbn [List.length]. lia.
Qed.

(** X11.  The counters of a run.  None is negative, together they account
    for at most the items of the file, so that the number reported as
    unchanged is never negative, and the table has grown by exactly the
    number counted as added. *)
Theorem handle_counters (args : list string)
        (load : string -> option (list VFolderItem))
        (db db' : list VirtualFolder) (counts : Counts) :
  handle validates default_priority default_is_browsable default_description
         args load db = Ok (db', counts) ->
  exists filename vfolders,
    hd_error args = Some filename
    /\ load filename = Some vfolders
    /\ 0 <= added_count counts
    /\ 0 <= updated_count counts
    /\ 0 <= errored_count counts
    /\ 0 <= Z.of_nat (List.length vfolders) - errored_count counts
            - added_count counts - updated_count counts
    /\ Z.of_nat (List.length db')
       = Z.of_nat (List.length db) + added_count counts.
Proof.
  unfold handle. destruct args as [|filename rest]; [discriminate|].
  destruct (load filename) as [vfolders|] eqn:L; [|discriminate].
  intros H. apply handle_items_counts in H. unfold counted in H. simpl in H.
  exists filename, vfolders.
  split; [reflexivity|]. split; [exact L|]. repeat split; lia.
Qed.

(** X12.  Going over an item a second time changes nothing in the table:
    whatever the first pass did with the item (created its folder, updated
    it, left it, or was refused by validation), the second pass leaves the
    table as the first one left it, and adds and updates nothing. *)
Theorem handle_item_twice (st st1 : list VirtualFolder * Counts)
        (item : VFolderItem) :
  item_step st item = Ok st1 ->
  exists st2,
    item_step st1 item = Ok st2
    /\ fst st2 = fst st1
    /\ added_count (snd st2) = added_count (snd st1)
    /\ updated_count (snd st2) = updated_count (snd st1).
Proof.
  destruct st as [db counts], st1 as [db1 counts1]. intros H.
  apply handle_item_outcome in H.
  destruct H as (name & location & rules & Hn & Hl & Hr & O).
  rewrite (handle_item_unfold _ _ _ _ _ _ Hn Hl Hr).
  destruct O as [w G N V|w G N V|v G C V|v G C V|v G C].
  - (* created: the second pass finds the new row, and no difference *)
    pose proof (item_changes_created _ _ _ _ _ N) as C.
    apply created_fields in N. destruct N as [_ Hw].
    rewrite (vfolder_get_appended _ _ db w G) by (now rewrite Hw).
    simpl. rewrite C. eexists. repeat split.
  - (* refused: the second pass is refused again *)
    rewrite G. simpl. rewrite N. simpl. rewrite V. eexists. repeat split.
  - (* updated: the second pass finds the new row, and no difference *)
    rewrite (filter_key_replace _ _ v (updated_vfolder v rules item) db G
                                eq_refl eq_refl). simpl.
    rewrite item_changes_updated. eexists. repeat split.
  - rewrite G. simpl. rewrite C, V. eexists. repeat split.
  - rewrite G. simpl. rewrite C. eexists. repeat split.
Qed.

Lemma db_replace_keys old new db :
  vf_key new = vf_key old ->
  map vf_key (db_replace old new db) = map vf_key db.
Proof.
  intros Hk. induction db as [|x db IH]; simpl; [reflexivity|].
  destruct (same_key (vf_name old) (vf_location old) x) eqn:E; simpl.
  - f_equal. rewrite Hk. unfold same_key in E.
    apply andb_true_iff in E. destruct E as [E1 E2].
    apply String.eqb_eq in E1, E2. unfold vf_key. congruence.
  - now rewrite IH.
Qed.

(** One item leaves the keys of the table in place and adds at most its
    own key, after them. *)
Lemma handle_item_keys db counts item db' counts' :
  item_step (db, counts) item = Ok (db', counts') ->
  map vf_key db' = map vf_key db
  \/ exists key, map vf_key db' = (map vf_key db ++ [key])%list
                 /\ ~ In key (map vf_key db).
Proof.
  intros H. apply handle_item_outcome in H.
  destruct H as (name & location & rules & _ & _ & _ & O).
  destruct O as [w G N V|w G N V|v G C V|v G C V|v G C]; auto.
  - right. exists (PyStr.lower name, location).
    apply created_fields in N. destruct N as [_ ->].
    rewrite map_app. split; [reflexivity|].
    intros Hin. apply in_map_iff in Hin. destruct Hin as [x [Hx Hin]].
    apply vfolder_get_none in G.
    assert (Hf : In x (List.filter (same_key (PyStr.lower name) location)
                                   db)).
    { apply filter_In. split; [exact Hin|].
      unfold vf_key in Hx. injection Hx as Hxn Hxl.
      unfold same_key. now rewrite Hxn, Hxl, !String.eqb_refl. }
    rewrite G in Hf. destruct Hf.
  - left. now apply db_replace_keys.
Qed.

(** X13.  The command never deletes a folder and never changes the name or
    the location of one: the keys of the table it leaves start with the
    keys of the table it found, in the same order, any new ones after
    them. *)
Theorem handle_items_keep_keys (items : list VFolderItem) :
  forall st st',
    items_step st items = Ok st' ->
    exists added,
      map vf_key (fst st') = (map vf_key (fst st) ++ added)%list.
Proof.
  induction items as [|item items IH]; intros [db counts] st'.
  - simpl. intros [= <-]. exists []. now rewrite app_nil_r.
  - cbn [handle_items].
    destruct (item_step (db, counts) item) as [[db1 counts1]|e] eqn:E;
      simpl; [|discriminate].
    intros H. apply IH in H. destruct H as [added H]. simpl in H.
    apply handle_item_keys in E. destruct E as [E|[key [E _]]];
      rewrite E in H.
    + now exists added.
    + rewrite <- app_assoc in H. eauto.
Qed.

Lemma unique_lookup name location db :
  unique_keys db ->
  exists found, vfolder_get name location db = Ok found.
Proof.
  unfold unique_keys, vfolder_get. intros Hu.
  assert (H : (List.length
                 (List.filter (same_key name location) db) <= 1)%nat).
  { induction db as [|x db IH]; simpl; [lia|].
    inversion Hu as [|k ks Hnot Hrest]; subst.
    destruct (same_key name location x) eqn:E; [|now apply IH].
    simpl. rewrite filter_absent; [simpl; lia|].
    intros y Hy. destruct (same_key name location y) eqn:Ey; [|reflexivity].
    exfalso. apply Hnot. apply in_map_iff. exists y. split; [|exact Hy].
    unfold same_key in E, Ey.
    apply andb_true_iff in E, Ey. destruct E as [E1 E2], Ey as [Y1 Y2].
    apply String.eqb_eq in E1, E2, Y1, Y2. unfold vf_key. congruence. }
  destruct (List.filter (same_key name location) db) as [|x [|y rest]];
    simpl in H; eauto. lia.
Qed.

Lemma handle_item_keeps_unique db counts item st' :
  unique_keys db ->
  item_step (db, counts) item = Ok st' ->
  unique_keys (fst st').
Proof.
  intros Hu H. destruct st' as [db' counts']. simpl.
  unfold unique_keys in *.
  apply handle_item_keys in H. destruct H as [->|[key [-> Hnot]]];
    [exact Hu|].
  apply NoDup_rev in Hu. rewrite <- (rev_involutive (_ ++ _)%list).
  apply NoDup_rev. rewrite rev_app_distr. simpl.
  constructor; [|exact Hu]. now rewrite <- in_rev.
Qed.

(** On a table with unique keys an item fails only for what it lacks. *)
Lemma handle_item_raises db counts item e :
  unique_keys db ->
  item_step (db, counts) item = Raise e ->
  (e = KeyError /\ (item_name item = Missing \/ item_location item = None))
  \/ (e = AttributeError /\ item_name item = Malformed)
  \/ (e = TypeError
      /\ (item_files item = Malformed \/ item_other_keys item <> [])).
Proof.
  intros Hu. unfold handle_item, item_lower_name, item_filter_rules,
               item_location_key.
  destruct (item_name item) as [|name|]; simpl;
    [intros [= <-]; auto | | intros [= <-]; auto].
  destruct (item_files item) as [|files|]; simpl;
    try (intros [= <-]; now auto);
    (destruct (item_location item) as [location|]; simpl;
     [|intros [= <-]; now auto]);
    (destruct (unique_lookup (PyStr.lower name) location db Hu)
      as [found ->]; simpl);
    (destruct found as [v|];
     [split_ifs; discriminate|]);
    unfold new_vfolder;
    (destruct (item_other_keys item); simpl;
     [split_ifs; discriminate|]);
    intros [= <-]; right; right; split; auto; right; discriminate.
Qed.

Lemma handle_item_complete db counts item :
  unique_keys db -> complete_item item ->
  exists st', item_step (db, counts) item = Ok st'.
Proof.
  intros Hu ((name & Hn) & (location & Hl) & Hf & Hk).
  assert (Hr : exists rules, item_filter_rules item = Ok rules).
  { unfold item_filter_rules.
    destruct (item_files item); [eauto | eauto | now elim Hf]. }
  destruct Hr as [rules Hr].
  rewrite (handle_item_unfold _ _ _ _ _ _ Hn Hl Hr).
  destruct (unique_lookup (PyStr.lower name) location db Hu)
    as [found ->]; simpl.
  destruct found as [v|]; [split_ifs; eauto|].
  unfold new_vfolder. rewrite Hk. simpl. split_ifs; eauto.
Qed.

(** X14.  On a table in which no two folders share name and location the
    lookup never finds several folders.  The loop over the items then
    either completes, leaving a table with the same property, or ends at
    an item that lacks something: in a [KeyError] for a missing name or
    location, an [AttributeError] for a name that is no text, a
    [TypeError] for files that are no sequence of texts or for a member
    the model has no field for.  It completes when every item has a name,
    a location, well-formed files (or none) and no such member. *)
Theorem handle_items_unique (items : list VFolderItem) :
  forall db counts,
    unique_keys db ->
    match items_step (db, counts) items with
    | Ok st' => unique_keys (fst st')
    | Raise e =>
        exists item,
          In item items
          /\ ((e = KeyError
               /\ (item_name item = Missing \/ item_location item = None))
              \/ (e = AttributeError /\ item_name item = Malformed)
              \/ (e = TypeError
                  /\ (item_files item = Malformed
                      \/ item_other_keys item <> [])))
    end
    /\ ((forall item, In item items -> complete_item item) ->
        exists st', items_step (db, counts) items = Ok st').
Proof.
  induction items as [|item items IH]; intros db counts Hu.
  - simpl. split; [exact Hu|]. eauto.
  - cbn [handle_items].
    destruct (item_step (db, counts) item) as [[db1 counts1]|e] eqn:E;
      simpl.
    + pose proof (handle_item_keeps_unique _ _ _ _ Hu E) as Hu1.
      simpl in Hu1. destruct (IH db1 counts1 Hu1) as [Hm Hc]. split.
      * destruct (items_step (db1, counts1) items) as [st'|e];
          [exact Hm|].
        destruct Hm as [x [Hx Hm]]. exists x. split; [now right|exact Hm].
      * intros Hall. apply Hc. intros x Hx. apply Hall. now right.
    + split.
      * exists item. split; [now left|].
        now apply (handle_item_raises db counts).
      * intros Hall.
        destruct (handle_item_complete db counts item Hu
                                       (Hall item (or_introl eq_refl)))
          as [st' Hst]. congruence.
Qed.

End AddVFoldersFacts.

(** ** Further properties of the views *)

(** Of the filters the step query knows, the suggestion filters are the
    ones [get_filter_name] has no name for. *)
Lemma unnamed_recognised_filters (filter : string) :
  PyStr.mem filter recognised_filters = true ->
  (PyStr.mem filter named_filters = false
   <-> In filter ["suggestions"; "my-suggestions"; "user-suggestions";
                  "user-suggestions-accepted"; "user-suggestions-rejected"]).
Proof.
  intros H. apply mem_In in H. unfold recognised_filters in H. simpl in H.
  repeat (destruct H as [<-|H];
          [vm_compute; split;
           [intros E; first [discriminate E | tauto]
           |intros E; first [reflexivity | exfalso; intuition discriminate]]
          |]).
  destruct H.
Qed.

(** X9.  The display name of a filter.  A [filter] value gets a name
    exactly when it is one of the eleven named ones; of the values the step
    query knows, the five suggestion filters are the ones without a name.
    A filter starting with [user-] gets one extra argument, the [user]
    parameter or the text for a missing user. *)
Theorem get_filter_name_coverage
        (gettext : string -> string) (check_names : string -> option string)
        (GET : QueryDict) (filter : string) :
  QD.get "filter" GET = Some filter ->
  (fst (get_filter_name gettext check_names GET) <> None
   <-> PyStr.mem filter named_filters = true)
  /\ (PyStr.mem filter recognised_filters = true ->
      (fst (get_filter_name gettext check_names GET) = None
       <-> In filter ["suggestions"; "my-suggestions"; "user-suggestions";
                      "user-suggestions-accepted";
                      "user-suggestions-rejected"]))
  /\ (String.prefix "user-" filter = true ->
      snd (get_filter_name gettext check_names GET)
      = Some [match QD.get "user" GET with
              | Some user => user
              | None => gettext "User missing"
              end]).
Proof.
  intros Hf.
  assert (Hname : fst (get_filter_name gettext check_names GET) <> None
                  <-> PyStr.mem filter named_filters = true).
  { unfold get_filter_name. rewrite Hf.
    destruct (String.prefix "user-" filter);
      [|destruct (String.eqb filter "checks" && QD.contains "checks" GET)];
      cbn [fst]; apply dict_get_mem. }
  split; [exact Hname|]. split.
  - intros Hrec. rewrite <- (unnamed_recognised_filters _ Hrec).
    destruct (fst (get_filter_name gettext check_names GET)) eqn:E;
      destruct (PyStr.mem filter named_filters) eqn:M;
      split; try congruence; intros _; exfalso.
    + assert (H : Some s <> None) by discriminate.
      apply Hname in H. congruence.
    + assert (H : true = true) by reflexivity.
      apply Hname in H. congruence.
  - intros Hp. unfold get_filter_name. now rewrite Hf, Hp.
Qed.

(** ** Context units *)

Lemma firstn_incl {A} (n : nat) (l : list A) (x : A) :
  In x (firstn n l) -> In x l.
Proof.
  revert l. induction n as [|n IH]; intros [|y l]; simpl; try tauto.
  intros [H|H]; auto.
Qed.

Lemma skipn_incl {A} (n : nat) (l : list A) (x : A) :
  In x (skipn n l) -> In x l.
Proof.
  revert l. induction n as [|n IH]; intros [|y l]; simpl; try tauto.
  intros H. right. now apply IH.
Qed.

Lemma sorted_app_cross {A} (R : A -> A -> Prop) (l1 l2 : list A) :
  StronglySorted R (l1 ++ l2) ->
  forall x y, In x l1 -> In y l2 -> R x y.
Proof.
  induction l1 as [|a l1 IH]; simpl; intros H x y Hx Hy; [destruct Hx|].
  inversion H as [|b l Hs Hall]; subst. destruct Hx as [<-|Hx].
  - rewrite Forall_forall in Hall. apply Hall. apply in_or_app. now right.
  - now apply IH.
Qed.

Lemma sorted_app_l {A} (R : A -> A -> Prop) (l1 l2 : list A) :
  StronglySorted R (l1 ++ l2) -> StronglySorted R l1.
Proof.
  induction l1 as [|a l1 IH]; simpl; intros H; [constructor|].
  inversion H as [|b l Hs Hall]; subst. constructor; [now apply IH|].
  rewrite Forall_forall in *. intros x Hx. apply Hall, in_or_app. now left.
Qed.

Lemma sorted_app_r {A} (R : A -> A -> Prop) (l1 l2 : list A) :
  StronglySorted R (l1 ++ l2) -> StronglySorted R l2.
Proof.
  induction l1 as [|a l1 IH]; simpl; intros H; [exact H|].
  inversion H; subst. now apply IH.
Qed.

Lemma sorted_firstn {A} (R : A -> A -> Prop) (n : nat) (l : list A) :
  StronglySorted R l -> StronglySorted R (firstn n l).
Proof.
  intros H. rewrite <- (firstn_skipn n l) in H. now apply sorted_app_l in H.
Qed.

Lemma sorted_skipn {A} (R : A -> A -> Prop) (n : nat) (l : list A) :
  StronglySorted R l -> StronglySorted R (skipn n l).
Proof.
  intros H. rewrite <- (firstn_skipn n l) in H. now apply sorted_app_r in H.
Qed.

Lemma sorted_snoc {A} (R : A -> A -> Prop) (l : list A) (x : A) :
  StronglySorted R l -> (forall y, In y l -> R y x) ->
  StronglySorted R (l ++ [x]).
Proof.
  induction 1 as [|a l Hs IH Hall]; simpl; intros Hx.
  - repeat constructor.
  - constructor; [apply IH; auto|].
    apply Forall_forall. intros y Hy. apply in_app_or in Hy.
    destruct Hy as [Hy|[<-|[]]].
    + rewrite Forall_forall in Hall. now apply Hall.
    + apply Hx. now left.
Qed.

Lemma sorted_rev {A} (R : A -> A -> Prop) (l : list A) :
  StronglySorted R l -> StronglySorted (fun x y => R y x) (rev l).
Proof.
  induction 1 as [|a l Hs IH Hall]; simpl; [constructor|].
  apply sorted_snoc; [exact IH|].
  intros y Hy. apply in_rev in Hy. rewrite Forall_forall in Hall.
  now apply Hall.
Qed.

Lemma py_slice_incl {A} (b e : Z) (l : list A) (x : A) :
  In x (py_slice b e l) -> In x l.
Proof.
  unfold py_slice. intros H. apply firstn_incl, skipn_incl in H. exact H.
Qed.

Lemma py_slice_sorted {A} (R : A -> A -> Prop) (b e : Z) (l : list A) :
  StronglySorted R l -> StronglySorted R (py_slice b e l).
Proof. intros H. unfold py_slice. now apply sorted_firstn, sorted_skipn. Qed.

Lemma py_slice_length {A} (gap how_many : Z) (l : list A) :
  0 <= gap -> 0 <= how_many ->
  Z.of_nat (List.length (py_slice gap (how_many + gap) l)) <= how_many.
Proof.
  intros Hg Hh. unfold py_slice, py_bound.
  destruct (gap <? 0) eqn:Eg; [apply Z.ltb_lt in Eg; lia|].
  destruct (how_many + gap <? 0) eqn:Ee; [apply Z.ltb_lt in Ee; lia|].
  match goal with
  | |- context [firstn ?n ?m] => pose proof (firstn_le_length n m)
  end. lia.
Qed.

Section ContextFacts.

Variable db : Database.
Variable store_id : Unit -> Z.
Variable index : Unit -> Z.
Variable py_int : string -> option Z.

Local Abbreviation ctx_units := (_filter_ctx_units db store_id index).
Local Abbreviation preceding := (preceding db store_id index).
Local Abbreviation following := (following store_id index).

Lemma preceding_In units_qs unit u :
  In u (preceding units_qs unit)
  <-> In u (QS.evaluate units_qs)
      /\ store_id u = store_id unit /\ index u < index unit.
Proof.
  unfold preceding. split.
  - intros H. apply (Permutation_in _ (evaluate_order_rows_perm _ _ _ _ _)) in H.
    rewrite evaluate_filter in H. apply filter_In in H.
    destruct H as [H E]. apply andb_true_iff in E.
    rewrite Z.eqb_eq, Z.ltb_lt in E. tauto.
  - intros (H & Hs & Hi).
    apply (Permutation_in _ (Permutation_sym
                               (evaluate_order_rows_perm _ _ _ _ _))).
    rewrite evaluate_filter. apply filter_In. split; [exact H|].
    apply andb_true_iff. now rewrite Z.eqb_eq, Z.ltb_lt.
Qed.

Lemma following_In units_qs unit u :
  In u (following units_qs unit)
  <-> In u (QS.evaluate units_qs)
      /\ store_id u = store_id unit /\ index unit < index u.
Proof.
  unfold following. rewrite evaluate_filter, filter_In, andb_true_iff.
  rewrite Z.eqb_eq, Z.ltb_lt. tauto.
Qed.

Lemma preceding_sorted units_qs unit :
  StronglySorted (fun u v => index v <= index u) (preceding units_qs unit).
Proof.
  unfold preceding.
  eapply sorted_impl; [|apply evaluate_order_rows_desc].
  intros u v. simpl. apply Z.leb_le.
Qed.

(** What [_filter_ctx_units] computes for bounds that are not negative. *)
Lemma filter_ctx_units_value units_qs unit how_many gap :
  0 <= gap -> 0 <= how_many ->
  ctx_units units_qs unit how_many gap
  = Some (mkCtxRows
            (if negb (how_many =? 0) && (0 <? index unit - gap)
             then rev (py_slice gap (how_many + gap)
                                (preceding units_qs unit))
             else [])
            (if negb (how_many =? 0)
             then py_slice gap (how_many + gap) (following units_qs unit)
             else [])).
Proof.
  intros Hg Hh. unfold _filter_ctx_units, qs_slice, _build_units_list.
  fold (preceding units_qs unit). fold (following units_qs unit).
  destruct (gap <? 0) eqn:Eg; [apply Z.ltb_lt in Eg; lia|].
  destruct (how_many + gap <? 0) eqn:Ee; [apply Z.ltb_lt in Ee; lia|].
  simpl.
  destruct (negb (how_many =? 0)); simpl;
    [destruct (0 <? index unit - gap)|]; reflexivity.
Qed.

(** X18.  The context rows around a unit, for a gap and a number of rows
    that are not negative.  There are at most [how_many] rows on each side;
    the rows before are units of the same store with a smaller index, in
    ascending index order, the rows after are units of the same store with
    a larger index; without a gap the rows before are the nearest ones: no
    unit left out lies closer to the unit than a row that is shown; and
    there is no row before a unit whose index does not exceed the gap. *)
Theorem filter_ctx_units_rows
        (units_qs : QuerySet) (unit : Unit) (how_many gap : Z) :
  0 <= gap -> 0 <= how_many ->
  exists rows,
    ctx_units units_qs unit how_many gap = Some rows
    /\ Z.of_nat (List.length (before rows)) <= how_many
    /\ Z.of_nat (List.length (after rows)) <= how_many
    /\ (forall u, In u (before rows) ->
                  In u (QS.evaluate units_qs)
                  /\ store_id u = store_id unit /\ index u < index unit)
    /\ (forall u, In u (after rows) ->
                  In u (QS.evaluate units_qs)
                  /\ store_id u = store_id unit /\ index unit < index u)
    /\ StronglySorted (fun u v => index u <= index v) (before rows)
    /\ (gap = 0 ->
        forall u v,
          In u (before rows) ->
          In v (QS.evaluate units_qs) ->
          store_id v = store_id unit -> index v < index unit ->
          ~ In v (before rows) ->
          index v <= index u)
    /\ (index unit - gap <= 0 -> before rows = []).
Proof.
  intros Hg Hh. eexists. split; [now apply filter_ctx_units_value|].
  simpl. split; [|split; [|split; [|split; [|split; [|split]]]]].
  - destruct (negb (how_many =? 0) && (0 <? index unit - gap));
      [|simpl; lia].
    rewrite length_rev. now apply py_slice_length.
  - destruct (negb (how_many =? 0)); [|simpl; lia].
    now apply py_slice_length.
  - intros u Hu.
    destruct (negb (how_many =? 0) && (0 <? index unit - gap));
      [|destruct Hu].
    apply in_rev, py_slice_incl in Hu. now apply preceding_In.
  - intros u Hu. destruct (negb (how_many =? 0)); [|destruct Hu].
    apply py_slice_incl in Hu. now apply following_In.
  - destruct (negb (how_many =? 0) && (0 <? index unit - gap));
      [|constructor].
    apply (sorted_rev (fun u v => index v <= index u)).
    apply py_slice_sorted, preceding_sorted.
  - intros -> u v Hu Hv Hs Hi Hnot.
    destruct (negb (how_many =? 0) && (0 <? index unit - 0));
      [|destruct Hu].
    rewrite Z.add_0_r, py_slice_head in Hu, Hnot by exact Hh.
    apply in_rev in Hu.
    assert (Hv' : In v (preceding units_qs unit))
      by (apply preceding_In; tauto).
    pose proof (preceding_sorted units_qs unit) as Hsorted.
    rewrite <- (firstn_skipn (Z.to_nat how_many) (preceding units_qs unit))
      in Hsorted, Hv'.
    apply in_app_or in Hv'. destruct Hv' as [Hv'|Hv'].
    + elim Hnot. now apply in_rev in Hv'.
    + apply (sorted_app_cross _ _ _ Hsorted u v Hu Hv').
  - intros Hi. destruct (0 <? index unit - gap) eqn:E.
    + apply Z.ltb_lt in E. lia.
    + now rewrite andb_false_r.
Qed.

(** X19.  [get_more_context].  Without [gap] and [qty] it answers with at
    most one row on each side.  A [gap] or [qty] that is no integer ends in
    a [ValueError], and a negative [gap] with a [qty] other than zero in
    the refusal of a negative query set bound. *)
Theorem get_more_context_bounds
        (request : Request) (store_units : QuerySet) (unit : Unit) :
  (QD.get "gap" (GET request) = None ->
   QD.get "qty" (GET request) = None ->
   exists rows,
     get_more_context db store_id index py_int request store_units unit
     = CtxOk rows
     /\ (List.length (before rows) <= 1)%nat
     /\ (List.length (after rows) <= 1)%nat)
  /\ (get_int py_int "gap" 0 (GET request) = None
      \/ get_int py_int "qty" 1 (GET request) = None ->
      get_more_context db store_id index py_int request store_units unit
      = CtxValueError)
  /\ (forall gap qty,
         get_int py_int "gap" 0 (GET request) = Some gap ->
         get_int py_int "qty" 1 (GET request) = Some qty ->
         gap < 0 -> qty <> 0 ->
         get_more_context db store_id index py_int request store_units unit
         = CtxAssertionError).
Proof.
  unfold get_more_context. split; [|split].
  - intros Hg Hq. unfold get_int. rewrite Hg, Hq.
    rewrite filter_ctx_units_value by lia.
    eexists. split; [reflexivity|]. simpl.
    pose proof (py_slice_length 0 1 (preceding store_units unit)) as H1.
    pose proof (py_slice_length 0 1 (following store_units unit)) as H2.
    simpl in H1, H2.
    destruct (0 <? index unit - 0); simpl; rewrite ?length_rev; lia.
  - intros [H|H].
    + now rewrite H.
    + rewrite H. now destruct (get_int py_int "gap" 0 (GET request)).
  - intros gap qty -> -> Hg Hq.
    unfold _filter_ctx_units, qs_slice.
    apply Z.ltb_lt in Hg. rewrite Hg. simpl.
    apply Z.eqb_neq in Hq. rewrite Hq. simpl.
    now destruct (0 <? index unit - gap).
Qed.

(** X20.  When [get_edit_unit] attaches context rows: exactly when
    [_is_filtered] holds for the request and the [ctxShow] cookie is absent
    or [true]; the further test on the filter value never decides.  For a
    terminology resource the rows attached are none. *)
Theorem get_edit_unit_ctx_shown
        (request : Request) (COOKIES : list (string * string))
        (is_terminology : bool) (store_units : QuerySet) (unit : Unit) :
  (get_edit_unit_ctx db store_id index py_int request COOKIES is_terminology
                     store_units unit <> None
   <-> _is_filtered request = true
       /\ (dict_get "ctxShow" COOKIES = None
           \/ dict_get "ctxShow" COOKIES = Some "true"))
  /\ (is_terminology = true ->
      get_edit_unit_ctx db store_id index py_int request COOKIES is_terminology
                        store_units unit <> None ->
      get_edit_unit_ctx db store_id index py_int request COOKIES is_terminology
                        store_units unit
      = Some (CtxOk (mkCtxRows [] []))).
Proof.
  assert (Hred : (_is_filtered request
                  || negb (PyStr.mem
                             match QD.get "filter" (GET request) with
                             | Some f => f
                             | None => "all"
                             end ["all"]))
                 = _is_filtered request).
  { destruct (_is_filtered request) eqn:E; [reflexivity|]. simpl.
    destruct (QD.get "filter" (GET request)) as [f|] eqn:F; [|reflexivity].
    apply QD_get_contains in F. unfold _is_filtered in E.
    rewrite F in E. discriminate E. }
  unfold get_edit_unit_ctx. rewrite Hred.
  destruct (_is_filtered request); simpl.
  - destruct (dict_get "ctxShow" COOKIES) as [v|] eqn:C.
    + destruct (String.eqb_spec v "true") as [->|Hv].
      * split.
        -- split; [intros _; split; auto|intros _].
           destruct is_terminology; [discriminate|].
           destruct (match dict_get "ctxQty" COOKIES with
                     | Some text => py_int text
                     | None => Some 1
                     end); discriminate.
        -- intros -> _. reflexivity.
      * split.
        -- split; [intros H; now elim H|].
           intros [_ [H|H]]; [discriminate H|]. injection H as ->.
           now elim Hv.
        -- intros _ H. now elim H.
    + simpl. split.
      * split; [intros _; split; auto|intros _].
        destruct is_terminology; [discriminate|].
        destruct (match dict_get "ctxQty" COOKIES with
                  | Some text => py_int text
                  | None => Some 1
                  end); discriminate.
      * intros -> _. reflexivity.
  - split.
    + split; [intros H; now elim H | intros [H _]; discriminate H].
    + intros _ H. now elim H.
Qed.

End ContextFacts.

(** ** The browser tables *)

Lemma NoDup_map_filter {A B} (f : A -> B) (p : A -> bool) (l : list A) :
  NoDup (map f l) -> NoDup (map f (List.filter p l)).
Proof.
  induction l as [|x l IH]; simpl; intros H; [constructor|].
  inversion H as [|y ys Hnot Hrest]; subst.
  destruct (p x); simpl; [|now apply IH].
  constructor; [|now apply IH].
  intros Hin. apply Hnot. apply in_map_iff in Hin.
  destruct Hin as [z [Hz Hin]]. apply filter_In in Hin.
  apply in_map_iff. exists z. tauto.
Qed.

Lemma mem_same (s : string) (l l' : list string) :
  (forall c, In c l <-> In c l') -> PyStr.mem s l = PyStr.mem s l'.
Proof.
  intros H. destruct (PyStr.mem s l) eqn:E.
  - symmetry. apply mem_In, H, mem_In, E.
  - destruct (PyStr.mem s l') eqn:E'; [|reflexivity].
    apply mem_In, H, mem_In in E'. congruence.
Qed.

(** X21.  The table headings for a list of choices are the headings whose
    id is chosen, in the fixed order of the heading table and each once:
    the order of the choices, repeated choices and unknown ids make no
    difference. *)
Theorem get_table_headings_fixed_order (choices : list string) :
  (forall h, In h (get_table_headings choices)
             <-> In h HEADING_CHOICES /\ In (heading_id h) choices)
  /\ NoDup (map heading_id (get_table_headings choices))
  /\ (forall choices',
         (forall c, In c HEADING_CHOICES ->
                    (In (heading_id c) choices
                     <-> In (heading_id c) choices')) ->
         get_table_headings choices = get_table_headings choices')
  /\ (List.length (get_table_headings choices) <= 10)%nat.
Proof.
  unfold get_table_headings. split; [|split; [|split]].
  - intros h. rewrite filter_In, mem_In. tauto.
  - apply NoDup_map_filter. unfold HEADING_CHOICES. simpl.
    repeat (constructor; [simpl; intuition discriminate|]). constructor.
  - intros choices' H. apply filter_ext_in. intros h Hh.
    destruct (PyStr.mem (heading_id h) choices) eqn:E.
    + symmetry. apply mem_In, (H h Hh), mem_In, E.
    + destruct (PyStr.mem (heading_id h) choices') eqn:E'; [|reflexivity].
      apply mem_In, (H h Hh), mem_In in E'. congruence.
  - apply (filter_length_le _ HEADING_CHOICES).
Qed.

(** X22.  The rows of a directory listing: one row per child, the
    directories first and then the stores, each with the link of its child;
    directory rows carry the folder icon and store rows the file icon; and
    the links to incomplete units of a directory sort by priority exactly
    when virtual folders match the directory, while its view-all link never
    does. *)
Theorem get_children_rows
        (matching_vfolders : string -> Z)
        (child_dirs child_stores : list PathObj) :
  map (dict_get "href")
      (get_children matching_vfolders child_dirs child_stores)
  = map (fun child => Some (IStr (get_absolute_url child)))
        (child_dirs ++ child_stores)%list
  /\ map (dict_get "icon")
         (get_children matching_vfolders child_dirs child_stores)
     = (map (fun _ => Some (IStr "folder")) child_dirs
        ++ map (fun _ => Some (IStr "file")) child_stores)%list
  /\ (forall d,
         In d child_dirs ->
         dict_get "href_todo" (make_directory_item matching_vfolders d)
         = Some (IStr (get_translate_url d
                         (("state", "incomplete")
                          :: (if matching_vfolders (pootle_path d) =? 0
                              then [] else [("sort", "priority")]))))
         /\ dict_get "href_all" (make_directory_item matching_vfolders d)
            = Some (IStr (get_translate_url d []))).
Proof.
  unfold get_children. rewrite !map_app, !map_map. split; [|split].
  - f_equal; apply map_ext; intros child; reflexivity.
  - f_equal; apply map_ext; intros child; reflexivity.
  - intros d _. unfold make_directory_item.
    destruct (matching_vfolders (pootle_path d) =? 0); split; reflexivity.
Qed.

(** ** The timeline *)

Section TimelineFacts.

Variable Entry : Type.
Variables TARGET STATE COMMENT NONE : Z.
Variable system_user : UserId.

Local Abbreviation sub := (TimelineSub Entry).
Local Abbreviation subs_of :=
  (timeline_submissions Entry TARGET STATE COMMENT NONE).

Lemma insert_by_id_perm (s : sub) l :
  Permutation (insert_by_id Entry s l) (s :: l).
Proof.
  induction l as [|t l IH]; simpl; [reflexivity|].
  destruct (sub_id s <=? sub_id t); [reflexivity|].
  rewrite IH. apply perm_swap.
Qed.

Lemma order_by_id_perm (l : list sub) : Permutation (order_by_id Entry l) l.
Proof.
  induction l as [|s l IH]; simpl; [reflexivity|].
  rewrite insert_by_id_perm. now constructor.
Qed.

Lemma insert_by_id_sorted (s : sub) l :
  StronglySorted (fun a b : sub => sub_id a <= sub_id b) l ->
  StronglySorted (fun a b : sub => sub_id a <= sub_id b)
                 (insert_by_id Entry s l).
Proof.
  induction 1 as [|t l Hs IH Hall]; simpl.
  - repeat constructor.
  - destruct (sub_id s <=? sub_id t) eqn:E.
    + apply Z.leb_le in E. constructor; [now constructor|].
      constructor; [exact E|].
      eapply Forall_impl; [|exact Hall]. intros w Hw. simpl in *. lia.
    + apply Z.leb_gt in E. constructor; [exact IH|].
      eapply Permutation_Forall; [symmetry; apply insert_by_id_perm|].
      constructor; [lia | exact Hall].
Qed.

Lemma order_by_id_sorted (l : list sub) :
  StronglySorted (fun a b : sub => sub_id a <= sub_id b)
                 (order_by_id Entry l).
Proof.
  induction l as [|s l IH]; simpl; [constructor|].
  now apply insert_by_id_sorted.
Qed.

Lemma group_runs_concat (l : list sub) :
  List.concat (group_runs Entry l) = l.
Proof.
  induction l as [|s l IH]; simpl; [reflexivity|].
  destruct (group_runs Entry l) as [|[|t run] groups]; simpl in *.
  - now subst.
  - now rewrite IH.
  - destruct (same_group Entry s t); simpl; now rewrite <- IH.
Qed.

Lemma entry_groups_entries (runs : list (list sub)) :
  List.concat (map (@entries Entry)
                   (map (entry_group Entry system_user) runs))
  = map sub_entry (List.concat runs).
Proof.
  induction runs as [|run runs IH]; simpl; [reflexivity|].
  now rewrite IH, map_app.
Qed.

Lemma add_created_head (creation_time : option DateTime)
      (eg : list (EntryGroup Entry)) :
  Forall (fun g => group_created g = false) eg ->
  exists x tail,
    add_created Entry system_user creation_time eg = x :: tail
    /\ group_created x = true
    /\ group_datetime x = creation_time
    /\ Forall (fun g => group_created g = false) tail
    /\ List.concat (map (@entries Entry) (x :: tail))
       = List.concat (map (@entries Entry) eg).
Proof.
  intros Hfalse. unfold add_created.
  destruct eg as [|g rest]; [|destruct creation_time as [c|];
    [destruct (group_datetime g) as [t|] eqn:D;
     [destruct (t =? c) eqn:E|]|]];
    eexists; eexists; (split; [reflexivity|]);
      (split; [reflexivity|]); (split; [|split; [|reflexivity]]);
      try reflexivity; try exact Hfalse.
  - apply Z.eqb_eq in E. simpl. now rewrite D, E.
  - now inversion Hfalse.
Qed.

(** X23.  The entry groups of a timeline, newest first.  The last group is
    the one marked as the creation of the unit, it carries the creation
    time of the unit, and no other group is marked.  Read from the oldest
    group on, the entries are those of the submissions on the target, state,
    comment and no field, without the comment made at the time the unit's
    comment was set, by ascending submission id. *)
Theorem timeline_created_last
        (creation_time commented_on : option DateTime)
        (submissions : list sub) :
  let groups :=
    timeline_entries_group Entry TARGET STATE COMMENT NONE system_user
                           creation_time commented_on submissions in
  (exists earlier created_group,
      groups = (earlier ++ [created_group])%list
      /\ group_created created_group = true
      /\ group_datetime created_group = creation_time
      /\ Forall (fun g => group_created g = false) earlier)
  /\ List.concat (map (@entries Entry) (rev groups))
     = map sub_entry (subs_of commented_on submissions)
  /\ StronglySorted (fun a b : sub => sub_id a <= sub_id b)
                    (subs_of commented_on submissions)
  /\ (forall s,
         In s (subs_of commented_on submissions)
         <-> In s submissions
             /\ In (sub_field s) [TARGET; STATE; COMMENT; NONE]
             /\ ~ (sub_field s = COMMENT
                   /\ commented_on = Some (sub_creation_time s))).
Proof.
  intros groups. subst groups. unfold timeline_entries_group.
  assert (Hfalse : Forall (fun g : EntryGroup Entry => group_created g = false)
                     (map (entry_group Entry system_user)
                          (group_runs Entry
                             (subs_of commented_on submissions)))).
  { apply Forall_forall. intros g Hg. apply in_map_iff in Hg.
    now destruct Hg as [run [<- _]]. }
  destruct (add_created_head creation_time _ Hfalse)
    as (x & tail & -> & Hc & Hd & Ht & He).
  split; [|split; [|split]].
  - exists (rev tail), x. split; [reflexivity|].
    split; [exact Hc|]. split; [exact Hd|]. now apply Forall_rev.
  - rewrite rev_involutive, He.
    now rewrite entry_groups_entries, group_runs_concat.
  - apply order_by_id_sorted.
  - intros s. unfold timeline_submissions. split.
    + intros H. apply (Permutation_in _ (order_by_id_perm _)) in H.
      apply filter_In in H. destruct H as [Hin H].
      apply andb_true_iff in H. destruct H as [Hf Hx].
      split; [exact Hin|]. split.
      * apply existsb_exists in Hf. destruct Hf as [y [Hy E]].
        apply Z.eqb_eq in E. now rewrite E.
      * intros [Hc' Ht']. rewrite Hc', Ht', !Z.eqb_refl in Hx.
        discriminate Hx.
    + intros (Hin & Hf & Hx).
      apply (Permutation_in _ (Permutation_sym (order_by_id_perm _))).
      apply filter_In. split; [exact Hin|]. apply andb_true_iff. split.
      * apply existsb_exists. exists (sub_field s).
        split; [exact Hf | apply Z.eqb_refl].
      * apply negb_true_iff. apply andb_false_iff.
        destruct (sub_field s =? COMMENT) eqn:Ec; [right | now left].
        apply Z.eqb_eq in Ec.
        destruct commented_on as [t|]; [|reflexivity].
        apply Z.eqb_neq. intros Et. apply Hx. split; [exact Ec|].
        now rewrite Et.
Qed.

End TimelineFacts.

(** ** Alternative source languages *)

Lemma of_project_In (project : Project) (langs : list Language)
      (l : Language) :
  In l (of_project project langs)
  <-> In l langs /\ In (project_id project) (lang_projects l).
Proof.
  unfold of_project. rewrite in_flat_map. split.
  - intros [x [Hx Hl]]. apply in_map_iff in Hl.
    destruct Hl as [p [E Hp]]. subst x. apply filter_In in Hp.
    destruct Hp as [Hp Ep]. apply Z.eqb_eq in Ep. subst p. now split.
  - intros [Hl Hp]. exists l. split; [exact Hl|].
    apply in_map_iff. exists (project_id project). split; [reflexivity|].
    apply filter_In. split; [exact Hp | apply Z.eqb_refl].
Qed.

Section AltSrcLangsFacts.

Variable Priority : Type.
Variable parse_accept_lang_header : string -> list (string * Priority).
Variables simplify_to_common normalize_code to_locale : string -> string.
Variable Language_objects : list Language.

Local Abbreviation skipped :=
  (header_skipped simplify_to_common normalize_code to_locale).
Local Abbreviation found :=
  (header_langs simplify_to_common normalize_code to_locale
                Language_objects).
Local Abbreviation loop :=
  (accept_loop Priority simplify_to_common normalize_code to_locale
               Language_objects).
Local Abbreviation alt_langs :=
  (get_alt_src_langs Priority parse_accept_lang_header simplify_to_common
                     normalize_code to_locale Language_objects).

(** A header language that is not passed over brings no language under
    one of the four codes left out. *)
Lemma header_langs_codes (language source_language : Language)
      (project : Project) (accept_lang : string) (l : Language) :
  skipped language source_language accept_lang = false ->
  In l (found project accept_lang) ->
  In l Language_objects
  /\ In (project_id project) (lang_projects l)
  /\ ~ In (lang_code l)
          ["en"; "en_US"; lang_code source_language; lang_code language].
Proof.
  intros Hs Hl. apply of_project_In in Hl. destruct Hl as [Hl Hp].
  apply filter_In in Hl. destruct Hl as [Hl Hc].
  split; [exact Hl|]. split; [exact Hp|].
  unfold header_skipped in Hs.
  apply orb_false_iff in Hs. destruct Hs as [_ Hs].
  apply orb_false_iff in Hs. destruct Hs as [Hn Hk].
  intros Hin. apply mem_In in Hin.
  unfold PyStr.mem in Hc. simpl in Hc.
  rewrite orb_false_r in Hc. apply orb_true_iff in Hc.
  destruct Hc as [Hc | Hc]; apply String.eqb_eq in Hc; rewrite Hc in Hin;
    congruence.
Qed.

(** The loop ends with the languages of the first header language that is
    not passed over and has some; without such a header language it ends
    with the languages it started from, or with none. *)
Lemma accept_loop_first (language source_language : Language)
      (project : Project) (accepted : list (string * Priority)) :
  forall langs,
    (exists before accept_lang unused rest,
        accepted = (before ++ (accept_lang, unused) :: rest)%list
        /\ Forall (fun e => skipped language source_language (fst e) = true
                            \/ found project (fst e) = [])
                  before
        /\ skipped language source_language accept_lang = false
        /\ found project accept_lang <> []
        /\ loop language source_language project langs accepted
           = found project accept_lang)
    \/ (Forall (fun e => skipped language source_language (fst e) = true
                         \/ found project (fst e) = [])
               accepted
        /\ (loop language source_language project langs accepted = langs
            \/ loop language source_language project langs accepted = [])).
Proof.
  induction accepted as [|[accept_lang unused] rest IH]; intros langs.
  - right. split; [constructor | left; reflexivity].
  - simpl.
    destruct (skipped language source_language accept_lang) eqn:Hs.
    + destruct (IH langs)
        as [(before & a & q & post & E & Hb & Ha & Hne & Hr) | [Hall Hr]].
      * left. exists ((accept_lang, unused) :: before), a, q, post.
        split; [simpl; now rewrite E|].
        split; [constructor; [left; exact Hs | exact Hb]|].
        now repeat split.
      * right. split; [constructor; [left; exact Hs | exact Hall]|].
        exact Hr.
    + destruct (found project accept_lang) as [|l ls] eqn:Hf.
      * simpl.
        destruct (IH [])
          as [(before & a & q & post & E & Hb & Ha & Hne & Hr) | [Hall Hr]].
        -- left. exists ((accept_lang, unused) :: before), a, q, post.
           split; [simpl; now rewrite E|].
           split; [constructor; [right; exact Hf | exact Hb]|].
           now repeat split.
        -- right. split; [constructor; [right; exact Hf | exact Hall]|].
           right. destruct Hr as [Hr | Hr]; exact Hr.
      * left. exists [], accept_lang, unused, rest.
        split; [reflexivity|]. split; [constructor|].
        split; [exact Hs|].
        split; [rewrite Hf; discriminate|].
        rewrite Hf.
        replace (negb (Z.of_nat (List.length (l :: ls)) =? 0)) with true.
        -- reflexivity.
        -- symmetry. apply negb_true_iff, Z.eqb_neq. simpl List.length. lia.
Qed.

(** X26.  The alternative source languages are languages with a
    translation project in the project, and never the language translated
    into or the source language of the project: taken from the user's
    preferences they differ from both by id; for a user without
    preferences they come from the accepted languages of the browser and
    have a code other than [en], [en_US] and the codes of the two. *)
Theorem get_alt_src_langs_never_own
        (META : list (string * string)) (user_alt_src_langs : list Language)
        (translation_project : TranslationProject) (l : Language) :
  In l (alt_langs META user_alt_src_langs translation_project) ->
  In (project_id (tp_project translation_project)) (lang_projects l)
  /\ (user_alt_src_langs <> [] ->
      In l user_alt_src_langs
      /\ lang_id l <> lang_id (tp_language translation_project)
      /\ lang_id l
         <> lang_id (source_language (tp_project translation_project)))
  /\ (user_alt_src_langs = [] ->
      In l Language_objects
      /\ ~ In (lang_code l)
              ["en"; "en_US";
               lang_code (source_language (tp_project translation_project));
               lang_code (tp_language translation_project)]).
Proof.
  unfold get_alt_src_langs. intros Hl.
  destruct user_alt_src_langs as [|a alt].
  - simpl in Hl.
    match type of Hl with
    | In l (accept_loop _ _ _ _ _ ?lang ?src ?proj ?langs ?acc) =>
        destruct (accept_loop_first lang src proj acc langs)
          as [(before & al & q & post & _ & _ & Hs & _ & Hr) | [_ Hr]]
    end.
    + rewrite Hr in Hl.
      destruct (header_langs_codes _ _ _ _ _ Hs Hl) as (H1 & H2 & H3).
      split; [exact H2|]. split; [congruence|]. intros _. now split.
    + destruct Hr as [Hr | Hr]; rewrite Hr in Hl; destruct Hl.
  - replace (Z.of_nat (List.length (a :: alt)) =? 0) with false in Hl
      by (symmetry; apply Z.eqb_neq; simpl List.length; lia).
    apply of_project_In in Hl. destruct Hl as [Hl Hp].
    apply filter_In in Hl. destruct Hl as [Hl Hx].
    split; [exact Hp|]. split; [|discriminate]. intros _.
    split; [exact Hl|].
    apply negb_true_iff in Hx. simpl in Hx.
    apply orb_false_iff in Hx. destruct Hx as [H1 Hx].
    apply orb_false_iff in Hx. destruct Hx as [H2 _].
    apply Z.eqb_neq in H1, H2. now split.
Qed.

(** X27.  For a user without preferences the browser decides, in the order
    of its header: the answer is what the project has under the first
    accepted language that is neither the wildcard, English, the source
    nor the target language and that the project has at all; when there
    is no such accepted language, or no header, the answer is empty. *)
Theorem get_alt_src_langs_first_accepted
        (META : list (string * string))
        (translation_project : TranslationProject) :
  let language := tp_language translation_project in
  let project := tp_project translation_project in
  let accepted :=
    parse_accept_lang_header
      (match dict_get "HTTP_ACCEPT_LANGUAGE" META with
       | Some a => a
       | None => ""
       end) in
  let passed e :=
    skipped language (source_language project) (fst e) = true
    \/ found project (fst e) = [] in
  ((exists before accept_lang unused rest,
       accepted = (before ++ (accept_lang, unused) :: rest)%list
       /\ Forall passed before
       /\ skipped language (source_language project) accept_lang = false
       /\ found project accept_lang <> []
       /\ alt_langs META [] translation_project = found project accept_lang)
   \/ (Forall passed accepted
       /\ alt_langs META [] translation_project = []))
  /\ (accepted = [] -> alt_langs META [] translation_project = []).
Proof.
  intros language project accepted passed.
  unfold get_alt_src_langs. simpl.
  fold language. fold project. fold accepted.
  split.
  - destruct (accept_loop_first language (source_language project) project
                                accepted [])
      as [(before & al & q & post & E & Hb & Hs & Hne & Hr) | [Hall Hr]].
    + left. exists before, al, q, post. now repeat split.
    + right. split; [exact Hall|]. destruct Hr as [Hr | Hr]; exact Hr.
  - intros E. rewrite E. reflexivity.
Qed.

End AltSrcLangsFacts.

(** ** Worked requests on the sample store *)

Example search_words_sample :
  Sample.ids (Sample.step (Sample.get [("search", ["file"]);
                                       ("sfields", ["source,target"])])
                          (QS.all_of Sample.store))
  = Ok [11; 13; 15].
Proof. reflexivity. Qed.

Example search_exact_sample :
  Sample.ids (Sample.step (Sample.get [("search", ["file"]);
                                       ("sfields", ["source"]);
                                       ("soptions", ["exact"])])
                          (QS.all_of Sample.store))
  = Ok [11; 13].
Proof. reflexivity. Qed.

(** On a database whose [contains] lookup folds letters the exact search
    finds [FILE] too. *)
Example search_exact_sqlite_sample :
  Sample.ids (Sample.step_sqlite (Sample.get [("search", ["file"]);
                                              ("sfields", ["source"]);
                                              ("soptions", ["exact"])])
                                 (QS.all_of Sample.store))
  = Ok [11; 13; 15].
Proof. reflexivity. Qed.

Example priority_sample :
  Sample.ids (Sample.step (Sample.get [("filter", ["all"]);
                                       ("sort", ["priority"])])
                          (QS.all_of Sample.store))
  = Ok [15; 12; 13; 11; 14].
Proof. reflexivity. Qed.

(** Sorting by priority and searching two fields do not go together. *)
Example priority_search_sample :
  Sample.step Sample.priority_search_two (QS.all_of Sample.store)
  = Raise ValueError
  /\ Sample.ids (Sample.step (Sample.get [("filter", ["all"]);
                                          ("sort", ["priority"]);
                                          ("search", ["file"]);
                                          ("sfields", ["source"])])
                             (QS.all_of Sample.store))
     = Ok [15; 13; 11].
Proof. split; reflexivity. Qed.

Example window_sample :
  Sample.units_view (Sample.get [("path", ["/de/"]); ("initial", ["true"]);
                                 ("uids", ["13"])])
  = Ok (mkUnitsResponse
          [("/de/a.po", [Sample.u12; Sample.u13]); ("/de/b.po", [Sample.u14])]
          (Some [11; 12; 13; 14; 15])).
Proof. reflexivity. Qed.

Example add_vfolders_sample :
  bind (Sample.add_item ([], mkCounts 0 0 0) Sample.item_docs)
       (fun st => Sample.add_item st Sample.item_DOCS)
  = Ok ([mkVirtualFolder "docs" "/de/" "a.po,b.po" 4 true ""],
        mkCounts 1 1 0).
Proof. reflexivity. Qed.

(** Items that lack what the command reads end it. *)
Example add_vfolders_malformed_sample :
  Sample.add_item ([], mkCounts 0 0 0)
                  (mkVFolderItem Missing (Some "/de/") Missing None None
                                 None [])
  = Raise KeyError
  /\ Sample.add_item ([], mkCounts 0 0 0)
                     (mkVFolderItem Malformed (Some "/de/") Missing None
                                    None None [])
     = Raise AttributeError
  /\ Sample.add_item ([], mkCounts 0 0 0)
                     (mkVFolderItem (Given "Docs") None Missing None None
                                    None [])
     = Raise KeyError
  /\ Sample.add_item ([], mkCounts 0 0 0)
                     (mkVFolderItem (Given "Docs") (Some "/de/") Malformed
                                    None None None [])
     = Raise TypeError
  /\ Sample.add_item ([], mkCounts 0 0 0)
                     (mkVFolderItem (Given "Docs") (Some "/de/") Missing
                                    None None None ["colour"])
     = Raise TypeError.
Proof. repeat split. Qed.

Example export_sample :
  exists res,
    Sample.export_context "/de/" Sample.incomplete = Ok res
    /\ dict_get "unit_groups" res
       = Some (CtxGroups [("/de/a.po", [Sample.u12; Sample.u13]);
                          ("/de/b.po", [Sample.u15])])
    /\ dict_get "unit_total_count" res = None
    /\ dict_get "filter_name" res = Some (CtxName (Some "Incomplete")).
Proof. eexists. repeat split. Qed.

Example delete_comment_sample :
  delete_comment Sample.comment_valid (fun s => s) Sample.reject_set
                 Sample.u11
  = (mkHttpResponse 200 [],
     [FormSaved [] (set_commented None None Sample.u11)]).
Proof. reflexivity. Qed.

Example ajax_response_sample :
  ajax_response (Some "/next/") (Some (mkForm false "required"))
  = Ok (mkJsonResponse [("location", JStr "/next/");
                        ("errors", JStr "required")] 400).
Proof. reflexivity. Qed.

(** Letters and blanks beyond the ASCII ones. *)
Example lower_sample :
  PyStr.lower Sample.Ecrit = Sample.ecrit
  /\ PyStr.lower "Docs A-Z" = "docs a-z"
  /\ PyStr.lower (String (ascii_of_nat 215) "") = String (ascii_of_nat 215) "".
Proof. repeat split. Qed.

Example split_ws_sample :
  PyStr.split_ws ("  open" ++ String (ascii_of_nat 160)
                     ("the" ++ String (ascii_of_nat 28) "file "))
  = ["open"; "the"; "file"].
Proof. reflexivity. Qed.

Example filter_ctx_units_sample :
  _filter_ctx_units Sample.db Sample.store_id Sample.index
                    (QS.all_of Sample.store) Sample.u13 2 0
  = Some (mkCtxRows [Sample.u11; Sample.u12] [Sample.u14; Sample.u15]).
Proof. reflexivity. Qed.

Example get_table_headings_sample :
  map heading_id (get_table_headings ["total"; "bogus"; "name"; "total"])
  = ["name"; "total"].
Proof. reflexivity. Qed.

Example get_alt_src_langs_sample :
  Sample.alt_src_langs [("HTTP_ACCEPT_LANGUAGE", "de,*,nl,fr,en")] []
                       Sample.german_7 = [Sample.french]
  /\ Sample.alt_src_langs [("HTTP_ACCEPT_LANGUAGE", "fr")]
                          [Sample.german; Sample.dutch; Sample.english]
                          Sample.german_7 = []
  /\ Sample.alt_src_langs [] [] Sample.german_7 = [].
Proof. repeat split. Qed.

(** ** The main properties on the sample store *)

(** C1.  [get_units] on three requests that carry [initial].  The
    docstring promises the sorted id list whenever [initial] is present,
    and has [count] define the chunk size.  With [initial] present but
    empty and uid 13, which is at position 2 of the id list, the answer
    holds unit 13 alone and no id list, where the window would be the ids
    12 to 14; with uid 99, which is not in the list, the answer is an
    empty 200 and no 404.  With [count=1] and uid 13 the request ends in a
    [TypeError]. *)
Theorem get_units_initial_present_divergence :
  (QD.contains "initial" (GET Sample.initial_empty_13) = true
   /\ parse_uids Sample.to_int Sample.initial_empty_13 = [13]
   /\ list_index 13 (Sample.uid_list Sample.initial_empty_13) = Some 2
   /\ Sample.get_unit_rows (profile Sample.initial_empty_13) = 1
   /\ Sample.units_view Sample.initial_empty_13
      = Ok (mkUnitsResponse [("/de/a.po", [Sample.u13])] None))
  /\ (QD.contains "initial" (GET Sample.initial_empty_99) = true
      /\ parse_uids Sample.to_int Sample.initial_empty_99 = [99]
      /\ ~ In 99 (Sample.uid_list Sample.initial_empty_99)
      /\ Sample.units_view Sample.initial_empty_99
         = Ok (mkUnitsResponse [] None))
  /\ (QD.contains "initial" (GET Sample.initial_13_counted) = true
      /\ QD.get "count" (GET Sample.initial_13_counted) = Some "1"
      /\ parse_uids Sample.to_int Sample.initial_13_counted = [13]
      /\ list_index 13 (Sample.uid_list Sample.initial_13_counted) = Some 2
      /\ Sample.units_view Sample.initial_13_counted = Raise TypeError).
Proof.
  repeat split; try reflexivity.
  vm_compute. intuition discriminate.
Qed.

(** On a database whose [contains] lookup folds letters, the exact search
    for [file] in the source returns unit 15, whose source is [FILE]: no
    selected field of it contains the phrase as it is written. *)
Lemma get_search_step_query_selects_counterexample :
  exists r,
    get_search_step_query Sample.sqlite Sample.exact_file
                          (QS.all_of Sample.store) = Ok r
    /\ In "exact" (soptions Sample.exact_file)
    /\ In Sample.u15 (QS.evaluate r)
    /\ ~ (exists c, Selected Sample.exact_file c
                    /\ Substring (search Sample.exact_file)
                                 (column_text c Sample.u15)).
Proof.
  eexists. split; [reflexivity|]. split; [now left|].
  split; [vm_compute; tauto|].
  intros [c [Hsel Hsub]]. apply contains_iff in Hsub.
  destruct c; destruct Hsel as [H|[]]; try discriminate H.
  discriminate Hsub.
Qed.

(** The word search for [file] in the source, on the sample store. *)
Lemma get_search_step_query_selects_sample :
  exists r,
    get_search_step_query Sample.db Sample.file_in_source
                          (QS.all_of Sample.store) = Ok r
    /\ forall u,
        In u (QS.evaluate r)
        <-> In u (QS.evaluate (QS.all_of Sample.store))
            /\ matches_words Sample.db Sample.file_in_source u.
Proof.
  destruct (get_search_step_query_selects
              Sample.db Sample.file_in_source (QS.all_of Sample.store))
    as [Hm Hex].
  destruct (Hex (or_intror (or_introl eq_refl))) as [r Hr].
  rewrite Hr in Hm. destruct Hm as (_ & Hw & _).
  exists r. split; [exact Hr|]. apply Hw. intros [].
Defined.

(** Sorting by priority on the sample store. *)
Lemma get_step_query_priority_order_sample :
  exists r,
    Sample.step Sample.by_priority (QS.all_of Sample.store) = Ok r
    /\ StronglySorted (fun u v => unit_priority v <= unit_priority u)
                      (QS.evaluate r).
Proof.
  destruct (get_step_query_priority_order
              Sample.db Sample.UNTRANSLATED Sample.FUZZY Sample.TRANSLATED
              Sample.EDIT_TYPES Sample.get_user Sample.parse_datetime
              Sample.get_date_interval Sample.make_search_form
              Sample.by_priority (QS.all_of Sample.store) "all"
              eq_refl eq_refl eq_refl eq_refl) as (Hm & Hex & _).
  destruct Hex as [r Hr]; [intros form H; discriminate H|].
  rewrite Hr in Hm. destruct Hm as [Hs _].
  exists r. split; [exact Hr | exact Hs].
Defined.

(** [filter=translated] together with a month in which nothing was
    submitted: units 11 and 14 are translated, and none is returned. *)
Lemma get_step_query_state_filters_counterexample :
  exists r,
    Sample.step Sample.translated_in_month (QS.all_of Sample.store) = Ok r
    /\ QD.get "filter" (GET Sample.translated_in_month) = Some "translated"
    /\ In Sample.u11 (QS.evaluate (QS.all_of Sample.store))
    /\ state Sample.u11 = Sample.TRANSLATED
    /\ ~ In Sample.u11 (QS.evaluate r)
    /\ QS.evaluate r = [].
Proof.
  eexists. split; [reflexivity|]. split; [reflexivity|].
  split; [now left|]. split; [reflexivity|]. split; [|reflexivity].
  intros H. exact H.
Qed.

(** The [incomplete] filter on the sample store. *)
Lemma get_step_query_state_filters_sample :
  exists r,
    Sample.step Sample.incomplete (QS.all_of Sample.store) = Ok r
    /\ Permutation
         (QS.evaluate r)
         (List.filter (in_states [Sample.UNTRANSLATED; Sample.FUZZY])
                      (QS.evaluate (QS.all_of Sample.store))).
Proof.
  destruct (proj2 (get_step_query_state_filters
                     Sample.db Sample.UNTRANSLATED Sample.FUZZY
                     Sample.TRANSLATED Sample.EDIT_TYPES Sample.get_user
                     Sample.parse_datetime Sample.get_date_interval
                     Sample.make_search_form
                     Sample.incomplete (QS.all_of Sample.store)
                     "incomplete" [Sample.UNTRANSLATED; Sample.FUZZY]
                     eq_refl eq_refl)
                  (conj eq_refl (conj eq_refl eq_refl)))
    as (r & Hr & _ & Hp).
  exists r. split; [exact Hr | exact Hp].
Defined.

(** A filter value nobody knows, on the sample store. *)
Lemma get_step_query_narrows_sample :
  exists r,
    Sample.step Sample.bogus (QS.all_of Sample.store) = Ok r
    /\ QS.evaluate r = [].
Proof.
  exact (proj2 (get_step_query_narrows
                  Sample.db Sample.UNTRANSLATED Sample.FUZZY
                  Sample.TRANSLATED Sample.EDIT_TYPES Sample.get_user
                  Sample.parse_datetime Sample.get_date_interval
                  Sample.make_search_form
                  Sample.bogus (QS.all_of Sample.store))
               "bogus" eq_refl eq_refl eq_refl).
Defined.

(** Rejecting a suggestion the unit does not have. *)
Lemma review_endpoints_flag_sample :
  reject_suggestion Sample.public_score Sample.reject_set Sample.u11 5
  = Raise Http404.
Proof.
  exact (proj1 (review_endpoints_flag
                  Sample.public_score Sample.accepted_extras
                  Sample.reject_set Sample.u11 5)
               eq_refl (fun s (H : In s []) => match H with end)).
Defined.

(** A [reject] (or [accept]) flag that is present but empty is no flag:
    there is no suggestion 5, and still the answer is 200. *)
Lemma review_endpoints_present_counterexample :
  (forall s, In s (suggestion_set Sample.u11) -> suggestion_id s <> 5)
  /\ QD.contains "reject" (POST Sample.reject_empty) = true
  /\ reject_suggestion Sample.public_score Sample.reject_empty Sample.u11 5
     = Ok (mkHttpResponse 200 [("udbid", JInt 11); ("sugid", JInt 5)], [])
  /\ reject_suggestion Sample.public_score Sample.reject_empty Sample.u11 5
     <> Raise Http404
  /\ QD.contains "accept" (POST Sample.accept_empty) = true
  /\ accept_suggestion Sample.public_score Sample.accepted_extras
                       Sample.accept_empty Sample.u11 5
     = Ok (mkHttpResponse 200 [("udbid", JInt 11); ("sugid", JInt 5)], [])
  /\ accept_suggestion Sample.public_score Sample.accepted_extras
                       Sample.accept_empty Sample.u11 5
     <> Raise Http404.
Proof.
  split; [intros s []|].
  repeat split; try reflexivity; discriminate.
Qed.

(** No redirect and no form. *)
Lemma ajax_response_unbound_status_sample :
  ajax_response None None = Raise UnboundLocalError.
Proof.
  exact (proj1 (ajax_response_unbound_status None None) eq_refl eq_refl).
Defined.


(** ** More worked requests *)

Lemma get_units_initial_window_sample :
  Sample.served Sample.initial_13 (QS.all_of Sample.store) [12; 13; 14]
  /\ In 13 [12; 13; 14]
  /\ Z.of_nat (List.length [12; 13; 14]) <= 2 * 1 + 1.
Proof.
  exact (proj1 (get_units_initial_window
                  Sample.db Sample.UNTRANSLATED Sample.FUZZY
                  Sample.TRANSLATED Sample.EDIT_TYPES Sample.get_user
                  Sample.parse_datetime Sample.get_date_interval
                  Sample.make_search_form Sample.to_int Sample.get_unit_rows
                  Sample.get_for_path Sample.initial_13 "/de/"
                  (QS.all_of Sample.store) eq_refl eq_refl eq_refl eq_refl
                  ltac:(vm_compute; discriminate))
               13 2 eq_refl eq_refl).
Defined.

Lemma get_step_query_untouched_sample :
  Sample.step Sample.checks_only (QS.all_of Sample.store)
  = Ok (QS.all_of Sample.store).
Proof.
  exact (proj1 (get_step_query_untouched
                  Sample.db Sample.UNTRANSLATED Sample.FUZZY
                  Sample.TRANSLATED Sample.EDIT_TYPES Sample.get_user
                  Sample.parse_datetime Sample.get_date_interval
                  Sample.make_search_form
                  Sample.checks_only (QS.all_of Sample.store))
               eq_refl eq_refl).
Defined.

Lemma get_units_groups_are_runs_sample :
  groups_are_runs store_pootle_path
                  [("/de/a.po", [Sample.u12; Sample.u13]);
                   ("/de/b.po", [Sample.u14])]
  /\ keys_alternate [("/de/a.po", [Sample.u12; Sample.u13]);
                     ("/de/b.po", [Sample.u14])].
Proof.
  exact (get_units_groups_are_runs
           Sample.db Sample.UNTRANSLATED Sample.FUZZY Sample.TRANSLATED
           Sample.EDIT_TYPES Sample.get_user Sample.parse_datetime
           Sample.get_date_interval Sample.make_search_form
           Sample.to_int Sample.get_unit_rows Sample.get_for_path
           Sample.initial_13
           (mkUnitsResponse
              [("/de/a.po", [Sample.u12; Sample.u13]);
               ("/de/b.po", [Sample.u14])]
              (Some [11; 12; 13; 14; 15]))
           eq_refl).
Defined.

Lemma get_units_plain_request_sample :
  exists resp,
    Sample.units_view Sample.plain_12_15 = Ok resp
    /\ uIds resp = None
    /\ List.concat (map snd (unitGroups resp)) = [Sample.u12; Sample.u15].
Proof.
  exact (proj2 (get_units_plain_request
                  Sample.db Sample.UNTRANSLATED Sample.FUZZY
                  Sample.TRANSLATED Sample.EDIT_TYPES Sample.get_user
                  Sample.parse_datetime Sample.get_date_interval
                  Sample.make_search_form Sample.to_int Sample.get_unit_rows
                  Sample.get_for_path Sample.plain_12_15)
               "/de/" eq_refl eq_refl).
Defined.

Lemma get_units_counted_request_sample :
  Sample.units_view Sample.initial_13_counted = Raise TypeError.
Proof.
  exact (get_units_counted_request
           Sample.db Sample.UNTRANSLATED Sample.FUZZY Sample.TRANSLATED
           Sample.EDIT_TYPES Sample.get_user Sample.parse_datetime
           Sample.get_date_interval Sample.make_search_form
           Sample.to_int Sample.get_unit_rows Sample.get_for_path
           Sample.initial_13_counted "/de/" "1" eq_refl eq_refl eq_refl).
Defined.

Lemma parse_uids_sound_sample :
  13 <> 0
  /\ exists raw piece,
      QD.get "uids" (GET Sample.initial_13) = Some raw
      /\ In piece (PyStr.split_on "," raw)
      /\ piece <> ""
      /\ Sample.to_int piece = Some 13.
Proof.
  exact (proj1 (parse_uids_sound Sample.to_int Sample.initial_13)
               13 (or_introl eq_refl)).
Defined.

Lemma get_search_step_query_edges_sample :
  exists r,
    get_search_step_query Sample.db Sample.no_fields
                          (QS.all_of Sample.store) = Ok r
    /\ QS.evaluate r = [].
Proof.
  exact (proj1 (get_search_step_query_edges Sample.db Sample.no_fields
                                            (QS.all_of Sample.store))
               (fun c (H : Selected Sample.no_fields c) => H)).
Defined.

Lemma get_search_exact_query_within_words_sample :
  exists words,
    get_search_query Sample.db Sample.file_in_source
                     (QS.all_of Sample.store) = Ok words
    /\ In Sample.u11 (QS.evaluate words).
Proof.
  edestruct (get_search_exact_query_within_words
               Sample.db Sample.file_in_source (QS.all_of Sample.store))
    as [words [Hw Hin]]; [reflexivity|].
  exists words. split; [exact Hw|]. apply Hin. now left.
Defined.

Lemma get_search_step_query_up_to_case_sample :
  exists r,
    get_search_step_query Sample.db Sample.file_in_source
                          (QS.all_of Sample.store) = Ok r
    /\ forall u,
        In u (QS.evaluate r)
        <-> In u (QS.evaluate (QS.all_of Sample.store))
            /\ exists c,
                Selected Sample.file_in_source c
                /\ forall word,
                    Word word (search Sample.file_in_source) ->
                    OccursUpToCase word (column_text c u).
Proof.
  eexists. split; [reflexivity|].
  apply (proj1 (get_search_step_query_up_to_case
                  Sample.db Sample.file_in_source (QS.all_of Sample.store)
                  _ lower_char_eq_iff eq_refl eq_refl)).
  intros [].
Defined.

Lemma sort_stage_only_reorders_sample :
  sort_stage Sample.db Sample.EDIT_TYPES 1 "suggestions" (Some "priority")
             (QS.all_of Sample.store)
  = QS.all_of Sample.store.
Proof.
  apply (proj1 (proj2 (sort_stage_only_reorders
                         Sample.db Sample.EDIT_TYPES 1 "suggestions"
                         (Some "priority") (QS.all_of Sample.store)))).
  intros p H. injection H as <-. reflexivity.
Defined.

Lemma get_step_query_refusal_sample :
  Sample.step Sample.priority_search_two (QS.all_of Sample.store)
  = Raise ValueError.
Proof.
  apply (proj2 (proj2 (get_step_query_refusal
                         Sample.db Sample.UNTRANSLATED Sample.FUZZY
                         Sample.TRANSLATED Sample.EDIT_TYPES Sample.get_user
                         Sample.parse_datetime Sample.get_date_interval
                         Sample.make_search_form
                         Sample.priority_search_two
                         (QS.all_of Sample.store)))
               "all" Sample.source_and_target);
    try reflexivity.
  - intros H. discriminate H.
  - exists Source, Target. split; [discriminate|].
    split; [now left | right; now left].
Defined.

Lemma get_filter_name_coverage_sample :
  fst (get_filter_name (fun s => s) (fun _ => None) Sample.user_suggestions)
  = None
  /\ snd (get_filter_name (fun s => s) (fun _ => None)
                          Sample.user_suggestions)
     = Some ["User missing"].
Proof.
  destruct (get_filter_name_coverage (fun s => s) (fun _ => None)
              Sample.user_suggestions "user-suggestions" eq_refl)
    as (_ & Hnone & Hextra).
  split.
  - apply (Hnone eq_refl). simpl. tauto.
  - exact (Hextra eq_refl).
Defined.

Lemma ajax_response_contents_sample :
  dict_get "location" [("location", JStr "/next/");
                       ("errors", JStr "required")]
  = Some (JStr "/next/")
  /\ dict_get "errors" [("location", JStr "/next/");
                        ("errors", JStr "required")]
     = Some (JStr "required").
Proof.
  destruct (ajax_response_contents
              (Some "/next/") (Some (mkForm false "required"))
              (mkJsonResponse [("location", JStr "/next/");
                               ("errors", JStr "required")] 400)
              eq_refl) as (H1 & H2 & _).
  split; [exact H1 | exact H2].
Defined.

Lemma handle_counters_sample :
  exists filename vfolders,
    hd_error ["vfolders.json"] = Some filename
    /\ Sample.load filename = Some vfolders
    /\ 0 <= 1 /\ 0 <= 1 /\ 0 <= 0
    /\ 0 <= Z.of_nat (List.length vfolders) - 0 - 1 - 1
    /\ Z.of_nat 1 = Z.of_nat 0 + 1.
Proof.
  exact (handle_counters Sample.validates 1 true "" ["vfolders.json"]
                         Sample.load [] [Sample.docs_row_updated]
                         (mkCounts 1 1 0) eq_refl).
Defined.

Lemma handle_item_twice_sample :
  exists st2,
    Sample.add_item ([Sample.docs_row], mkCounts 1 0 0) Sample.item_docs
    = Ok st2
    /\ fst st2 = [Sample.docs_row]
    /\ added_count (snd st2) = 1
    /\ updated_count (snd st2) = 0.
Proof.
  exact (handle_item_twice Sample.validates 1 true ""
                           ([], mkCounts 0 0 0)
                           ([Sample.docs_row], mkCounts 1 0 0)
                           Sample.item_docs eq_refl).
Defined.

Lemma handle_items_keep_keys_sample :
  exists added,
    map vf_key [Sample.docs_row_updated]
    = (map vf_key [Sample.docs_row] ++ added)%list.
Proof.
  exact (handle_items_keep_keys Sample.validates 1 true ""
                                [Sample.item_DOCS]
                                ([Sample.docs_row], mkCounts 1 0 0)
                                ([Sample.docs_row_updated], mkCounts 1 1 0)
                                eq_refl).
Defined.

Lemma handle_items_unique_sample :
  exists st',
    Sample.add_items ([], mkCounts 0 0 0)
                     [Sample.item_docs; Sample.item_DOCS] = Ok st'
    /\ unique_keys (fst st').
Proof.
  destruct (handle_items_unique Sample.validates 1 true ""
                                [Sample.item_docs; Sample.item_DOCS]
                                [] (mkCounts 0 0 0) (NoDup_nil _))
    as [Hm Hc].
  destruct Hc as [st' E].
  { intros item [<-|[<-|[]]];
      (split; [eexists; reflexivity|]);
      (split; [eexists; reflexivity|]);
      (split; [discriminate | reflexivity]). }
  rewrite E in Hm. exists st'. split; [exact E | exact Hm].
Defined.

Lemma get_step_query_all_sample :
  exists r,
    Sample.step Sample.all_units (QS.all_of Sample.store) = Ok r
    /\ Permutation (QS.evaluate r) (QS.evaluate (QS.all_of Sample.store)).
Proof.
  destruct (get_step_query_all
              Sample.db Sample.UNTRANSLATED Sample.FUZZY Sample.TRANSLATED
              Sample.EDIT_TYPES Sample.get_user Sample.parse_datetime
              Sample.get_date_interval Sample.make_search_form
              Sample.all_units (QS.all_of Sample.store)
              eq_refl (conj eq_refl (conj eq_refl eq_refl)))
    as (r & Hr & Hp & _).
  exists r. split; [exact Hr | exact Hp].
Defined.

Lemma get_step_query_checks_sample :
  exists r,
    Sample.step Sample.checks_without_names (QS.all_of Sample.store) = Ok r
    /\ QS.evaluate r = [].
Proof.
  exact (proj1 (get_step_query_checks
                  Sample.db Sample.UNTRANSLATED Sample.FUZZY
                  Sample.TRANSLATED Sample.EDIT_TYPES Sample.get_user
                  Sample.parse_datetime Sample.get_date_interval
                  Sample.make_search_form
                  Sample.checks_without_names (QS.all_of Sample.store)
                  eq_refl)
               eq_refl).
Defined.

Lemma filter_ctx_units_rows_sample :
  exists rows,
    _filter_ctx_units Sample.db Sample.store_id Sample.index
                      (QS.all_of Sample.store) Sample.u13 1 0 = Some rows
    /\ Z.of_nat (List.length (before rows)) <= 1
    /\ Z.of_nat (List.length (after rows)) <= 1.
Proof.
  destruct (filter_ctx_units_rows Sample.db Sample.store_id Sample.index
              (QS.all_of Sample.store) Sample.u13 1 0
              ltac:(vm_compute; discriminate)
              ltac:(vm_compute; discriminate))
    as (rows & H & Hb & Ha & _).
  exists rows. split; [exact H|]. split; [exact Hb | exact Ha].
Defined.

Lemma review_endpoints_done_sample :
  reject_suggestion Sample.public_score Sample.reject_set Sample.u16 5
  = Ok (mkHttpResponse 200
          [("udbid", JInt 16); ("sugid", JInt 5); ("user_score", JInt 0)],
        [SuggestionRejected 16 Sample.pending_5 1]).
Proof.
  exact (proj1 (review_endpoints_done
                  Sample.public_score Sample.accepted_extras
                  Sample.reject_set Sample.u16 5 Sample.pending_5 eq_refl)
               eq_refl).
Defined.

Lemma get_alt_src_langs_never_own_sample :
  In 7 (lang_projects Sample.french)
  /\ In Sample.french Sample.languages
  /\ ~ In (lang_code Sample.french) ["en"; "en_US"; "en"; "de"].
Proof.
  destruct (get_alt_src_langs_never_own
              Z Sample.parse_accept_lang_header Sample.same_code
              Sample.same_code Sample.same_code Sample.languages
              [("HTTP_ACCEPT_LANGUAGE", "de,*,nl,fr,en")] []
              Sample.german_7 Sample.french (or_introl eq_refl))
    as (H1 & _ & H2).
  split; [exact H1 | exact (H2 eq_refl)].
Defined.
